(** * Client-Server: a session protocol over UDP

    A shallow embedding of the two server implementations ([A/server.py],
    asyncio; [B/server.py], threads) and the two clients ([A/client.py],
    threads; [B/client.py], asyncio), with the properties of the wire codec,
    the logical clock, the session state machine and the session table.

    Python integers are unbounded, so they are [Z]; [struct.pack] is the only
    place where a width is enforced, and it raises [struct.error] there.
    Dictionaries are [gmap]s; session objects live in a heap of references,
    because tasks and timers keep a session alive after it has left the
    table. *)

From Stdlib Require Import ZArith List Lia Strings.Byte Strings.HexString.
From stdpp Require Import gmap strings list.

Local Open Scope Z_scope.

(** ** Bytes *)

Abbreviation bytes := (list byte).

Definition byte_of_Z (z : Z) : byte :=
  match Byte.of_N (Z.to_N (z mod 256)) with
  | Some b => b
  | None => "000"%byte
  end.

Definition Z_of_byte (b : byte) : Z := Z.of_N (Byte.to_N b).

(** Python slices [m[:n]], [m[n:]] and [m[i:j]] (for [0 <= i <= j]). *)
Definition slice_to (n : nat) (m : bytes) : bytes := firstn n m.
Definition slice_from (n : nat) (m : bytes) : bytes := skipn n m.
Definition slice (i j : nat) (m : bytes) : bytes := firstn (j - i) (skipn i m).

(** ** Exceptions and the state-and-exception monad

    A Python call either returns or raises; what it wrote to the objects
    before raising stays written. *)

Inductive exn : Type :=
  | StructError
  | KeyError
  | AttributeError
  | TypeError
  | UnicodeDecodeError
  | SystemExit.

Inductive outcome (A : Type) : Type :=
  | Ret (a : A)
  | Raise (e : exn).
Arguments Ret {A} a.
Arguments Raise {A} e.

Definition M (S A : Type) : Type := S -> S * outcome A.

Definition ret {S A} (a : A) : M S A := fun s => (s, Ret a).
Definition raise {S A} (e : exn) : M S A := fun s => (s, Raise e).
Definition bind {S A B} (m : M S A) (k : A -> M S B) : M S B :=
  fun s => match m s with
           | (s', Ret a) => k a s'
           | (s', Raise e) => (s', Raise e)
           end.
Definition get {S} : M S S := fun s => (s, Ret s).
Definition modify {S} (f : S -> S) : M S unit := fun s => (f s, Ret tt).

(** [try: m except e: h]: only the exception [e] is caught. *)
Definition try_except {S A} (m : M S A) (e : exn) (h : M S A) : M S A :=
  fun s => match m s with
           | (s', Ret a) => (s', Ret a)
           | (s', Raise e') =>
               match e, e' with
               | StructError, StructError => h s'
               | KeyError, KeyError => h s'
               | AttributeError, AttributeError => h s'
               | TypeError, TypeError => h s'
               | UnicodeDecodeError, UnicodeDecodeError => h s'
               | SystemExit, SystemExit => h s'
               | _, _ => (s', Raise e')
               end
           end.

(** An optional value whose absence is the exception [e]. *)
Definition lift {S A} (e : exn) (o : option A) : M S A :=
  match o with
  | Some a => ret a
  | None => raise e
  end.

Declare Scope py_scope.
Delimit Scope py_scope with py.
Notation "x <- m ;; k" := (bind m (fun x => k))
  (at level 20, m at level 99, k at level 200, only parsing) : py_scope.
Notation "m ;; k" := (bind m (fun _ => k))
  (at level 100, k at level 200, right associativity, only parsing) : py_scope.

(** The state an operation leaves behind, whether it returned or raised. *)
Definition exec {S A} (m : M S A) (s : S) : S := fst (m s).
Definition result {S A} (m : M S A) (s : S) : outcome A := snd (m s).

(** ** The [struct] module, for the formats the programs use *)

Module Struct.

(** Big-endian bytes of the [n] low-order bytes of [v]. *)
Fixpoint be_bytes (n : nat) (v : Z) : bytes :=
  match n with
  | O => []
  | S k => byte_of_Z (v / 256 ^ Z.of_nat k) :: be_bytes k v
  end.

Fixpoint be_value (bs : bytes) (acc : Z) : Z :=
  match bs with
  | [] => acc
  | b :: rest => be_value rest (acc * 256 + Z_of_byte b)
  end.

(** One unsigned field of [n] bytes: [struct.error] out of range. *)
Definition pack_uint (n : nat) (v : Z) : option bytes :=
  if (0 <=? v) && (v <? 256 ^ Z.of_nat n) then Some (be_bytes n v) else None.

Definition unpack_uint (n : nat) (b : bytes) : option Z :=
  if Nat.eqb (length b) n then Some (be_value b 0) else None.

Record header : Type := Header {
  magic : Z;
  version : Z;
  command : Z;
  sequence_number : Z;
  session_id : Z;
  logical_clock : Z
}.

(** [struct.pack("!HBBIIQ", magic, version, command, seq, sid, clock)] *)
Definition pack (h : header) : option bytes :=
  match pack_uint 2 (magic h), pack_uint 1 (version h), pack_uint 1 (command h),
        pack_uint 4 (sequence_number h), pack_uint 4 (session_id h),
        pack_uint 8 (logical_clock h) with
  | Some a, Some b, Some c, Some d, Some e, Some f => Some (a ++ b ++ c ++ d ++ e ++ f)
  | _, _, _, _, _, _ => None
  end.

(** [struct.unpack("!HBBIIQ", buf)]: the buffer must hold exactly 20 bytes. *)
Definition unpack (buf : bytes) : option header :=
  if Nat.eqb (length buf) 20 then
    Some (Header (be_value (slice 0 2 buf) 0) (be_value (slice 2 3 buf) 0)
                 (be_value (slice 3 4 buf) 0) (be_value (slice 4 8 buf) 0)
                 (be_value (slice 8 12 buf) 0) (be_value (slice 12 20 buf) 0))
  else None.

(** What every sender does: the header, then the payload if there is one. *)
Definition encode (command sequence_number session_id logical_clock : Z)
    (payload : bytes) : option bytes :=
  match pack (Header 50273 1 command sequence_number session_id logical_clock) with
  | Some hd => Some (hd ++ payload)
  | None => None
  end.

(** What every receiver does: [unpack(message[:20])] and [message[20:]]. *)
Definition decode (message : bytes) : option (header * bytes) :=
  match unpack (slice_to 20 message) with
  | Some h => Some (h, slice_from 20 message)
  | None => None
  end.

Definition in_range (command sequence_number session_id logical_clock : Z) : Prop :=
  0 <= command < 2 ^ 8 /\ 0 <= sequence_number < 2 ^ 32 /\
  0 <= session_id < 2 ^ 32 /\ 0 <= logical_clock < 2 ^ 64.

End Struct.

(** ** [bytes.decode()]

    The servers print a payload with [data.decode()], which raises
    [UnicodeDecodeError] unless the bytes are well-formed UTF-8 (strict mode:
    no overlong forms, no surrogates, nothing above U+10FFFF). *)

Definition byte_in (lo hi : Z) (b : byte) : bool :=
  (lo <=? Z_of_byte b) && (Z_of_byte b <=? hi).

Fixpoint utf8_valid (bs : bytes) : bool :=
  match bs with
  | [] => true
  | b0 :: r0 =>
      if byte_in 0 127 b0 then utf8_valid r0 else
      match r0 with
      | [] => false
      | b1 :: r1 =>
          if byte_in 194 223 b0 then byte_in 128 191 b1 && utf8_valid r1 else
          match r1 with
          | [] => false
          | b2 :: r2 =>
              if byte_in 224 224 b0 then
                byte_in 160 191 b1 && byte_in 128 191 b2 && utf8_valid r2
              else if byte_in 225 236 b0 || byte_in 238 239 b0 then
                byte_in 128 191 b1 && byte_in 128 191 b2 && utf8_valid r2
              else if byte_in 237 237 b0 then
                byte_in 128 159 b1 && byte_in 128 191 b2 && utf8_valid r2
              else
              match r2 with
              | [] => false
              | b3 :: r3 =>
                  if byte_in 240 240 b0 then
                    byte_in 144 191 b1 && byte_in 128 191 b2 && byte_in 128 191 b3
                    && utf8_valid r3
                  else if byte_in 241 243 b0 then
                    byte_in 128 191 b1 && byte_in 128 191 b2 && byte_in 128 191 b3
                    && utf8_valid r3
                  else if byte_in 244 244 b0 then
                    byte_in 128 143 b1 && byte_in 128 191 b2 && byte_in 128 191 b3
                    && utf8_valid r3
                  else false
              end
          end
      end
  end.

(** ** What both implementations share *)

(** A peer address, the [(host, port)] tuple of the socket layer. *)
Definition address : Type := string * Z.

Definition HELLO : Z := 1.
Definition DATA : Z := 2.
Definition ALIVE : Z := 3.
Definition GOODBYE : Z := 4.

Definition MAGIC : Z := 50273. (* 0xC461 *)

(** [range(a, b)] *)
Definition range (a b : Z) : list Z :=
  map (fun k => a + Z.of_nat k) (seq 0 (Z.to_nat (b - a))).

(** ** A/server.py: the asyncio server *)

Module A.

Inductive session_state : Type := WAIT_FOR_HELLO | RECEIVE | DONE.

(** The lines the server prints, with the values they interpolate. *)
Inductive line : Type :=
  | SessionTimeout (a : address)
  | ReceivedHello (a : address) (sid : Z)
  | HelloInState (st : session_state)
  | ReceivedData (a : address) (data : bytes)
  | LostPacket (i : Z) (a : address)
  | DuplicatePacket (seq : Z) (a : address)
  | OutOfOrder (a : address)
  | ReceivedGoodbye (a : address)
  | Terminated (a : address)
  | InvalidMessage (a : address)
  | InvalidSessionId (a : address)
  | UnknownCommand (a : address)
  | IgnoringClient (a : address) (sid : Z)
  | InvalidInitial (a : address)
  | StructErrorLine.

Record ServerSession : Type := Session {
  client_address : address;
  session_id : Z;
  expected_sequence_number : Z;
  state : session_state;
  idle_timer : option nat;   (* the task running [session_timeout], if any *)
  timeout : Z
}.

(** [UDPServerProtocol], with what the event loop holds for it: the session
    objects ([objs], by reference), the sleeping [session_timeout] tasks
    ([timers], each with the session it belongs to), the [handle_message]
    tasks created and not yet run ([tasks]), and what went out through
    [transport.sendto] and [print]. *)
Record server : Type := Server {
  objs : gmap nat ServerSession;
  sessions : gmap Z nat;
  client_addresses : gmap Z address;
  logical_clock : Z;
  timers : gmap nat nat;
  tasks : list (nat * bytes);
  sent : list (bytes * address);
  stdout : list line;
  next_id : nat
}.

Definition init : server := Server ∅ ∅ ∅ 0 ∅ [] [] [] 0.

Definition set_objs (f : gmap nat ServerSession -> gmap nat ServerSession) (s : server) :=
  Server (f (objs s)) (sessions s) (client_addresses s) (logical_clock s) (timers s)
         (tasks s) (sent s) (stdout s) (next_id s).
Definition set_sessions (f : gmap Z nat -> gmap Z nat) (s : server) :=
  Server (objs s) (f (sessions s)) (client_addresses s) (logical_clock s) (timers s)
         (tasks s) (sent s) (stdout s) (next_id s).
Definition set_client_addresses (f : gmap Z address -> gmap Z address) (s : server) :=
  Server (objs s) (sessions s) (f (client_addresses s)) (logical_clock s) (timers s)
         (tasks s) (sent s) (stdout s) (next_id s).
Definition set_logical_clock (c : Z) (s : server) :=
  Server (objs s) (sessions s) (client_addresses s) c (timers s)
         (tasks s) (sent s) (stdout s) (next_id s).
Definition set_timers (f : gmap nat nat -> gmap nat nat) (s : server) :=
  Server (objs s) (sessions s) (client_addresses s) (logical_clock s) (f (timers s))
         (tasks s) (sent s) (stdout s) (next_id s).
Definition set_tasks (f : list (nat * bytes) -> list (nat * bytes)) (s : server) :=
  Server (objs s) (sessions s) (client_addresses s) (logical_clock s) (timers s)
         (f (tasks s)) (sent s) (stdout s) (next_id s).
Definition sendto (message : bytes) (a : address) (s : server) :=
  Server (objs s) (sessions s) (client_addresses s) (logical_clock s) (timers s)
         (tasks s) (sent s ++ [(message, a)]) (stdout s) (next_id s).
Definition print_line (l : line) (s : server) :=
  Server (objs s) (sessions s) (client_addresses s) (logical_clock s) (timers s)
         (tasks s) (sent s) (stdout s ++ [l]) (next_id s).
Definition bump_id (s : server) :=
  Server (objs s) (sessions s) (client_addresses s) (logical_clock s) (timers s)
         (tasks s) (sent s) (stdout s) (S (next_id s)).

Definition with_expected (n : Z) (o : ServerSession) :=
  Session (client_address o) (session_id o) n (state o) (idle_timer o) (timeout o).
Definition with_state (st : session_state) (o : ServerSession) :=
  Session (client_address o) (session_id o) (expected_sequence_number o) st
          (idle_timer o) (timeout o).
Definition with_idle_timer (t : option nat) (o : ServerSession) :=
  Session (client_address o) (session_id o) (expected_sequence_number o) (state o)
          t (timeout o).

Local Open Scope py_scope.

Definition print (l : line) : M server unit := modify (print_line l).

(** Reading [self]: a reference is only ever made by an allocation, so the
    lookup fails in no state the server reaches. *)
Definition self_ (r : nat) : M server ServerSession :=
  fun s => match objs s !! r with
           | Some o => (s, Ret o)
           | None => (s, Raise TypeError)
           end.

Definition update_self (r : nat) (f : ServerSession -> ServerSession) : M server unit :=
  modify (set_objs (alter f r)).

Definition fresh : M server nat :=
  fun s => (bump_id s, Ret (next_id s)).

(** [ServerSession.__init__] *)
Definition new_session (a : address) (sid initial_sequence_number : Z) : ServerSession :=
  Session a sid (initial_sequence_number + 1) WAIT_FOR_HELLO None 20.

(** [UDPServerProtocol.update_logical_clock] *)
Definition update_logical_clock (received_clock : option Z) : M server Z :=
  fun s =>
    let c := match received_clock with
             | Some v => if v >? logical_clock s then v + 1 else logical_clock s + 1
             | None => logical_clock s + 1
             end in
    (set_logical_clock c s, Ret c).

Definition cancel_timer (r : nat) : M server unit :=
  self <- self_ r ;;
  match idle_timer self with
  | Some t => modify (set_timers (delete t)) ;; update_self r (with_idle_timer None)
  | None => ret tt
  end.

Definition set_timer (r : nat) : M server unit :=
  cancel_timer r ;;
  t <- fresh ;;
  modify (set_timers (insert t r)) ;;
  update_self r (with_idle_timer (Some t)).

Definition send_message (r : nat) (command sequence_number : Z) (data : option bytes)
  : M server unit :=
  logical_clock_value <- update_logical_clock None ;;
  self <- self_ r ;;
  header <- lift StructError
    (Struct.pack (Struct.Header MAGIC 1 command sequence_number (session_id self)
                                logical_clock_value)) ;;
  let message := match data with
                 | Some (b :: d) => header ++ b :: d
                 | _ => header
                 end in
  modify (sendto message (client_address self)).

Definition terminate (r : nat) : M server unit :=
  self <- self_ r ;;
  print (Terminated (client_address self)) ;;
  cancel_timer r ;;
  s <- get ;;
  match sessions s !! session_id self with
  | Some _ => modify (set_sessions (delete (session_id self)))
  | None => raise KeyError
  end.

(** The three lines that close a session from the server's side. *)
Definition goodbye_and_terminate (r : nat) : M server unit :=
  send_message r GOODBYE 0 None ;;
  update_self r (with_state DONE) ;;
  terminate r.

(** [session_timeout], from the moment [asyncio.sleep] returns. *)
Definition session_timeout (r : nat) : M server unit :=
  self <- self_ r ;;
  print (SessionTimeout (client_address self)) ;;
  goodbye_and_terminate r.

Definition handle_hello (r : nat) (sequence_number : Z) : M server unit :=
  self <- self_ r ;;
  match state self with
  | WAIT_FOR_HELLO =>
      print (ReceivedHello (client_address self) (session_id self)) ;;
      send_message r HELLO sequence_number None ;;
      update_self r (with_state RECEIVE) ;;
      set_timer r
  | st =>
      print (HelloInState st) ;;
      goodbye_and_terminate r
  end.

(** [print(f"Received DATA from ...: {data.decode()}")] *)
Definition print_data (a : address) (data : bytes) : M server unit :=
  if utf8_valid data then print (ReceivedData a data) else raise UnicodeDecodeError.

(** The four branches of [handle_data] on the sequence number. *)
Definition classify (r : nat) (self : ServerSession) (sequence_number : Z) (data : bytes)
  : M server unit :=
  if sequence_number =? expected_sequence_number self then
    print_data (client_address self) data ;;
    update_self r (with_expected (expected_sequence_number self + 1)) ;;
    send_message r ALIVE sequence_number None ;;
    set_timer r
  else if sequence_number >? expected_sequence_number self then
    modify (fun s => fold_left (fun s i => print_line (LostPacket i (client_address self)) s)
                       (range (expected_sequence_number self) sequence_number) s) ;;
    update_self r (with_expected (sequence_number + 1)) ;;
    print_data (client_address self) data ;;
    send_message r ALIVE sequence_number None
  else if sequence_number =? expected_sequence_number self - 1 then
    print (DuplicatePacket sequence_number (client_address self))
  else
    print (OutOfOrder (client_address self)) ;;
    goodbye_and_terminate r.

Definition handle_data (r : nat) (sequence_number : Z) (data : bytes)
    (received_logical_clock : Z) : M server unit :=
  self <- self_ r ;;
  match state self with
  | RECEIVE =>
      update_logical_clock (Some received_logical_clock) ;;
      classify r self sequence_number data
  | _ => ret tt
  end.

Definition handle_goodbye (r : nat) : M server unit :=
  self <- self_ r ;;
  match state self with
  | RECEIVE =>
      print (ReceivedGoodbye (client_address self)) ;;
      goodbye_and_terminate r
  | _ => ret tt
  end.

Definition handle_message (r : nat) (message : bytes) : M server unit :=
  h <- lift StructError (Struct.unpack (slice_to 20 message)) ;;
  self <- self_ r ;;
  if negb (Struct.magic h =? MAGIC) || negb (Struct.version h =? 1) then
    print (InvalidMessage (client_address self)) ;;
    goodbye_and_terminate r
  else if negb (Struct.session_id h =? session_id self) then
    print (InvalidSessionId (client_address self)) ;;
    goodbye_and_terminate r
  else if Struct.command h =? HELLO then
    handle_hello r (Struct.sequence_number h)
  else if Struct.command h =? DATA then
    handle_data r (Struct.sequence_number h) (slice_from 20 message) (Struct.logical_clock h)
  else if Struct.command h =? GOODBYE then
    handle_goodbye r
  else
    print (UnknownCommand (client_address self)) ;;
    goodbye_and_terminate r.

(** [asyncio.create_task(session.handle_message(data))] *)
Definition create_task (r : nat) (data : bytes) : M server unit :=
  modify (set_tasks (fun q => q ++ [(r, data)])).

Definition datagram_received (data : bytes) (addr : address) : M server unit :=
  try_except
    (session_id <- lift StructError (Struct.unpack_uint 4 (slice 8 12 data)) ;;
     sequence_number <- lift StructError (Struct.unpack_uint 4 (slice 4 8 data)) ;;
     command <- lift StructError (Struct.unpack_uint 1 (slice 3 4 data)) ;;
     s <- get ;;
     match sessions s !! session_id with
     | Some r =>
         bound <- lift KeyError (client_addresses s !! session_id) ;;
         if bool_decide (addr = bound) then create_task r data
         else print (IgnoringClient addr session_id)
     | None =>
         if command =? HELLO then
           r <- fresh ;;
           modify (set_objs (insert r (new_session addr session_id sequence_number))) ;;
           modify (set_sessions (insert session_id r)) ;;
           modify (set_client_addresses (insert session_id addr)) ;;
           create_task r data
         else print (InvalidInitial addr)
     end)
    StructError
    (print StructErrorLine).

(** What the event loop does next: it delivers a datagram, runs the oldest
    [handle_message] task, or wakes a [session_timeout] task whose sleep is
    over. An exception ends that callback or task and nothing else. *)
Inductive event : Type :=
  | Datagram (data : bytes) (addr : address)
  | RunTask
  | TimerFires (t : nat).

Definition step (ev : event) (s : server) : server :=
  match ev with
  | Datagram data addr => exec (datagram_received data addr) s
  | RunTask =>
      match tasks s with
      | [] => s
      | (r, data) :: rest => exec (handle_message r data) (set_tasks (fun _ => rest) s)
      end
  | TimerFires t =>
      match timers s !! t with
      | Some r => exec (session_timeout r) (set_timers (delete t) s)
      | None => s
      end
  end.

Definition run (evs : list event) (s : server) : server :=
  fold_left (fun s ev => step ev s) evs s.

End A.

(** ** B/server.py: the threaded server

    Each datagram is handled by a thread of its own and each idle timer is a
    [threading.Timer]; the model runs one [handle_client] or one
    [issue_timeout] at a time, which are the executions in which no two of
    them overlap. *)

Module B.

Inductive line : Type :=
  | SessionTimeout (sid : Z)
  | ReceivedHello (sid : Z)
  | Blank
  | ClockValue (v : Z)
  | LostPackets (sid expected seq_num : Z)
  | DuplicatePacket (sid : Z)
  | ReceivedData (sid : Z) (payload : bytes)
  | ReceivedGoodbye (sid : Z)
  | InvalidPacket (a : address)
  | ErrorDecoding
  | Malformed
  | InUse (sid : Z) (incumbent rejected : address)
  | NewSession (sid : Z) (a : address)
  | NotFound (sid : Z) (a : address).

Record ServerSession : Type := Session {
  client_address : address;
  session_id : Z;
  expected_sequence : Z;
  active : bool;
  timer : option nat
}.

(** [UDPServer]: the session objects by reference, the table, the clock,
    the timers started and neither cancelled nor fired, and what went out
    through [server_socket.sendto] and [print]. *)
Record server : Type := Server {
  objs : gmap nat ServerSession;
  sessions : gmap Z nat;
  logical_clock : Z;
  timers : gmap nat nat;
  sent : list (bytes * address);
  stdout : list line;
  next_id : nat
}.

Definition init : server := Server ∅ ∅ 0 ∅ [] [] 0.

Definition set_objs (f : gmap nat ServerSession -> gmap nat ServerSession) (s : server) :=
  Server (f (objs s)) (sessions s) (logical_clock s) (timers s) (sent s) (stdout s)
         (next_id s).
Definition set_sessions (f : gmap Z nat -> gmap Z nat) (s : server) :=
  Server (objs s) (f (sessions s)) (logical_clock s) (timers s) (sent s) (stdout s)
         (next_id s).
Definition set_logical_clock (c : Z) (s : server) :=
  Server (objs s) (sessions s) c (timers s) (sent s) (stdout s) (next_id s).
Definition set_timers (f : gmap nat nat -> gmap nat nat) (s : server) :=
  Server (objs s) (sessions s) (logical_clock s) (f (timers s)) (sent s) (stdout s)
         (next_id s).
Definition sendto (message : bytes) (a : address) (s : server) :=
  Server (objs s) (sessions s) (logical_clock s) (timers s) (sent s ++ [(message, a)])
         (stdout s) (next_id s).
Definition print_line (l : line) (s : server) :=
  Server (objs s) (sessions s) (logical_clock s) (timers s) (sent s) (stdout s ++ [l])
         (next_id s).
Definition bump_id (s : server) :=
  Server (objs s) (sessions s) (logical_clock s) (timers s) (sent s) (stdout s)
         (S (next_id s)).

Definition with_expected (n : Z) (o : ServerSession) :=
  Session (client_address o) (session_id o) n (active o) (timer o).
Definition with_active (b : bool) (o : ServerSession) :=
  Session (client_address o) (session_id o) (expected_sequence o) b (timer o).
Definition with_timer (t : option nat) (o : ServerSession) :=
  Session (client_address o) (session_id o) (expected_sequence o) (active o) t.

Local Open Scope py_scope.

Definition print (l : line) : M server unit := modify (print_line l).

Definition self_ (r : nat) : M server ServerSession :=
  fun s => match objs s !! r with
           | Some o => (s, Ret o)
           | None => (s, Raise TypeError)
           end.

Definition update_self (r : nat) (f : ServerSession -> ServerSession) : M server unit :=
  modify (set_objs (alter f r)).

Definition fresh : M server nat :=
  fun s => (bump_id s, Ret (next_id s)).

(** [ServerSession.__init__] *)
Definition new_session (a : address) (sid : Z) : ServerSession :=
  Session a sid 0 true None.

(** [UDPServer.update_logical_clock] *)
Definition update_logical_clock (received_clock : option Z) : M server Z :=
  fun s =>
    let c := match received_clock with
             | Some v => if v >? logical_clock s then v + 1 else logical_clock s + 1
             | None => logical_clock s + 1
             end in
    (set_logical_clock c s, Ret c).

(** [cancel_timer] stops the timer and keeps the attribute. *)
Definition cancel_timer (r : nat) : M server unit :=
  self <- self_ r ;;
  match timer self with
  | Some t => modify (set_timers (delete t))
  | None => ret tt
  end.

Definition set_timer (r : nat) : M server unit :=
  cancel_timer r ;;
  t <- fresh ;;
  update_self r (with_timer (Some t)) ;;
  modify (set_timers (insert t r)).

Definition start (r : nat) : M server unit := set_timer r.

Definition send_message (r : nat) (command seq_num : Z) (data : option bytes)
  : M server unit :=
  current_clock_value <- update_logical_clock None ;;
  self <- self_ r ;;
  header <- lift StructError
    (Struct.pack (Struct.Header MAGIC 1 command seq_num (session_id self)
                                current_clock_value)) ;;
  let message := header ++ match data with
                           | Some (b :: d) => b :: d
                           | _ => []
                           end in
  modify (sendto message (client_address self)).

Definition send_goodbye (r : nat) : M server unit :=
  self <- self_ r ;;
  send_message r GOODBYE (expected_sequence self) None.

(** The function the timer runs when it fires. *)
Definition issue_timeout (r : nat) : M server unit :=
  self <- self_ r ;;
  print (SessionTimeout (session_id self)) ;;
  send_goodbye r ;;
  update_self r (with_active false).

Definition handle_hello (r : nat) (seq_num : Z) : M server unit :=
  self <- self_ r ;;
  print (ReceivedHello (session_id self)) ;;
  send_message r HELLO seq_num None.

(** [print(f"...: Received DATA: {payload.decode()}")]; the payload is
    [None] when the datagram holds the header only. *)
Definition print_data (sid : Z) (payload : option bytes) : M server unit :=
  match payload with
  | None => raise AttributeError
  | Some p => if utf8_valid p then print (ReceivedData sid p) else raise UnicodeDecodeError
  end.

(** After the two branches of [handle_data] that go on. *)
Definition accept_data (r : nat) (seq_num : Z) (payload : option bytes) : M server unit :=
  self <- self_ r ;;
  print_data (session_id self) payload ;;
  update_self r (with_expected (expected_sequence self + 1)) ;;
  send_message r ALIVE seq_num None.

Definition handle_data (r : nat) (seq_num : Z) (payload : option bytes) (clock_value : Z)
  : M server unit :=
  print Blank ;;
  print (ClockValue clock_value) ;;
  self <- self_ r ;;
  if seq_num >? expected_sequence self then
    print (LostPackets (session_id self) (expected_sequence self) seq_num) ;;
    update_self r (with_expected (seq_num + 1)) ;;
    accept_data r seq_num payload
  else if seq_num <? expected_sequence self then
    print (DuplicatePacket (session_id self))
  else
    accept_data r seq_num payload.

Definition handle_goodbye (r : nat) : M server unit :=
  self <- self_ r ;;
  print (ReceivedGoodbye (session_id self)) ;;
  send_goodbye r ;;
  update_self r (with_active false).

Definition process_message (r : nat) (message : bytes) : M server unit :=
  cancel_timer r ;;
  set_timer r ;;
  try_except
    (h <- lift StructError (Struct.unpack (slice_to 20 message)) ;;
     let payload := if Nat.ltb 20 (length message) then Some (slice_from 20 message)
                    else None in
     self <- self_ r ;;
     if negb (Struct.magic h =? MAGIC) || negb (Struct.version h =? 1) then
       print (InvalidPacket (client_address self))
     else if Struct.command h =? HELLO then
       handle_hello r (Struct.sequence_number h)
     else if Struct.command h =? DATA then
       handle_data r (Struct.sequence_number h) payload (Struct.logical_clock h)
     else if Struct.command h =? GOODBYE then
       handle_goodbye r
     else ret tt)
    StructError
    (print ErrorDecoding).

(** [f"Session ID {hex(session_id)} is already in use. Connection rejected.".encode()] *)
Definition rejection_message (session_id : Z) : bytes :=
  String.list_byte_of_string
    ("Session ID " +:+ HexString.of_Z session_id +:+ " is already in use. Connection rejected.").

Definition send_rejection (a : address) (session_id : Z) : M server unit :=
  modify (sendto (rejection_message session_id) a).

(** The end of [handle_client], shared by an existing and a new session. *)
Definition process_and_reap (r : nat) (session_id : Z) (message : bytes) : M server unit :=
  process_message r message ;;
  session <- self_ r ;;
  if active session then ret tt
  else
    s <- get ;;
    match sessions s !! session_id with
    | Some _ => modify (set_sessions (delete session_id))
    | None => raise KeyError
    end.

(** The block of [handle_client] that runs under [self.lock]. *)
Definition locked (h : Struct.header) (message : bytes) (a : address) : M server unit :=
  let session_id := Struct.session_id h in
  s <- get ;;
  match sessions s !! session_id with
  | Some r =>
      session <- self_ r ;;
      if negb (bool_decide (client_address session = a)) then
        print (InUse session_id (client_address session) a) ;;
        update_logical_clock None ;;
        send_rejection a session_id
      else process_and_reap r session_id message
  | None =>
      if Struct.command h =? HELLO then
        print (NewSession session_id a) ;;
        r <- fresh ;;
        modify (set_objs (insert r (new_session a session_id))) ;;
        modify (set_sessions (insert session_id r)) ;;
        start r ;;
        process_and_reap r session_id message
      else print (NotFound session_id a)
  end.

Definition handle_client (message : bytes) (a : address) : M server unit :=
  match Struct.unpack (slice_to 20 message) with
  | None => print Malformed
  | Some h =>
      update_logical_clock (Some (Struct.logical_clock h)) ;;
      locked h message a
  end.

Inductive event : Type :=
  | Datagram (message : bytes) (addr : address)
  | TimerFires (t : nat).

Definition step (ev : event) (s : server) : server :=
  match ev with
  | Datagram message addr => exec (handle_client message addr) s
  | TimerFires t =>
      match timers s !! t with
      | Some r => exec (issue_timeout r) (set_timers (delete t) s)
      | None => s
      end
  end.

Definition run (evs : list event) (s : server) : server :=
  fold_left (fun s ev => step ev s) evs s.

End B.

(** ** A/client.py: the threaded client *)

Module ClientA.

Inductive line : Type :=
  | IdleExpired (timeout : Z)
  | Sent (command : Z) (data : option bytes) (clock : Z)
  | SendingGoodbye
  | ReceivedMessage (h : Struct.header) (payload : bytes)
  | StructErrorLine
  | ReceivedGoodbye
  | HelloFromClient
  | HelloEquals
  | NoHelloFromServer
  | ReceivedHello
  | ReceiveTimeout.

Record Client : Type := MkClient {
  sequence_number : Z;
  session_id : Z;
  timeout : Z;
  logical_clock : Z;
  server : address;             (* [(server_host, server_port)] *)
  idle_timer : option nat;
  timers : gset nat;            (* started, neither cancelled nor fired *)
  shutdown_event : bool;
  sent : list (bytes * address);
  stdout : list line;
  next_id : nat
}.

(** [Client.__init__], for the session id that [random.randint] drew. *)
Definition init (server : address) (session_id : Z) : Client :=
  MkClient 0 session_id 8 0 server None ∅ false [] [] 0.

Definition set_logical_clock (c : Z) (s : Client) :=
  MkClient (sequence_number s) (session_id s) (timeout s) c (server s) (idle_timer s)
           (timers s) (shutdown_event s) (sent s) (stdout s) (next_id s).
Definition set_sequence_number (n : Z) (s : Client) :=
  MkClient n (session_id s) (timeout s) (logical_clock s) (server s) (idle_timer s)
           (timers s) (shutdown_event s) (sent s) (stdout s) (next_id s).
Definition set_idle_timer (t : option nat) (ts : gset nat) (s : Client) :=
  MkClient (sequence_number s) (session_id s) (timeout s) (logical_clock s) (server s) t
           ts (shutdown_event s) (sent s) (stdout s) (next_id s).
Definition set_shutdown (s : Client) :=
  MkClient (sequence_number s) (session_id s) (timeout s) (logical_clock s) (server s)
           (idle_timer s) (timers s) true (sent s) (stdout s) (next_id s).
Definition sendto (message : bytes) (a : address) (s : Client) :=
  MkClient (sequence_number s) (session_id s) (timeout s) (logical_clock s) (server s)
           (idle_timer s) (timers s) (shutdown_event s) (sent s ++ [(message, a)])
           (stdout s) (next_id s).
Definition print_line (l : line) (s : Client) :=
  MkClient (sequence_number s) (session_id s) (timeout s) (logical_clock s) (server s)
           (idle_timer s) (timers s) (shutdown_event s) (sent s) (stdout s ++ [l])
           (next_id s).

Local Open Scope py_scope.

Definition print (l : line) : M Client unit := modify (print_line l).

Definition update_logical_clock (new_value : option Z) : M Client Z :=
  fun s =>
    let c := match new_value with
             | Some v => if v >? logical_clock s then v + 1 else logical_clock s + 1
             | None => logical_clock s + 1
             end in
    (set_logical_clock c s, Ret c).

Definition cancel_timer : M Client unit :=
  modify (fun s => match idle_timer s with
                   | Some t => set_idle_timer None (timers s ∖ {[t]}) s
                   | None => s
                   end).

Definition send_message (command : Z) (data : option bytes) : M Client unit :=
  logical_clock_value <- update_logical_clock None ;;
  s <- get ;;
  header <- lift StructError
    (Struct.pack (Struct.Header MAGIC 1 command (sequence_number s) (session_id s)
                                logical_clock_value)) ;;
  let message := match data with
                 | Some d => header ++ d
                 | None => header
                 end in
  modify (sendto message (server s)) ;;
  modify (set_sequence_number (sequence_number s + 1)) ;;
  print (Sent command data logical_clock_value) ;;
  if command =? GOODBYE then print SendingGoodbye ;; modify set_shutdown
  else ret tt.

(** [decode_message]: the pair it returns, or [None] after a [struct.error]. *)
Definition decode_message (message : bytes) : M Client (option (Z * Z)) :=
  try_except
    (h <- lift StructError (Struct.unpack (slice_to 20 message)) ;;
     let payload := slice_from 20 message in
     (if utf8_valid payload then print (ReceivedMessage h payload)
      else raise UnicodeDecodeError) ;;
     ret (Some (Struct.command h, Struct.logical_clock h)))
    StructError
    (print StructErrorLine ;; modify set_shutdown ;; ret None).

(** One turn of the loop of [receive_message], for a datagram that arrived. *)
Definition receive_message (response : bytes) : M Client unit :=
  cancel_timer ;;
  decoded <- decode_message response ;;
  p <- lift TypeError decoded ;;
  update_logical_clock (Some (snd p)) ;;
  if fst p =? GOODBYE then print ReceivedGoodbye ;; modify set_shutdown
  else ret tt.

(** [set_timer]: a new timer is started and held; the one held before is
    not cancelled. *)
Definition set_timer : M Client unit :=
  modify (fun s =>
    MkClient (sequence_number s) (session_id s) (timeout s) (logical_clock s) (server s)
             (Some (next_id s)) (timers s ∪ {[next_id s]}) (shutdown_event s) (sent s)
             (stdout s) (S (next_id s))).

(** [issue_timeout], which a timer runs when it fires. *)
Definition issue_timeout : M Client unit :=
  s <- get ;;
  print (IdleExpired (timeout s)) ;;
  send_message GOODBYE None ;;
  modify set_shutdown.

(** The body of the [try] in [run], for the response that [recvfrom]
    returned: the clock is ticked, not merged, and [sys.exit] ends the
    client when the response is not a [HELLO]. *)
Definition await_hello (response : bytes) : M Client unit :=
  cancel_timer ;;
  decoded <- decode_message response ;;
  p <- lift TypeError decoded ;;
  update_logical_clock None ;;
  print HelloEquals ;;
  if negb (fst p =? HELLO) then print NoHelloFromServer ;; raise SystemExit
  else print ReceivedHello.

(** [run], up to the start of the two threads; [None] is [socket.timeout]. *)
Definition run (response : option bytes) : M Client unit :=
  print HelloFromClient ;;
  send_message HELLO None ;;
  update_logical_clock None ;;
  set_timer ;;
  match response with
  | Some response => await_hello response
  | None => print ReceiveTimeout ;; issue_timeout
  end.

End ClientA.

(** ** B/client.py: the asyncio client *)

Module ClientB.

Inductive line : Type :=
  | SentMessage (command sequence_number : Z)
  | InvalidMagicOrVersion
  | InvalidSessionId
  | ReceivedAlive (clock sequence_number : Z)
  | ReceivedGoodbye
  | ReceivedOther (command sequence_number clock : Z)
  | Payload (payload : bytes).

Record AsyncUDPClient : Type := MkClient {
  server : address;
  session_id : Z;
  sequence_number : Z;
  logical_clock : Z;
  closed : bool;                (* [transport.close()] was called *)
  sent : list (bytes * address);
  stdout : list line
}.

Definition init (server : address) (session_id : Z) : AsyncUDPClient :=
  MkClient server session_id 0 0 false [] [].

Definition set_logical_clock (c : Z) (s : AsyncUDPClient) :=
  MkClient (server s) (session_id s) (sequence_number s) c (closed s) (sent s) (stdout s).
Definition set_sequence_number (n : Z) (s : AsyncUDPClient) :=
  MkClient (server s) (session_id s) n (logical_clock s) (closed s) (sent s) (stdout s).
Definition close (s : AsyncUDPClient) :=
  MkClient (server s) (session_id s) (sequence_number s) (logical_clock s) true (sent s)
           (stdout s).
Definition sendto (message : bytes) (a : address) (s : AsyncUDPClient) :=
  MkClient (server s) (session_id s) (sequence_number s) (logical_clock s) (closed s)
           (sent s ++ [(message, a)]) (stdout s).
Definition print_line (l : line) (s : AsyncUDPClient) :=
  MkClient (server s) (session_id s) (sequence_number s) (logical_clock s) (closed s)
           (sent s) (stdout s ++ [l]).

Local Open Scope py_scope.

Definition print (l : line) : M AsyncUDPClient unit := modify (print_line l).

Definition update_logical_clock (new_value : option Z) : M AsyncUDPClient Z :=
  fun s =>
    let c := match new_value with
             | Some v => if v >? logical_clock s then v + 1 else logical_clock s + 1
             | None => logical_clock s + 1
             end in
    (set_logical_clock c s, Ret c).

Definition send_message (command : Z) (data : option bytes) : M AsyncUDPClient unit :=
  s <- get ;;
  header <- lift StructError
    (Struct.pack (Struct.Header MAGIC 1 command (sequence_number s) (session_id s)
                                (logical_clock s))) ;;
  let message := header ++ match data with
                           | Some (b :: d) => b :: d
                           | _ => []
                           end in
  modify (sendto message (server s)) ;;
  print (SentMessage command (sequence_number s)) ;;
  modify (set_sequence_number (sequence_number s + 1)) ;;
  update_logical_clock None ;;
  ret tt.

Definition handle_response (message : bytes) : M AsyncUDPClient unit :=
  h <- lift StructError (Struct.unpack (slice_to 20 message)) ;;
  update_logical_clock (Some (Struct.logical_clock h)) ;;
  let payload := if Nat.ltb 20 (length message) then slice_from 20 message else [] in
  s <- get ;;
  if negb (Struct.magic h =? MAGIC) || negb (Struct.version h =? 1) then
    print InvalidMagicOrVersion
  else if negb (Struct.session_id h =? session_id s) then
    print InvalidSessionId
  else if Struct.command h =? ALIVE then
    print (ReceivedAlive (Struct.logical_clock h) (Struct.sequence_number h))
  else if Struct.command h =? GOODBYE then
    print ReceivedGoodbye ;; modify close
  else
    print (ReceivedOther (Struct.command h) (Struct.sequence_number h)
                         (Struct.logical_clock h)) ;;
    match payload with
    | [] => ret tt
    | _ => if utf8_valid payload then print (Payload payload)
           else raise UnicodeDecodeError
    end.




End ClientB.

(** The payload that follows the header, for the optional [data] of a
    [send_message]. *)
Definition payload_of (data : option bytes) : bytes :=
  match data with
  | Some d => d
  | None => []
  end.

(** ** Observations on what a process sent *)

(** Whether a datagram with the given command went out between two values of
    the [sent] log. *)
Definition has_command (command : Z) (m : bytes * address) : bool :=
  match Struct.decode (fst m) with
  | Some (h, _) => Struct.command h =? command
  | None => false
  end.



Definition emitted (command : Z) (before after : list (bytes * address)) : bool :=
  existsb (has_command command) (skipn (length before) after).

(** ** States used as concrete inputs

    Two peers, and the states the servers are in after a handshake with the
    first of them for session id 7. *)

Definition peer1 : address := ("10.0.0.1"%string, 5000).
Definition peer2 : address := ("10.0.0.2"%string, 6000).

(** A datagram as a client builds it, with any magic and version. *)
Definition datagram (magic version command seq sid clock : Z) (payload : bytes) : bytes :=
  match Struct.pack (Struct.Header magic version command seq sid clock) with
  | Some hd => hd ++ payload
  | None => []
  end.

Definition hi : bytes := ["h"; "i"]%byte.

(** A server, session 7 of [peer1] in [RECEIVE], expecting sequence number 1. *)
Definition A_established : A.server :=
  A.run [A.Datagram (datagram MAGIC 1 HELLO 0 7 0 []) peer1; A.RunTask] A.init.

(** B server, session 7 of [peer1] active, after [DATA] 0 and 1: it expects 2. *)
Definition B_established : B.server :=
  B.run [B.Datagram (datagram MAGIC 1 HELLO 0 7 0 []) peer1;
         B.Datagram (datagram MAGIC 1 DATA 0 7 1 hi) peer1;
         B.Datagram (datagram MAGIC 1 DATA 1 7 2 hi) peer1] B.init.

(** [process_message] re-arms the timer: the old one is cancelled, and the
    new one has the next free identifier. *)
Definition B_rearmed (q : nat) (p : B.ServerSession) (t : B.server) : B.server :=
  B.set_timers (insert (B.next_id t) q)
    (B.set_objs (alter (B.with_timer (Some (B.next_id t))) q)
       (B.bump_id
          (match B.timer p with
           | Some tm => B.set_timers (delete tm) (B.set_timers (delete tm) t)
           | None => t
           end))).

(** A server, session 7 of [peer1] still in [WAIT_FOR_HELLO]: its [HELLO]
    arrived cut to 16 bytes, so the session was created from the bytes that
    were there and its [handle_message] task ended in [struct.error]. *)
Definition A_awaiting : A.server :=
  A.run [A.Datagram (firstn 16 (datagram MAGIC 1 HELLO 0 7 0 [])) peer1; A.RunTask] A.init.

(** B server, right after the handshake for session 7 of [peer1]. *)
Definition B_handshaken : B.server :=
  B.run [B.Datagram (datagram MAGIC 1 HELLO 0 7 0 []) peer1] B.init.

(** ** Relations a whole operation keeps

    [preserves R m]: whatever [m] does, and whether it returns or raises, the
    state it leaves is [R]-related to the one it started from. *)
Definition preserves {S A} (R : S -> S -> Prop) (m : M S A) : Prop :=
  forall s, R s (fst (m s)).

(** The clock never goes back. *)
Definition A_clock_le (s s' : A.server) : Prop := A.logical_clock s <= A.logical_clock s'.
Definition B_clock_le (s s' : B.server) : Prop := B.logical_clock s <= B.logical_clock s'.

(** The A server's two maps: the address bindings are kept as they are and
    the table only loses entries. *)
Definition A_table_shrinks (s s' : A.server) : Prop :=
  A.client_addresses s' = A.client_addresses s /\ dom (A.sessions s') ⊆ dom (A.sessions s).

(** Every session id in the table has an address binding. *)
Definition A_bound (s : A.server) : Prop :=
  dom (A.sessions s) ⊆ dom (A.client_addresses s).

(** A clock that [struct.pack] can no longer encode ends all sending: the
    clock never goes back, and from [2 ^ 64 - 1] on nothing is sent. *)
Definition A_silent (s s' : A.server) : Prop :=
  A.logical_clock s <= A.logical_clock s' /\
  (2 ^ 64 - 1 <= A.logical_clock s -> A.sent s' = A.sent s).

(** The B server's counterpart: past that point the only datagrams that
    still go out are the texts of [send_rejection], which carry no header. *)
Definition is_rejection (m : bytes * address) : Prop :=
  exists sid, fst m = B.rejection_message sid.

Definition B_muted (t t' : B.server) : Prop :=
  B.logical_clock t <= B.logical_clock t' /\
  (2 ^ 64 - 1 <= B.logical_clock t ->
   exists rej, B.sent t' = B.sent t ++ rej /\ Forall is_rejection rej).

(** ** Triples

    [hoare P m Q E]: run from a state where [P] holds, [m] returns a value
    [a] in a state where [Q a] holds, or raises in a state where [E] holds. *)
Definition hoare {S A} (P : S -> Prop) (m : M S A) (Q : A -> S -> Prop) (E : S -> Prop)
  : Prop :=
  forall s, P s ->
    match snd (m s) with
    | Ret a => Q a (fst (m s))
    | Raise _ => E (fst (m s))
    end.

(** The idle timers of the A server: every object and every timer was
    allocated, and a sleeping [session_timeout] task belongs to a session in
    the [RECEIVE] state that holds it as its [idle_timer]. *)
Definition A_timers_ok (s : A.server) : Prop :=
  (forall r, is_Some (A.objs s !! r) -> (r < A.next_id s)%nat) /\
  (forall t r, A.timers s !! t = Some r ->
     (t < A.next_id s)%nat /\
     exists o, A.objs s !! r = Some o /\ A.idle_timer o = Some t /\
               A.state o = A.RECEIVE).

(** The same, with what the object behind the reference [r] holds. *)
Definition A_at (r : nat) (o : A.ServerSession) (s : A.server) : Prop :=
  A_timers_ok s /\ A.objs s !! r = Some o.

(** Operations that touch neither the objects nor the timers. *)
Definition A_frame (s s' : A.server) : Prop :=
  A.objs s' = A.objs s /\ A.timers s' = A.timers s /\ A.next_id s' = A.next_id s.

(** The session ids of the A server: the table leads to a session with the
    id it is filed under, a queued [handle_message] task holds a datagram
    that carries the id of the session it was created for, and the line of
    the session-id check of [handle_message] was never printed. *)
Definition A_ids_ok (s : A.server) : Prop :=
  (forall r, is_Some (A.objs s !! r) -> (r < A.next_id s)%nat) /\
  (forall sid r, A.sessions s !! sid = Some r ->
     exists o, A.objs s !! r = Some o /\ A.session_id o = sid) /\
  (forall r data, In (r, data) (A.tasks s) ->
     exists o, A.objs s !! r = Some o /\
               Struct.unpack_uint 4 (slice 8 12 data) = Some (A.session_id o)) /\
  (forall a, ~ In (A.InvalidSessionId a) (A.stdout s)).

(** What the handlers keep of it: objects stay, with their session id; the
    table only loses entries; the queue is not touched; the line of the
    session-id check is not printed. *)
Definition A_ids_kept (s s' : A.server) : Prop :=
  (forall r o, A.objs s !! r = Some o ->
     exists o', A.objs s' !! r = Some o' /\ A.session_id o' = A.session_id o) /\
  (forall r, is_Some (A.objs s' !! r) -> is_Some (A.objs s !! r)) /\
  (A.next_id s <= A.next_id s')%nat /\
  (forall sid r, A.sessions s' !! sid = Some r -> A.sessions s !! sid = Some r) /\
  A.tasks s' = A.tasks s /\
  (forall a, In (A.InvalidSessionId a) (A.stdout s') ->
             In (A.InvalidSessionId a) (A.stdout s)).

(** A timer of the A client that is running and is not the one the client
    holds, so that [cancel_timer] cannot reach it. *)
Definition ClientA_orphan (t : nat) (c : ClientA.Client) : Prop :=
  t ∈ ClientA.timers c /\ ClientA.idle_timer c <> Some t /\ (t < ClientA.next_id c)%nat.

(** The A server's clock and [sent] log are left as they are. *)
Definition A_quiet (s s' : A.server) : Prop :=
  A.logical_clock s' = A.logical_clock s /\ A.sent s' = A.sent s.

(** ** Codec lemmas *)

Lemma Z_of_byte_of_Z (z : Z) : Z_of_byte (byte_of_Z z) = z mod 256.
Proof.
  unfold Z_of_byte, byte_of_Z.
  assert (Hr : 0 <= z mod 256 < 256) by (apply Z.mod_pos_bound; lia).
  destruct (Byte.of_N (Z.to_N (z mod 256))) as [b|] eqn:E.
  - apply Byte.to_of_N in E. rewrite E. lia.
  - apply Byte.of_N_None_iff in E. lia.
Qed.

Lemma Z_of_byte_range (b : byte) : 0 <= Z_of_byte b < 256.
Proof.
  unfold Z_of_byte. pose proof (Byte.to_N_bounded b). lia.
Qed.

Lemma be_bytes_length (n : nat) (v : Z) : length (Struct.be_bytes n v) = n.
Proof. induction n as [|k IH]; simpl; [reflexivity | now rewrite IH]. Qed.

Lemma be_value_be_bytes (n : nat) (v acc : Z) :
  Struct.be_value (Struct.be_bytes n v) acc = acc * 256 ^ Z.of_nat n + v mod 256 ^ Z.of_nat n.
Proof.
  revert acc. induction n as [|k IH]; intros acc.
  - simpl. rewrite Z.mod_1_r. lia.
  - cbn [Struct.be_bytes Struct.be_value]. rewrite IH, Z_of_byte_of_Z.
    rewrite Nat2Z.inj_succ, Z.pow_succ_r by lia.
    assert (Hp : 0 < 256 ^ Z.of_nat k) by (apply Z.pow_pos_nonneg; lia).
    rewrite (Z.mul_comm 256 (256 ^ Z.of_nat k)).
    rewrite (Z.rem_mul_r v (256 ^ Z.of_nat k) 256) by lia.
    lia.
Qed.

Lemma pack_uint_Some (n : nat) (v : Z) :
  0 <= v < 256 ^ Z.of_nat n -> Struct.pack_uint n v = Some (Struct.be_bytes n v).
Proof.
  intros [H0 H1]. unfold Struct.pack_uint.
  apply Z.leb_le in H0. apply Z.ltb_lt in H1. now rewrite H0, H1.
Qed.

Lemma pack_uint_inv (n : nat) (v : Z) (b : bytes) :
  Struct.pack_uint n v = Some b -> 0 <= v < 256 ^ Z.of_nat n /\ b = Struct.be_bytes n v.
Proof.
  unfold Struct.pack_uint. intros H.
  destruct (0 <=? v) eqn:E0; destruct (v <? 256 ^ Z.of_nat n) eqn:E1;
    simpl in H; try discriminate.
  apply Z.leb_le in E0. apply Z.ltb_lt in E1. split; [lia | congruence].
Qed.

Lemma be_value_be_bytes_small (n : nat) (v : Z) :
  0 <= v < 256 ^ Z.of_nat n -> Struct.be_value (Struct.be_bytes n v) 0 = v.
Proof.
  intros H. rewrite be_value_be_bytes, Z.mod_small by assumption. lia.
Qed.

Lemma slice_app (pre x post : bytes) (i j : nat) :
  length pre = i -> length x = (j - i)%nat -> slice i j (pre ++ x ++ post) = x.
Proof.
  intros Hi Hj. unfold slice. subst i.
  rewrite drop_app_length. rewrite <- Hj. apply take_app_length.
Qed.

Lemma pack_length (h : Struct.header) (b : bytes) :
  Struct.pack h = Some b -> length b = 20%nat.
Proof.
  unfold Struct.pack. intros H.
  destruct (Struct.pack_uint 2 _) as [f1|] eqn:E1; [|discriminate].
  destruct (Struct.pack_uint 1 (Struct.version h)) as [f2|] eqn:E2; [|discriminate].
  destruct (Struct.pack_uint 1 (Struct.command h)) as [f3|] eqn:E3; [|discriminate].
  destruct (Struct.pack_uint 4 (Struct.sequence_number h)) as [f4|] eqn:E4; [|discriminate].
  destruct (Struct.pack_uint 4 (Struct.session_id h)) as [f5|] eqn:E5; [|discriminate].
  destruct (Struct.pack_uint 8 _) as [f6|] eqn:E6; [|discriminate].
  apply pack_uint_inv in E1 as [_ ->], E2 as [_ ->], E3 as [_ ->],
    E4 as [_ ->], E5 as [_ ->], E6 as [_ ->].
  apply (inj Some) in H. subst b. rewrite !length_app, !be_bytes_length. reflexivity.
Qed.

(** [unpack] undoes [pack]: the six fields come back as they went in. *)
Lemma unpack_pack (h : Struct.header) (b : bytes) :
  Struct.pack h = Some b -> Struct.unpack b = Some h.
Proof.
  intros H. pose proof (pack_length h b H) as Hlen.
  unfold Struct.unpack. rewrite Hlen. simpl Nat.eqb. cbv iota.
  unfold Struct.pack in H.
  destruct (Struct.pack_uint 2 _) as [f1|] eqn:E1; [|discriminate].
  destruct (Struct.pack_uint 1 (Struct.version h)) as [f2|] eqn:E2; [|discriminate].
  destruct (Struct.pack_uint 1 (Struct.command h)) as [f3|] eqn:E3; [|discriminate].
  destruct (Struct.pack_uint 4 (Struct.sequence_number h)) as [f4|] eqn:E4; [|discriminate].
  destruct (Struct.pack_uint 4 (Struct.session_id h)) as [f5|] eqn:E5; [|discriminate].
  destruct (Struct.pack_uint 8 _) as [f6|] eqn:E6; [|discriminate].
  apply pack_uint_inv in E1 as [R1 ->], E2 as [R2 ->], E3 as [R3 ->],
    E4 as [R4 ->], E5 as [R5 ->], E6 as [R6 ->].
  apply (inj Some) in H. subst b.
  set (a1 := Struct.be_bytes 2 _). set (a2 := Struct.be_bytes 1 (Struct.version h)).
  set (a3 := Struct.be_bytes 1 (Struct.command h)).
  set (a4 := Struct.be_bytes 4 (Struct.sequence_number h)).
  set (a5 := Struct.be_bytes 4 (Struct.session_id h)). set (a6 := Struct.be_bytes 8 _).
  assert (L1 : length a1 = 2%nat) by apply be_bytes_length.
  assert (L2 : length a2 = 1%nat) by apply be_bytes_length.
  assert (L3 : length a3 = 1%nat) by apply be_bytes_length.
  assert (L4 : length a4 = 4%nat) by apply be_bytes_length.
  assert (L5 : length a5 = 4%nat) by apply be_bytes_length.
  assert (L6 : length a6 = 8%nat) by apply be_bytes_length.
  assert (S1 : slice 0 2 (a1 ++ a2 ++ a3 ++ a4 ++ a5 ++ a6) = a1)
    by (apply (slice_app [] a1); [reflexivity | now rewrite L1]).
  assert (S2 : slice 2 3 (a1 ++ a2 ++ a3 ++ a4 ++ a5 ++ a6) = a2)
    by (apply (slice_app a1 a2); [assumption | now rewrite L2]).
  assert (S3 : slice 3 4 (a1 ++ a2 ++ a3 ++ a4 ++ a5 ++ a6) = a3).
  { replace (a1 ++ a2 ++ a3 ++ a4 ++ a5 ++ a6) with ((a1 ++ a2) ++ a3 ++ a4 ++ a5 ++ a6)
      by now rewrite <- !app_assoc.
    apply slice_app; [rewrite length_app, L1, L2 | rewrite L3]; reflexivity. }
  assert (S4 : slice 4 8 (a1 ++ a2 ++ a3 ++ a4 ++ a5 ++ a6) = a4).
  { replace (a1 ++ a2 ++ a3 ++ a4 ++ a5 ++ a6) with ((a1 ++ a2 ++ a3) ++ a4 ++ a5 ++ a6)
      by now rewrite <- !app_assoc.
    apply slice_app; [rewrite !length_app, L1, L2, L3 | rewrite L4]; reflexivity. }
  assert (S5 : slice 8 12 (a1 ++ a2 ++ a3 ++ a4 ++ a5 ++ a6) = a5).
  { replace (a1 ++ a2 ++ a3 ++ a4 ++ a5 ++ a6) with ((a1 ++ a2 ++ a3 ++ a4) ++ a5 ++ a6)
      by now rewrite <- !app_assoc.
    apply slice_app; [rewrite !length_app, L1, L2, L3, L4 | rewrite L5]; reflexivity. }
  assert (S6 : slice 12 20 (a1 ++ a2 ++ a3 ++ a4 ++ a5 ++ a6) = a6).
  { replace (a1 ++ a2 ++ a3 ++ a4 ++ a5 ++ a6) with ((a1 ++ a2 ++ a3 ++ a4 ++ a5) ++ a6 ++ [])
      by now rewrite app_nil_r, <- !app_assoc.
    apply slice_app; [rewrite !length_app, L1, L2, L3, L4, L5 | rewrite L6]; reflexivity. }
  rewrite S1, S2, S3, S4, S5, S6. subst a1 a2 a3 a4 a5 a6.
  rewrite !be_value_be_bytes_small by assumption.
  now destruct h.
Qed.

Lemma pack_in_range (command sequence_number session_id logical_clock : Z) :
  Struct.in_range command sequence_number session_id logical_clock ->
  exists hd, Struct.pack (Struct.Header MAGIC 1 command sequence_number session_id
                                        logical_clock) = Some hd.
Proof.
  intros (Hc & Hs & Hi & Hl). unfold Struct.pack. cbn [Struct.magic Struct.version
    Struct.command Struct.sequence_number Struct.session_id Struct.logical_clock].
  rewrite (pack_uint_Some 2 MAGIC) by (unfold MAGIC; simpl; lia).
  rewrite (pack_uint_Some 1 1) by (simpl; lia).
  rewrite (pack_uint_Some 1 command) by (simpl; lia).
  rewrite (pack_uint_Some 4 sequence_number) by (simpl; lia).
  rewrite (pack_uint_Some 4 session_id) by (simpl; lia).
  rewrite (pack_uint_Some 8 logical_clock) by (simpl; lia).
  eauto.
Qed.

(** Decoding a packed header followed by any payload gives both back. *)
Lemma decode_app (h : Struct.header) (hd payload : bytes) :
  Struct.pack h = Some hd -> Struct.decode (hd ++ payload) = Some (h, payload).
Proof.
  intros H. pose proof (pack_length h hd H) as Hlen.
  unfold Struct.decode, slice_to, slice_from.
  rewrite <- Hlen, take_app_length, drop_app_length.
  now rewrite (unpack_pack h hd H).
Qed.

(** The A client sends exactly the encoding of what it was asked to send,
    stamped with the clock it has just advanced. *)
Lemma ClientA_send_message_encodes (c : ClientA.Client) (command : Z)
    (data : option bytes) (message : bytes) :
  Struct.encode command (ClientA.sequence_number c) (ClientA.session_id c)
                (ClientA.logical_clock c + 1) (payload_of data) = Some message ->
  result (ClientA.send_message command data) c = Ret tt /\
  ClientA.sent (exec (ClientA.send_message command data) c)
    = ClientA.sent c ++ [(message, ClientA.server c)].
Proof.
  unfold Struct.encode. fold MAGIC.
  unfold result, exec, ClientA.send_message, ClientA.print, ClientA.update_logical_clock,
    bind, get, lift, ret, raise, modify.
  cbn [fst snd ClientA.sequence_number ClientA.session_id ClientA.set_logical_clock
       ClientA.server].
  destruct (Struct.pack _) as [hd|]; [|discriminate].
  intros H. apply (inj Some) in H. subst message.
  destruct data as [d|]; cbn [payload_of]; rewrite ?app_nil_r;
    destruct (command =? GOODBYE); split; reflexivity.
Qed.

(** C9: for in-range header fields and any payload, encoding succeeds and
    yields exactly [20 + len(payload)] bytes, and decoding those bytes returns
    the original fields (under the constant magic and version) and the
    original payload. The encoding is what [Client.send_message] puts on the
    wire, and the decoding is the [unpack(message[:20])], [message[20:]] of
    the receivers. *)
Theorem codec_round_trip (command sequence_number session_id logical_clock : Z)
    (payload : bytes) :
  Struct.in_range command sequence_number session_id logical_clock ->
  exists message,
    Struct.encode command sequence_number session_id logical_clock payload = Some message /\
    length message = (20 + length payload)%nat /\
    Struct.decode message =
      Some (Struct.Header MAGIC 1 command sequence_number session_id logical_clock, payload) /\
    Struct.unpack (slice_to 20 message) =
      Some (Struct.Header MAGIC 1 command sequence_number session_id logical_clock) /\
    slice_from 20 message = payload /\
    forall (c : ClientA.Client) (data : option bytes),
      ClientA.sequence_number c = sequence_number ->
      ClientA.session_id c = session_id ->
      ClientA.logical_clock c + 1 = logical_clock ->
      payload_of data = payload ->
      result (ClientA.send_message command data) c = Ret tt /\
      ClientA.sent (exec (ClientA.send_message command data) c)
        = ClientA.sent c ++ [(message, ClientA.server c)].
Proof.
  intros Hr. destruct (pack_in_range _ _ _ _ Hr) as [hd Hhd].
  assert (He : Struct.encode command sequence_number session_id logical_clock payload
               = Some (hd ++ payload))
    by (unfold Struct.encode; fold MAGIC; now rewrite Hhd).
  pose proof (decode_app _ hd payload Hhd) as Hd.
  exists (hd ++ payload). split; [exact He|]. split.
  { rewrite length_app, (pack_length _ _ Hhd). reflexivity. }
  split; [exact Hd|].
  unfold Struct.decode in Hd.
  destruct (Struct.unpack (slice_to 20 (hd ++ payload))) as [h|]; [|discriminate].
  apply (inj Some) in Hd. injection Hd as -> Hp.
  split; [reflexivity|]. split; [exact Hp|].
  intros c data <- <- <- <-. now apply ClientA_send_message_encodes.
Qed.

Lemma codec_round_trip_witness :
  exists message,
    Struct.encode DATA 1 7 3 hi = Some message /\
    length message = 22%nat /\
    Struct.decode message = Some (Struct.Header MAGIC 1 DATA 1 7 3, hi).
Proof.
  destruct (codec_round_trip DATA 1 7 3 hi) as (message & H1 & H2 & H3 & _).
  - unfold Struct.in_range, DATA. lia.
  - exists message. auto.
Defined.

(** ** Symbolic execution of the server models *)

Ltac a_unfold :=
  unfold exec, result, A.handle_message, A.handle_data, A.classify, A.handle_hello,
    A.handle_goodbye,
    A.session_timeout, A.goodbye_and_terminate, A.terminate, A.send_message, A.set_timer,
    A.cancel_timer, A.print_data, A.update_logical_clock, A.update_self, A.self_, A.fresh,
    A.print, A.create_task, lift, bind, ret, raise, get, modify, try_except.

Ltac a_cbn :=
  cbn [fst snd A.objs A.sessions A.client_addresses A.logical_clock A.timers A.tasks A.sent
       A.stdout A.next_id A.set_objs A.set_sessions A.set_client_addresses
       A.set_logical_clock A.set_timers A.set_tasks A.sendto A.print_line A.bump_id
       A.client_address A.session_id A.expected_sequence_number A.state A.idle_timer
       A.timeout A.with_expected A.with_state A.with_idle_timer
       Struct.magic Struct.version Struct.command Struct.sequence_number
       Struct.session_id Struct.logical_clock
       fmap option_fmap option_map negb orb andb].

Ltac a_run Ho :=
  a_unfold; a_cbn;
  repeat (progress (try rewrite !lookup_alter_eq; try rewrite !lookup_insert_eq;
                    try rewrite Ho; a_cbn)).

Ltac b_unfold :=
  unfold exec, result, B.process_and_reap, B.process_message, B.handle_data, B.accept_data,
    B.handle_hello, B.handle_goodbye, B.issue_timeout, B.send_goodbye, B.send_message,
    B.send_rejection, B.start, B.set_timer, B.cancel_timer, B.print_data,
    B.update_logical_clock, B.update_self, B.self_, B.fresh, B.print, B.new_session,
    lift, bind, ret, raise, get, modify, try_except.

Ltac b_cbn :=
  cbn [fst snd B.objs B.sessions B.logical_clock B.timers B.sent B.stdout B.next_id
       B.set_objs B.set_sessions B.set_logical_clock B.set_timers B.sendto B.print_line
       B.bump_id B.client_address B.session_id B.expected_sequence B.active B.timer
       B.with_expected B.with_active B.with_timer
       Struct.magic Struct.version Struct.command Struct.sequence_number
       Struct.session_id Struct.logical_clock
       fmap option_fmap option_map negb orb andb].

Ltac b_run Ho :=
  b_unfold; b_cbn;
  repeat (progress (try rewrite !lookup_alter_eq; try rewrite !lookup_insert_eq;
                    try rewrite Ho; b_cbn)).

(** Closes a side condition on a concrete input by evaluation. *)
Ltac concrete :=
  first [ vm_compute; reflexivity | vm_compute; intuition congruence ].

(** ** The merge rule *)

Lemma merge_max (local v : Z) :
  (if v >? local then v + 1 else local + 1) = Z.max local v + 1.
Proof. destruct (Z.gtb_spec v local); lia. Qed.

(** C2: on a passive merge of a received value [v] into the local clock, the
    new clock is [v + 1] when [v > local] and [local + 1] when [v <= local];
    in both cases that is [max(local, v) + 1], and it is the value returned.
    It holds for [update_logical_clock] of the A server and of the B client,
    and of the B server and the A client as well. *)
Theorem update_logical_clock_merge (v : Z) :
  (forall s : A.server,
     let s' := exec (A.update_logical_clock (Some v)) s in
     (v > A.logical_clock s -> A.logical_clock s' = v + 1) /\
     (v <= A.logical_clock s -> A.logical_clock s' = A.logical_clock s + 1) /\
     A.logical_clock s' = Z.max (A.logical_clock s) v + 1 /\
     result (A.update_logical_clock (Some v)) s = Ret (A.logical_clock s')) /\
  (forall c : ClientB.AsyncUDPClient,
     let c' := exec (ClientB.update_logical_clock (Some v)) c in
     (v > ClientB.logical_clock c -> ClientB.logical_clock c' = v + 1) /\
     (v <= ClientB.logical_clock c ->
      ClientB.logical_clock c' = ClientB.logical_clock c + 1) /\
     ClientB.logical_clock c' = Z.max (ClientB.logical_clock c) v + 1 /\
     result (ClientB.update_logical_clock (Some v)) c = Ret (ClientB.logical_clock c')) /\
  (forall t : B.server,
     let t' := exec (B.update_logical_clock (Some v)) t in
     (v > B.logical_clock t -> B.logical_clock t' = v + 1) /\
     (v <= B.logical_clock t -> B.logical_clock t' = B.logical_clock t + 1) /\
     B.logical_clock t' = Z.max (B.logical_clock t) v + 1 /\
     result (B.update_logical_clock (Some v)) t = Ret (B.logical_clock t')) /\
  (forall c : ClientA.Client,
     let c' := exec (ClientA.update_logical_clock (Some v)) c in
     (v > ClientA.logical_clock c -> ClientA.logical_clock c' = v + 1) /\
     (v <= ClientA.logical_clock c ->
      ClientA.logical_clock c' = ClientA.logical_clock c + 1) /\
     ClientA.logical_clock c' = Z.max (ClientA.logical_clock c) v + 1 /\
     result (ClientA.update_logical_clock (Some v)) c = Ret (ClientA.logical_clock c')).
Proof.
  split; [|split; [|split]].
  - intros s. cbn. destruct (Z.gtb_spec v (A.logical_clock s)); repeat split; lia.
  - intros c. cbn. destruct (Z.gtb_spec v (ClientB.logical_clock c)); repeat split; lia.
  - intros t. cbn. destruct (Z.gtb_spec v (B.logical_clock t)); repeat split; lia.
  - intros c. cbn. destruct (Z.gtb_spec v (ClientA.logical_clock c)); repeat split; lia.
Qed.

Lemma update_logical_clock_merge_witness :
  A.logical_clock (exec (A.update_logical_clock (Some 9)) A.init) = 10 /\
  ClientB.logical_clock
    (exec (ClientB.update_logical_clock (Some 0)) (ClientB.init peer1 7)) = 1.
Proof.
  split.
  - destruct (update_logical_clock_merge 9) as [H _].
    destruct (H A.init) as [H1 _]. apply H1. reflexivity.
  - destruct (update_logical_clock_merge 0) as [_ [H _]].
    destruct (H (ClientB.init peer1 7)) as [_ [H1 _]]. apply H1. discriminate.
Defined.

(** ** Sequence classification *)

Lemma range_spec (a b i : Z) : In i (range a b) <-> a <= i < b.
Proof.
  unfold range. rewrite in_map_iff. split.
  - intros (k & <- & Hk). apply in_seq in Hk. lia.
  - intros H. exists (Z.to_nat (i - a)). split; [lia |]. apply in_seq. lia.
Qed.

(** The loop that prints one line per lost packet touches [stdout] only. *)
Lemma A_print_lost (a : address) (l : list Z) (s : A.server) :
  fold_left (fun s i => A.print_line (A.LostPacket i a) s) l s =
  A.Server (A.objs s) (A.sessions s) (A.client_addresses s) (A.logical_clock s)
           (A.timers s) (A.tasks s) (A.sent s)
           (A.stdout s ++ map (fun i => A.LostPacket i a) l) (A.next_id s).
Proof.
  revert s. induction l as [|i l IH]; intros s; simpl.
  - rewrite app_nil_r. now destruct s.
  - rewrite IH. unfold A.print_line. simpl. now rewrite <- app_assoc.
Qed.

Lemma encode_header (command sequence_number session_id logical_clock : Z) (hd : bytes) :
  Struct.pack (Struct.Header MAGIC 1 command sequence_number session_id logical_clock)
    = Some hd ->
  Struct.encode command sequence_number session_id logical_clock [] = Some hd.
Proof. intros H. unfold Struct.encode. fold MAGIC. rewrite H. now rewrite app_nil_r. Qed.

(** The A server: the four classes of a [DATA] in the [RECEIVE] state. *)
Lemma A_handle_data_cases (s : A.server) (r : nat) (o : A.ServerSession)
    (seq v : Z) (data : bytes) :
  A.objs s !! r = Some o ->
  A.state o = A.RECEIVE ->
  0 <= A.session_id o < 2 ^ 32 ->
  0 <= seq < 2 ^ 32 ->
  0 <= A.logical_clock s ->
  Z.max (A.logical_clock s) v + 2 < 2 ^ 64 ->
  utf8_valid data = true ->
  let N := A.expected_sequence_number o in
  let clock := Z.max (A.logical_clock s) v + 1 in
  let s' := exec (A.handle_data r seq data v) s in
  (seq = N ->
     exists m, Struct.encode ALIVE seq (A.session_id o) (clock + 1) [] = Some m /\
       A.sent s' = A.sent s ++ [(m, A.client_address o)] /\
       A.stdout s' = A.stdout s ++ [A.ReceivedData (A.client_address o) data] /\
       A.expected_sequence_number <$> A.objs s' !! r = Some (N + 1) /\
       A.state <$> A.objs s' !! r = Some A.RECEIVE /\
       A.sessions s' = A.sessions s) /\
  (seq > N ->
     exists m, Struct.encode ALIVE seq (A.session_id o) (clock + 1) [] = Some m /\
       A.sent s' = A.sent s ++ [(m, A.client_address o)] /\
       A.stdout s' = A.stdout s
         ++ map (fun i => A.LostPacket i (A.client_address o)) (range N seq)
         ++ [A.ReceivedData (A.client_address o) data] /\
       A.expected_sequence_number <$> A.objs s' !! r = Some (seq + 1) /\
       A.state <$> A.objs s' !! r = Some A.RECEIVE /\
       A.sessions s' = A.sessions s) /\
  (seq = N - 1 ->
     A.sent s' = A.sent s /\ A.objs s' = A.objs s /\ A.sessions s' = A.sessions s /\
     A.timers s' = A.timers s /\ A.logical_clock s' = clock) /\
  (seq < N - 1 ->
     exists m, Struct.encode GOODBYE 0 (A.session_id o) (clock + 1) [] = Some m /\
       A.sent s' = A.sent s ++ [(m, A.client_address o)] /\
       A.state <$> A.objs s' !! r = Some A.DONE /\
       A.sessions s' !! A.session_id o = None).
Proof.
  destruct o as [a sid N st tm to]. cbn [A.state A.session_id A.expected_sequence_number
    A.client_address]. intros Ho -> Hsid Hseq Hc Hmax Hu.
  cbv zeta.
  assert (HA : exists hd, Struct.pack (Struct.Header MAGIC 1 ALIVE seq sid
            (Z.max (A.logical_clock s) v + 1 + 1)) = Some hd)
    by (apply pack_in_range; unfold Struct.in_range, ALIVE; lia).
  assert (HG : exists hd, Struct.pack (Struct.Header MAGIC 1 GOODBYE 0 sid
            (Z.max (A.logical_clock s) v + 1 + 1)) = Some hd)
    by (apply pack_in_range; unfold Struct.in_range, GOODBYE; lia).
  destruct HA as [ha Ha], HG as [hg Hg].
  split; [|split; [|split]].
  - intros ->. exists ha. split; [now apply encode_header|].
    a_run Ho. rewrite Z.eqb_refl, Hu, merge_max. a_run Ho. rewrite Ha.
    destruct tm; a_run Ho; repeat split; reflexivity.
  - intros Hgt. exists ha. split; [now apply encode_header|].
    a_run Ho. rewrite merge_max.
    destruct (Z.eqb_spec seq N) as [->|_]; [lia|].
    destruct (Z.gtb_spec seq N) as [_|]; [|lia].
    rewrite A_print_lost. a_run Ho. rewrite Hu. a_run Ho. rewrite Ha. a_run Ho.
    repeat split; try reflexivity. now rewrite <- app_assoc.
  - intros ->. a_run Ho. rewrite merge_max.
    destruct (Z.eqb_spec (N - 1) N) as [|_]; [lia|].
    destruct (Z.gtb_spec (N - 1) N) as [|_]; [lia|].
    rewrite Z.eqb_refl. a_cbn. repeat split; reflexivity.
  - intros Hlt. exists hg. split; [now apply encode_header|].
    a_run Ho. rewrite merge_max.
    destruct (Z.eqb_spec seq N) as [|_]; [lia|].
    destruct (Z.gtb_spec seq N) as [|_]; [lia|].
    destruct (Z.eqb_spec seq (N - 1)) as [|_]; [lia|].
    a_run Ho. rewrite Hg.
    destruct tm; a_run Ho; destruct (A.sessions s !! sid) eqn:Es; a_run Ho;
      repeat split; try reflexivity; try assumption; apply lookup_delete_eq.
Qed.

(** C1 fails on the B server: a session that expects 2 receives [DATA] with
    sequence number 0, which is below [N - 1]; no [GOODBYE] goes out and the
    session stays active and in the table. *)
Lemma B_data_far_behind_is_discarded :
  let s := B_established in
  let s' := B.step (B.Datagram (datagram MAGIC 1 DATA 0 7 3 hi) peer1) s in
  B.expected_sequence <$> B.objs s !! 0%nat = Some 2 /\
  ~ (emitted GOODBYE (B.sent s) (B.sent s') = true /\
     B.active <$> B.objs s' !! 0%nat = Some false) /\
  B.sent s' = B.sent s /\
  B.active <$> B.objs s' !! 0%nat = Some true /\
  B.sessions s' !! 7 = Some 0%nat.
Proof.
  vm_compute. repeat split; try reflexivity. intros [H _]. discriminate H.
Qed.

(** ** What [unpack] returns is in range *)

Lemma be_value_bound (bs : bytes) (acc : Z) :
  0 <= acc -> 0 <= Struct.be_value bs acc < (acc + 1) * 256 ^ Z.of_nat (length bs).
Proof.
  revert acc. induction bs as [|b bs IH]; intros acc Hacc.
  - simpl. lia.
  - cbn [Struct.be_value length]. pose proof (Z_of_byte_range b) as Hb.
    specialize (IH (acc * 256 + Z_of_byte b) ltac:(lia)).
    rewrite Nat2Z.inj_succ, Z.pow_succ_r by lia.
    assert (Hp : 0 < 256 ^ Z.of_nat (length bs)) by (apply Z.pow_pos_nonneg; lia).
    split; [lia|]. eapply Z.lt_le_trans; [apply IH|]. nia.
Qed.

Lemma be_value_slice_bound (i j : nat) (buf : bytes) :
  0 <= Struct.be_value (slice i j buf) 0 < 256 ^ Z.of_nat (j - i).
Proof.
  pose proof (be_value_bound (slice i j buf) 0 ltac:(lia)) as [H0 H1].
  split; [assumption|]. eapply Z.lt_le_trans; [apply H1|].
  rewrite Z.mul_1_l. apply Z.pow_le_mono_r; [lia|].
  unfold slice. rewrite length_take. lia.
Qed.

Lemma unpack_range (buf : bytes) (h : Struct.header) :
  Struct.unpack buf = Some h ->
  0 <= Struct.magic h < 2 ^ 16 /\ 0 <= Struct.version h < 2 ^ 8 /\
  Struct.in_range (Struct.command h) (Struct.sequence_number h) (Struct.session_id h)
                  (Struct.logical_clock h).
Proof.
  unfold Struct.unpack. destruct (Nat.eqb (length buf) 20); [|discriminate].
  intros H. apply (inj Some) in H. subst h. unfold Struct.in_range.
  cbn [Struct.magic Struct.version Struct.command Struct.sequence_number
       Struct.session_id Struct.logical_clock].
  pose proof (be_value_slice_bound 0 2 buf). pose proof (be_value_slice_bound 2 3 buf).
  pose proof (be_value_slice_bound 3 4 buf). pose proof (be_value_slice_bound 4 8 buf).
  pose proof (be_value_slice_bound 8 12 buf). pose proof (be_value_slice_bound 12 20 buf).
  repeat split; first [apply H | apply H0 | apply H1 | apply H2 | apply H3 | apply H4].
Qed.

(** ** Closing a session in the A server *)

Lemma A_goodbye_and_terminate_facts (s : A.server) (r : nat) (o : A.ServerSession) :
  A.objs s !! r = Some o ->
  0 <= A.session_id o < 2 ^ 32 ->
  0 <= A.logical_clock s ->
  A.logical_clock s + 1 < 2 ^ 64 ->
  let s' := exec (A.goodbye_and_terminate r) s in
  exists m, Struct.encode GOODBYE 0 (A.session_id o) (A.logical_clock s + 1) [] = Some m /\
    A.sent s' = A.sent s ++ [(m, A.client_address o)] /\
    A.objs s' !! r = Some (A.with_idle_timer None (A.with_state A.DONE o)) /\
    A.sessions s' = delete (A.session_id o) (A.sessions s) /\
    A.client_addresses s' = A.client_addresses s /\
    A.logical_clock s' = A.logical_clock s + 1 /\
    A.stdout s' = A.stdout s ++ [A.Terminated (A.client_address o)] /\
    A.tasks s' = A.tasks s /\
    A.timers s' = match A.idle_timer o with
                  | Some t => delete t (A.timers s)
                  | None => A.timers s
                  end.
Proof.
  destruct o as [a sid N st tm to]. cbn [A.session_id A.client_address A.idle_timer].
  intros Ho Hsid Hc Hmax. cbv zeta.
  destruct (pack_in_range GOODBYE 0 sid (A.logical_clock s + 1)) as [hg Hg];
    [unfold Struct.in_range, GOODBYE; lia|].
  exists hg. split; [now apply encode_header|].
  a_run Ho. rewrite Hg.
  destruct tm; a_run Ho; destruct (A.sessions s !! sid) eqn:Es; a_run Ho;
    repeat split; try reflexivity; now rewrite delete_id.
Qed.

Lemma invalid_header_test (h : Struct.header) :
  Struct.magic h <> MAGIC \/ Struct.version h <> 1 ->
  negb (Struct.magic h =? MAGIC) || negb (Struct.version h =? 1) = true.
Proof.
  intros [H | H].
  - apply Z.eqb_neq in H. now rewrite H.
  - apply Z.eqb_neq in H. rewrite H. apply orb_true_r.
Qed.

(** ** A wrong magic number or version *)

Lemma A_handle_message_invalid (s : A.server) (r : nat) (o : A.ServerSession)
    (message : bytes) (h : Struct.header) :
  A.objs s !! r = Some o ->
  Struct.unpack (slice_to 20 message) = Some h ->
  Struct.magic h <> MAGIC \/ Struct.version h <> 1 ->
  A.handle_message r message s =
  A.goodbye_and_terminate r (A.print_line (A.InvalidMessage (A.client_address o)) s).
Proof.
  intros Ho Hu Hbad.
  unfold A.handle_message, A.self_, A.print, lift, bind, ret, modify.
  rewrite Hu, Ho, (invalid_header_test h Hbad). reflexivity.
Qed.

(** C4 fails on the B server: an active session receives a datagram whose
    magic is 0; no [GOODBYE] goes out and the session is neither inactive nor
    out of the table afterwards. *)
Lemma B_invalid_magic_is_discarded :
  let s := B_established in
  let s' := B.step (B.Datagram (datagram 0 1 DATA 2 7 3 hi) peer1) s in
  ~ (emitted GOODBYE (B.sent s) (B.sent s') = true /\
     B.active <$> B.objs s' !! 0%nat = Some false) /\
  B.sent s' = B.sent s /\
  B.active <$> B.objs s' !! 0%nat = Some true /\
  B.sessions s' !! 7 = Some 0%nat.
Proof.
  vm_compute. repeat split; try reflexivity. intros [H _]. discriminate H.
Qed.

(** ** Creating a session *)

Lemma A_datagram_received_new (s : A.server) (data : bytes) (addr : address)
    (sid i : Z) :
  Struct.unpack_uint 4 (slice 8 12 data) = Some sid ->
  Struct.unpack_uint 4 (slice 4 8 data) = Some i ->
  Struct.unpack_uint 1 (slice 3 4 data) = Some HELLO ->
  A.sessions s !! sid = None ->
  let s' := exec (A.datagram_received data addr) s in
  A.sessions s' = <[sid := A.next_id s]> (A.sessions s) /\
  A.objs s' = <[A.next_id s := A.new_session addr sid i]> (A.objs s) /\
  A.client_addresses s' = <[sid := addr]> (A.client_addresses s) /\
  A.tasks s' = A.tasks s ++ [(A.next_id s, data)] /\
  A.sent s' = A.sent s /\
  A.logical_clock s' = A.logical_clock s.
Proof.
  intros Hsid Hi Hc Hnone. cbv zeta.
  unfold A.datagram_received. a_unfold. rewrite Hsid, Hi, Hc. a_cbn.
  rewrite Hnone. a_cbn. repeat split; reflexivity.
Qed.

Lemma bind_ret_eq {S A B} (m : M S A) (k : A -> M S B) (s s1 : S) (a : A) :
  m s = (s1, Ret a) -> bind m k s = k a s1.
Proof. intros H. unfold bind. now rewrite H. Qed.

Lemma bind_raise_eq {S A B} (m : M S A) (k : A -> M S B) (s s1 : S) (e : exn) :
  m s = (s1, Raise e) -> bind m k s = (s1, Raise e).
Proof. intros H. unfold bind. now rewrite H. Qed.

Lemma bind_assoc {S A B C} (m : M S A) (k : A -> M S B) (l : B -> M S C) (s : S) :
  bind m (fun a => bind (k a) l) s = bind (bind m k) l s.
Proof. unfold bind. destruct (m s) as [s1 [a|e]]; reflexivity. Qed.

Lemma B_rearm_eq (t : B.server) (q : nat) (p : B.ServerSession) :
  B.objs t !! q = Some p ->
  bind (B.cancel_timer q) (fun _ => B.set_timer q) t = (B_rearmed q p t, Ret tt).
Proof.
  destruct p as [a sid N act tm]. intros Ho. unfold B_rearmed.
  b_run Ho. destruct tm; b_run Ho; reflexivity.
Qed.


Lemma B_send_message_eq (t : B.server) (q : nat) (p : B.ServerSession)
    (command seq : Z) (hd : bytes) :
  B.objs t !! q = Some p ->
  Struct.pack (Struct.Header MAGIC 1 command seq (B.session_id p) (B.logical_clock t + 1))
    = Some hd ->
  B.send_message q command seq None t =
    (B.sendto hd (B.client_address p) (B.set_logical_clock (B.logical_clock t + 1) t),
     Ret tt).
Proof.
  intros Ho Hp. b_run Ho. rewrite Hp. b_cbn. now rewrite app_nil_r.
Qed.

(** A [HELLO] with the right magic and version, handled by a session. *)
Lemma B_process_message_hello (t : B.server) (q : nat) (p : B.ServerSession)
    (message : bytes) (h : Struct.header) (hd : bytes) :
  B.objs t !! q = Some p ->
  Struct.unpack (slice_to 20 message) = Some h ->
  Struct.magic h = MAGIC ->
  Struct.version h = 1 ->
  Struct.command h = HELLO ->
  Struct.pack (Struct.Header MAGIC 1 HELLO (Struct.sequence_number h) (B.session_id p)
                             (B.logical_clock t + 1)) = Some hd ->
  B.process_message q message t =
    (B.sendto hd (B.client_address p)
       (B.set_logical_clock (B.logical_clock t + 1)
          (B.print_line (B.ReceivedHello (B.session_id p)) (B_rearmed q p t))), Ret tt).
Proof.
  intros Ho Hu Hm Hv Hc Hp. unfold B.process_message.
  rewrite bind_assoc, (bind_ret_eq _ _ _ _ _ (B_rearm_eq t q p Ho)).
  assert (Ho' : B.objs (B_rearmed q p t) !! q
                = Some (B.with_timer (Some (B.next_id t)) p)).
  { unfold B_rearmed. destruct p as [a sid N act [tm|]]; b_cbn;
      rewrite lookup_alter_eq; b_cbn; rewrite Ho; reflexivity. }
  unfold try_except, bind at 1, lift. rewrite Hu. unfold ret at 1.
  unfold bind at 1, B.self_ at 1. rewrite Ho'.
  rewrite Hm, Hv, Hc, !Z.eqb_refl. cbn [negb orb].
  unfold B.handle_hello, bind at 1, B.self_ at 1. rewrite Ho'.
  unfold bind at 1, B.print at 1, modify at 1.
  assert (Ho'' : B.objs (B.print_line (B.ReceivedHello (B.session_id p)) (B_rearmed q p t))
                   !! q = Some (B.with_timer (Some (B.next_id t)) p))
    by exact Ho'.
  assert (Hclk : B.logical_clock
                   (B.print_line (B.ReceivedHello (B.session_id p)) (B_rearmed q p t))
                 = B.logical_clock t)
    by (unfold B_rearmed; destruct p as [a sid N act [tm|]]; reflexivity).
  erewrite B_send_message_eq;
    [| exact Ho'' | cbn [B.session_id B.with_timer]; rewrite Hclk; exact Hp].
  cbn [B.session_id B.with_timer B.client_address]. rewrite Hclk. reflexivity.
Qed.





(** ** A session id presented from another address *)

Lemma A_datagram_received_collision (s : A.server) (data : bytes) (addr bound : address)
    (sid i c : Z) (r : nat) :
  Struct.unpack_uint 4 (slice 8 12 data) = Some sid ->
  Struct.unpack_uint 4 (slice 4 8 data) = Some i ->
  Struct.unpack_uint 1 (slice 3 4 data) = Some c ->
  A.sessions s !! sid = Some r ->
  A.client_addresses s !! sid = Some bound ->
  addr <> bound ->
  A.datagram_received data addr s = (A.print_line (A.IgnoringClient addr sid) s, Ret tt).
Proof.
  intros Hsid Hi Hc Hr Hb Hne.
  unfold A.datagram_received, try_except, bind, lift, get, ret, A.print, modify.
  rewrite Hsid, Hi, Hc. cbn. rewrite Hr, Hb. cbn.
  rewrite bool_decide_eq_false_2 by assumption. reflexivity.
Qed.

Lemma B_handle_client_collision (t : B.server) (message : bytes) (addr : address)
    (h : Struct.header) (q : nat) (p : B.ServerSession) :
  Struct.unpack (slice_to 20 message) = Some h ->
  B.sessions t !! Struct.session_id h = Some q ->
  B.objs t !! q = Some p ->
  B.client_address p <> addr ->
  let clock := Z.max (B.logical_clock t) (Struct.logical_clock h) + 1 in
  B.handle_client message addr t =
    (B.sendto (B.rejection_message (Struct.session_id h)) addr
       (B.set_logical_clock (clock + 1)
          (B.print_line (B.InUse (Struct.session_id h) (B.client_address p) addr)
             (B.set_logical_clock clock t))), Ret tt).
Proof.
  intros Hu Hq Hp Hne. cbv zeta.
  unfold B.handle_client. rewrite Hu. unfold B.locked.
  unfold bind, get, B.update_logical_clock, B.self_, B.print, B.send_rejection, modify.
  rewrite merge_max. cbn [B.sessions B.objs B.set_logical_clock B.print_line B.logical_clock].
  rewrite Hq. cbn [B.sessions B.objs B.set_logical_clock B.print_line B.logical_clock].
  rewrite Hp. rewrite bool_decide_eq_false_2 by assumption. reflexivity.
Qed.

(** C6, as the code has it. When a datagram presents a session id that is
    bound to a session of another address, both servers leave every session
    object (hence the incumbent's sequence tracking, state and address), the
    table, the bindings and the timers as they are, and the datagram is not
    handed to the session. The B server answers the colliding peer with the
    plain "Session ID ... is already in use" notice; the A server sends
    nothing and only prints that it ignores the client. *)
Theorem collision_isolation :
  (forall (s : A.server) (data : bytes) (addr bound : address) (sid i c : Z) (r : nat),
     Struct.unpack_uint 4 (slice 8 12 data) = Some sid ->
     Struct.unpack_uint 4 (slice 4 8 data) = Some i ->
     Struct.unpack_uint 1 (slice 3 4 data) = Some c ->
     A.sessions s !! sid = Some r ->
     A.client_addresses s !! sid = Some bound ->
     addr <> bound ->
     let s' := exec (A.datagram_received data addr) s in
     A.objs s' = A.objs s /\ A.sessions s' = A.sessions s /\
     A.client_addresses s' = A.client_addresses s /\ A.timers s' = A.timers s /\
     A.tasks s' = A.tasks s /\ A.sent s' = A.sent s /\
     A.stdout s' = A.stdout s ++ [A.IgnoringClient addr sid]) /\
  (forall (t : B.server) (message : bytes) (addr : address) (h : Struct.header)
          (q : nat) (p : B.ServerSession),
     Struct.unpack (slice_to 20 message) = Some h ->
     B.sessions t !! Struct.session_id h = Some q ->
     B.objs t !! q = Some p ->
     B.client_address p <> addr ->
     let t' := exec (B.handle_client message addr) t in
     B.objs t' = B.objs t /\ B.sessions t' = B.sessions t /\ B.timers t' = B.timers t /\
     B.sent t' = B.sent t ++ [(B.rejection_message (Struct.session_id h), addr)]).
Proof.
  split.
  - intros s data addr bound sid i c r Hsid Hi Hc Hr Hb Hne. cbv zeta. unfold exec.
    rewrite (A_datagram_received_collision s data addr bound sid i c r Hsid Hi Hc Hr Hb Hne).
    repeat split; reflexivity.
  - intros t message addr h q p Hu Hq Hp Hne. cbv zeta. unfold exec.
    rewrite (B_handle_client_collision t message addr h q p Hu Hq Hp Hne).
    repeat split; reflexivity.
Qed.

Lemma collision_isolation_witness :
  A.objs (exec (A.datagram_received (datagram MAGIC 1 HELLO 0 7 0 []) peer2) A_established)
    = A.objs A_established /\
  B.sent (exec (B.handle_client (datagram MAGIC 1 HELLO 0 7 0 []) peer2) B_established)
    = B.sent B_established ++ [(B.rejection_message 7, peer2)].
Proof.
  destruct collision_isolation as [HA HB]. split.
  - unshelve epose proof
      (HA A_established (datagram MAGIC 1 HELLO 0 7 0 []) peer2 peer1 7 0 HELLO 0%nat
          _ _ _ _ _ _) as H; [concrete .. |].
    destruct H as (H & _). exact H.
  - unshelve epose proof
      (HB B_established (datagram MAGIC 1 HELLO 0 7 0 []) peer2
          (Struct.Header MAGIC 1 HELLO 0 7 0) 0%nat (B.Session peer1 7 2 true (Some 4%nat))
          _ _ _ _) as H; [concrete .. |].
    destruct H as (_ & _ & _ & H). exact H.
Defined.

(** C6 fails on the A server: session id 7 is bound to [peer1], a [HELLO] for
    it comes from [peer2], and nothing at all is sent to [peer2]. *)
Lemma A_collision_is_not_answered :
  let s := A_established in
  let s' := A.step (A.Datagram (datagram MAGIC 1 HELLO 0 7 0 []) peer2) s in
  A.sessions s !! 7 = Some 0%nat /\
  A.client_addresses s !! 7 = Some peer1 /\
  A.sent s' = A.sent s /\
  ~ (exists m, In (m, peer2) (A.sent s')).
Proof.
  vm_compute. repeat split; try reflexivity.
  intros (m & [H | []]). discriminate H.
Qed.

(** ** A session that has not seen its [HELLO] yet *)

Lemma valid_header_test (h : Struct.header) :
  Struct.magic h = MAGIC -> Struct.version h = 1 ->
  negb (Struct.magic h =? MAGIC) || negb (Struct.version h =? 1) = false.
Proof. intros -> ->. reflexivity. Qed.

Lemma A_handle_message_waiting_ignored (s : A.server) (r : nat) (o : A.ServerSession)
    (message : bytes) (h : Struct.header) :
  A.objs s !! r = Some o ->
  A.state o = A.WAIT_FOR_HELLO ->
  Struct.unpack (slice_to 20 message) = Some h ->
  Struct.magic h = MAGIC ->
  Struct.version h = 1 ->
  Struct.session_id h = A.session_id o ->
  Struct.command h = DATA \/ Struct.command h = GOODBYE ->
  A.handle_message r message s = (s, Ret tt).
Proof.
  intros Ho Hst Hu Hm Hv Hsid Hcmd.
  unfold A.handle_message, A.handle_data, A.handle_goodbye, A.self_, lift, bind, ret.
  rewrite Hu, Ho, (valid_header_test h Hm Hv), Hsid, Z.eqb_refl. cbn [negb].
  destruct Hcmd as [-> | ->]; cbn; rewrite Ho, Hst; reflexivity.
Qed.

Lemma A_handle_message_unknown (s : A.server) (r : nat) (o : A.ServerSession)
    (message : bytes) (h : Struct.header) :
  A.objs s !! r = Some o ->
  Struct.unpack (slice_to 20 message) = Some h ->
  Struct.magic h = MAGIC ->
  Struct.version h = 1 ->
  Struct.session_id h = A.session_id o ->
  Struct.command h <> HELLO ->
  Struct.command h <> DATA ->
  Struct.command h <> GOODBYE ->
  A.handle_message r message s =
  A.goodbye_and_terminate r (A.print_line (A.UnknownCommand (A.client_address o)) s).
Proof.
  intros Ho Hu Hm Hv Hsid H1 H2 H3.
  unfold A.handle_message, A.self_, A.print, lift, bind, ret, modify.
  rewrite Hu, Ho, (valid_header_test h Hm Hv), Hsid, Z.eqb_refl. cbn [negb].
  apply Z.eqb_neq in H1, H2, H3. rewrite H1, H2, H3. reflexivity.
Qed.

Lemma B_process_message_unknown (t : B.server) (q : nat) (p : B.ServerSession)
    (message : bytes) (h : Struct.header) :
  B.objs t !! q = Some p ->
  Struct.unpack (slice_to 20 message) = Some h ->
  Struct.magic h = MAGIC ->
  Struct.version h = 1 ->
  Struct.command h <> HELLO ->
  Struct.command h <> DATA ->
  Struct.command h <> GOODBYE ->
  B.process_message q message t = (B_rearmed q p t, Ret tt).
Proof.
  intros Ho Hu Hm Hv H1 H2 H3. unfold B.process_message.
  rewrite bind_assoc, (bind_ret_eq _ _ _ _ _ (B_rearm_eq t q p Ho)).
  assert (Ho' : B.objs (B_rearmed q p t) !! q
                = Some (B.with_timer (Some (B.next_id t)) p)).
  { unfold B_rearmed. destruct p as [a sid N act [tm|]]; b_cbn;
      rewrite lookup_alter_eq; b_cbn; rewrite Ho; reflexivity. }
  unfold try_except, bind, lift, B.self_, ret. rewrite Hu, Ho'.
  rewrite (valid_header_test h Hm Hv).
  apply Z.eqb_neq in H1, H2, H3. rewrite H1, H2, H3. reflexivity.
Qed.

(** C8 fails on the A server: a session in [WAIT_FOR_HELLO] is handed a
    [DATA]; no [GOODBYE] goes out and the session is still in
    [WAIT_FOR_HELLO] and in the table. *)
Lemma A_data_before_hello_is_ignored :
  let s := A_awaiting in
  let s' := A.run [A.Datagram (datagram MAGIC 1 DATA 1 7 0 hi) peer1; A.RunTask] s in
  A.state <$> A.objs s !! 0%nat = Some A.WAIT_FOR_HELLO /\
  A.sessions s !! 7 = Some 0%nat /\
  ~ (emitted GOODBYE (A.sent s) (A.sent s') = true /\
     A.state <$> A.objs s' !! 0%nat = Some A.DONE) /\
  A.sent s' = A.sent s /\
  A.state <$> A.objs s' !! 0%nat = Some A.WAIT_FOR_HELLO /\
  A.sessions s' !! 7 = Some 0%nat.
Proof.
  vm_compute. repeat split; try reflexivity. intros [H _]. discriminate H.
Qed.

(** ** Idle timeout *)

(** The A server: when the timer of a session fires, the session says
    [GOODBYE], becomes [DONE] and is deleted from the table. *)
Lemma A_timeout_closes_session (s : A.server) (t r : nat) (o : A.ServerSession) :
  A.timers s !! t = Some r ->
  A.objs s !! r = Some o ->
  0 <= A.session_id o < 2 ^ 32 ->
  0 <= A.logical_clock s ->
  A.logical_clock s + 1 < 2 ^ 64 ->
  let s' := A.step (A.TimerFires t) s in
  exists m, Struct.encode GOODBYE 0 (A.session_id o) (A.logical_clock s + 1) [] = Some m /\
    A.sent s' = A.sent s ++ [(m, A.client_address o)] /\
    A.state <$> A.objs s' !! r = Some A.DONE /\
    A.sessions s' !! A.session_id o = None /\
    A.timers s' !! t = None.
Proof.
  intros Ht Ho Hsid Hc Hmax. cbv zeta. unfold A.step. rewrite Ht.
  set (s1 := A.print_line (A.SessionTimeout (A.client_address o))
               (A.set_timers (delete t) s)).
  assert (Heq : A.session_timeout r (A.set_timers (delete t) s)
                = A.goodbye_and_terminate r s1).
  { unfold A.session_timeout, bind, A.self_, A.print, modify.
    cbn [A.objs A.set_timers]. rewrite Ho. reflexivity. }
  unfold exec. rewrite Heq.
  assert (Ho1 : A.objs s1 !! r = Some o) by exact Ho.
  destruct (A_goodbye_and_terminate_facts s1 r o Ho1 Hsid Hc Hmax)
    as (m & Hm & Hsent & Hobj & Hses & _ & _ & _ & _ & Htm).
  exists m. unfold exec in Hsent, Hobj, Hses, Htm.
  split; [exact Hm|]. split; [exact Hsent|]. split; [now rewrite Hobj|].
  split; [rewrite Hses; apply lookup_delete_eq|].
  rewrite Htm. destruct (A.idle_timer o) as [t'|]; subst s1; cbn [A.timers A.print_line
    A.set_timers].
  - destruct (decide (t' = t)) as [->|Hne].
    + apply lookup_delete_eq.
    + rewrite lookup_delete_ne by assumption. apply lookup_delete_eq.
  - apply lookup_delete_eq.
Qed.

(** C7 on the B server: after the handshake for session 7 the timer 2 is
    armed for it. When it fires, [issue_timeout] sends [GOODBYE] and marks the
    session inactive, and the session is still in the table. It stays there
    until the peer sends again: that datagram is answered by the inactive
    session like any other ([ALIVE]), and only then is the entry deleted. *)
Theorem B_timeout_leaves_session_in_table :
  let s := B_handshaken in
  let s' := B.step (B.TimerFires 2) s in
  let s'' := B.step (B.Datagram (datagram MAGIC 1 DATA 0 7 1 hi) peer1) s' in
  B.timers s !! 2%nat = Some 0%nat /\
  B.sessions s !! 7 = Some 0%nat /\
  emitted GOODBYE (B.sent s) (B.sent s') = true /\
  B.active <$> B.objs s' !! 0%nat = Some false /\
  B.sessions s' !! 7 = Some 0%nat /\
  emitted ALIVE (B.sent s') (B.sent s'') = true /\
  B.sessions s'' !! 7 = None.
Proof.
  vm_compute. repeat split; reflexivity.
Qed.

(** ** Relations kept by whole operations *)

Section Preserves.
Context {S : Type} (R : S -> S -> Prop) `{!PreOrder R}.

Lemma preserves_ret {A} (a : A) : preserves R (ret a).
Proof. intros s. reflexivity. Qed.

Lemma preserves_raise {A} (e : exn) : preserves R (@raise S A e).
Proof. intros s. reflexivity. Qed.

Lemma preserves_lift {A} (e : exn) (o : option A) : preserves R (lift e o).
Proof. destruct o; [apply preserves_ret | apply preserves_raise]. Qed.

Lemma preserves_get : preserves R get.
Proof. intros s. reflexivity. Qed.

Lemma preserves_modify (f : S -> S) : (forall s, R s (f s)) -> preserves R (modify f).
Proof. intros H s. apply H. Qed.

Lemma preserves_bind {A B} (m : M S A) (k : A -> M S B) :
  preserves R m -> (forall a, preserves R (k a)) -> preserves R (bind m k).
Proof.
  intros Hm Hk s. unfold bind. specialize (Hm s).
  destruct (m s) as [s1 [a|e]]; cbn [fst] in *.
  - etransitivity; [exact Hm | apply Hk].
  - exact Hm.
Qed.

Lemma preserves_try_except {A} (m : M S A) (e : exn) (h : M S A) :
  preserves R m -> preserves R h -> preserves R (try_except m e h).
Proof.
  intros Hm Hh s. unfold try_except. specialize (Hm s).
  destruct (m s) as [s1 [a|e']]; cbn [fst] in *; [exact Hm|].
  destruct e, e'; try exact Hm; (etransitivity; [exact Hm | apply Hh]).
Qed.

End Preserves.

(** Goes through an operation built from [bind], [if] and [match], leaving
    the state updates at its leaves. *)
Ltac preserves_step :=
  first
    [ match goal with
      | |- PreOrder _ => exact _
      | |- forall _, _ => intros ?
      | |- preserves _ (if ?b then _ else _) => destruct b
      | |- preserves _ (match ?x with _ => _ end) => destruct x
      end
    | apply preserves_ret | apply preserves_raise | apply preserves_lift
    | apply preserves_get | apply preserves_bind | apply preserves_try_except ].

Create HintDb keeps.

(** *** The A server, for any relation its state updates keep *)

Section AKeeps.
Variable R : A.server -> A.server -> Prop.
Context `{!PreOrder R}.
Hypothesis R_print : forall l s, R s (A.print_line l s).
Hypothesis R_objs : forall f s, R s (A.set_objs f s).
Hypothesis R_timers : forall f s, R s (A.set_timers f s).
Hypothesis R_bump : forall s, R s (A.bump_id s).
Hypothesis R_sendto : forall m a s, R s (A.sendto m a s).
Hypothesis R_clock : forall c s, A.logical_clock s <= c -> R s (A.set_logical_clock c s).
Hypothesis R_delete : forall k s, R s (A.set_sessions (delete k) s).

Lemma A_print_keeps l : preserves R (A.print l).
Proof. apply preserves_modify, R_print. Qed.

Lemma A_self_keeps r : preserves R (A.self_ r).
Proof. intros s. unfold A.self_. destruct (A.objs s !! r); reflexivity. Qed.

Lemma A_update_self_keeps r f : preserves R (A.update_self r f).
Proof. apply preserves_modify. intros s. apply R_objs. Qed.

Lemma A_fresh_keeps : preserves R A.fresh.
Proof. intros s. apply R_bump. Qed.

Lemma A_update_logical_clock_keeps v : preserves R (A.update_logical_clock v).
Proof.
  intros s. unfold A.update_logical_clock. cbn [fst]. apply R_clock.
  destruct v as [v|]; [destruct (Z.gtb_spec v (A.logical_clock s))|]; lia.
Qed.

Hint Resolve A_print_keeps A_self_keeps A_update_self_keeps A_fresh_keeps
  A_update_logical_clock_keeps : keeps.

Ltac keeps := repeat first [ solve [auto with keeps] | preserves_step ].

Lemma A_cancel_timer_keeps r : preserves R (A.cancel_timer r).
Proof. unfold A.cancel_timer. keeps. apply preserves_modify. intros s. apply R_timers. Qed.

Lemma A_set_timer_keeps r : preserves R (A.set_timer r).
Proof.
  unfold A.set_timer. pose proof (A_cancel_timer_keeps r). keeps.
  apply preserves_modify. intros s. apply R_timers.
Qed.

Lemma A_send_message_keeps r c n d : preserves R (A.send_message r c n d).
Proof.
  unfold A.send_message. keeps. apply preserves_modify. intros s. apply R_sendto.
Qed.

Lemma A_terminate_keeps r : preserves R (A.terminate r).
Proof.
  unfold A.terminate. pose proof (A_cancel_timer_keeps r). keeps.
  apply preserves_modify. intros s. apply R_delete.
Qed.

Lemma A_goodbye_and_terminate_keeps r : preserves R (A.goodbye_and_terminate r).
Proof.
  unfold A.goodbye_and_terminate.
  pose proof (A_send_message_keeps r GOODBYE 0 None). pose proof (A_terminate_keeps r). keeps.
Qed.

Lemma A_session_timeout_keeps r : preserves R (A.session_timeout r).
Proof.
  unfold A.session_timeout. pose proof (A_goodbye_and_terminate_keeps r). keeps.
Qed.

Lemma A_handle_hello_keeps r n : preserves R (A.handle_hello r n).
Proof.
  unfold A.handle_hello. pose proof (A_goodbye_and_terminate_keeps r).
  pose proof (A_send_message_keeps r HELLO n None). pose proof (A_set_timer_keeps r). keeps.
Qed.

Lemma A_print_data_keeps a d : preserves R (A.print_data a d).
Proof. unfold A.print_data. keeps. Qed.

Lemma A_print_lost_keeps a l :
  preserves R (modify (fun s => fold_left (fun s i => A.print_line (A.LostPacket i a) s) l s)).
Proof.
  apply preserves_modify. induction l as [|i l IH]; intros s; simpl.
  - reflexivity.
  - etransitivity; [apply (R_print (A.LostPacket i a)) | apply IH].
Qed.

Lemma A_classify_keeps r o n d : preserves R (A.classify r o n d).
Proof.
  unfold A.classify. pose proof (A_goodbye_and_terminate_keeps r).
  pose proof (A_send_message_keeps r ALIVE n None). pose proof (A_set_timer_keeps r).
  pose proof A_print_data_keeps. pose proof A_print_lost_keeps. keeps.
Qed.

Lemma A_handle_data_keeps r n d v : preserves R (A.handle_data r n d v).
Proof. unfold A.handle_data. pose proof (A_classify_keeps r). keeps. Qed.

Lemma A_handle_goodbye_keeps r : preserves R (A.handle_goodbye r).
Proof.
  unfold A.handle_goodbye. pose proof (A_goodbye_and_terminate_keeps r). keeps.
Qed.

Lemma A_handle_message_keeps r m : preserves R (A.handle_message r m).
Proof.
  unfold A.handle_message. pose proof (A_goodbye_and_terminate_keeps r).
  pose proof (A_handle_hello_keeps r). pose proof (A_handle_data_keeps r).
  pose proof (A_handle_goodbye_keeps r). keeps.
Qed.

End AKeeps.

#[global] Instance A_clock_le_preorder : PreOrder A_clock_le.
Proof. split; unfold A_clock_le; [intros s | intros s1 s2 s3]; lia. Qed.

#[global] Instance A_table_shrinks_preorder : PreOrder A_table_shrinks.
Proof.
  split.
  - intros s. split; reflexivity.
  - intros s1 s2 s3 [H1 H2] [H3 H4]. split; [congruence | set_solver].
Qed.

Lemma A_handle_message_clock (r : nat) (m : bytes) :
  preserves A_clock_le (A.handle_message r m).
Proof.
  apply A_handle_message_keeps; try exact _; unfold A_clock_le; intros; cbn; lia.
Qed.

Lemma A_session_timeout_clock (r : nat) : preserves A_clock_le (A.session_timeout r).
Proof.
  apply A_session_timeout_keeps; try exact _; unfold A_clock_le; intros; cbn; lia.
Qed.

Lemma A_handle_message_shrinks (r : nat) (m : bytes) :
  preserves A_table_shrinks (A.handle_message r m).
Proof.
  apply A_handle_message_keeps; try exact _; unfold A_table_shrinks; intros; cbn;
    (split; [reflexivity|]); try reflexivity.
  apply subseteq_dom, delete_subseteq.
Qed.

Lemma A_session_timeout_shrinks (r : nat) :
  preserves A_table_shrinks (A.session_timeout r).
Proof.
  apply A_session_timeout_keeps; try exact _; unfold A_table_shrinks; intros; cbn;
    (split; [reflexivity|]); try reflexivity.
  apply subseteq_dom, delete_subseteq.
Qed.

(** What [datagram_received] can do to the clock, the outbox and the two
    maps: nothing, or enter one new session id in both maps. *)
Lemma A_datagram_received_effect (data : bytes) (addr : address) (s : A.server) :
  let s' := exec (A.datagram_received data addr) s in
  A.logical_clock s' = A.logical_clock s /\ A.sent s' = A.sent s /\
  ((A.sessions s' = A.sessions s /\ A.client_addresses s' = A.client_addresses s) \/
   (exists sid, Struct.unpack_uint 4 (slice 8 12 data) = Some sid /\
      Struct.unpack_uint 1 (slice 3 4 data) = Some HELLO /\
      A.sessions s !! sid = None /\
      A.sessions s' = <[sid := A.next_id s]> (A.sessions s) /\
      A.client_addresses s' = <[sid := addr]> (A.client_addresses s))).
Proof.
  cbv zeta.
  unfold exec, A.datagram_received, try_except, bind, lift, get, ret, raise, A.print,
    A.create_task, A.fresh, modify.
  destruct (Struct.unpack_uint 4 (slice 8 12 data)) as [sid|] eqn:E1;
    destruct (Struct.unpack_uint 4 (slice 4 8 data)) as [i|] eqn:E2;
    destruct (Struct.unpack_uint 1 (slice 3 4 data)) as [c|] eqn:E3;
    cbn; auto.
  destruct (A.sessions s !! sid) as [r|] eqn:E4; cbn.
  - destruct (A.client_addresses s !! sid) as [bound|]; cbn; [|auto].
    destruct (bool_decide (addr = bound)); cbn; auto.
  - destruct (Z.eqb_spec c HELLO) as [->|_]; cbn; [|auto].
    split; [reflexivity|]. split; [reflexivity|]. right. exists sid. auto.
Qed.

Lemma A_step_clock (ev : A.event) (s : A.server) :
  A.logical_clock s <= A.logical_clock (A.step ev s).
Proof.
  destruct ev as [data addr | | t]; unfold A.step.
  - destruct (A_datagram_received_effect data addr s) as (H & _). rewrite H. lia.
  - destruct (A.tasks s) as [|[r data] rest]; [lia|].
    apply (A_handle_message_clock r data (A.set_tasks (fun _ => rest) s)).
  - destruct (A.timers s !! t) as [r|]; [|lia].
    apply (A_session_timeout_clock r (A.set_timers (delete t) s)).
Qed.

Lemma A_step_shrinks_or_enters (ev : A.event) (s : A.server) :
  A_table_shrinks s (A.step ev s) \/
  exists data addr sid, ev = A.Datagram data addr /\
    Struct.unpack_uint 4 (slice 8 12 data) = Some sid /\
    Struct.unpack_uint 1 (slice 3 4 data) = Some HELLO /\
    A.sessions s !! sid = None /\
    A.sessions (A.step ev s) = <[sid := A.next_id s]> (A.sessions s) /\
    A.client_addresses (A.step ev s) = <[sid := addr]> (A.client_addresses s).
Proof.
  destruct ev as [data addr | | t]; unfold A.step.
  - destruct (A_datagram_received_effect data addr s) as (_ & _ & [[H1 H2] | H]).
    + left. split; [assumption | now rewrite H1].
    + right. destruct H as (sid & H). exists data, addr, sid. tauto.
  - left. destruct (A.tasks s) as [|[r data] rest]; [reflexivity|].
    apply (A_handle_message_shrinks r data (A.set_tasks (fun _ => rest) s)).
  - left. destruct (A.timers s !! t) as [r|]; [|reflexivity].
    apply (A_session_timeout_shrinks r (A.set_timers (delete t) s)).
Qed.

Lemma A_step_bound (ev : A.event) (s : A.server) : A_bound s -> A_bound (A.step ev s).
Proof.
  unfold A_bound. intros Hb.
  destruct (A_step_shrinks_or_enters ev s) as [[H1 H2] | (data & addr & sid & _ & _ & _ & _ & H1 & H2)].
  - rewrite H1. etransitivity; [exact H2 | exact Hb].
  - rewrite H1, H2, !dom_insert_L. apply union_mono_l, Hb.
Qed.

Lemma A_run_bound (evs : list A.event) (s : A.server) : A_bound s -> A_bound (A.run evs s).
Proof.
  revert s. induction evs as [|ev evs IH]; intros s Hb; [exact Hb|].
  apply IH, A_step_bound, Hb.
Qed.

Lemma A_terminate_effect (s : A.server) (r : nat) (o : A.ServerSession) :
  A.objs s !! r = Some o ->
  let s' := exec (A.terminate r) s in
  A.sessions s' = delete (A.session_id o) (A.sessions s) /\
  A.client_addresses s' = A.client_addresses s.
Proof.
  destruct o as [a sid N st tm to]. intros Ho. cbv zeta.
  a_run Ho. destruct tm; a_run Ho; destruct (A.sessions s !! sid) eqn:E; a_cbn;
    split; try reflexivity; now rewrite delete_id.
Qed.

(** C10: in the A server every session id of [sessions] has a binding in
    [client_addresses], initially and after every step of the event loop;
    creating a session enters its id in both maps; [terminate] deletes it
    from [sessions] only; and a binding stays as it is through every step,
    except a [HELLO] datagram for that id while it is not in [sessions],
    which rebinds it to the new sender. *)
Theorem session_ids_stay_bound :
  A_bound A.init /\
  (forall ev s, A_bound s -> A_bound (A.step ev s)) /\
  (forall evs, A_bound (A.run evs A.init)) /\
  (forall (s : A.server) (data : bytes) (addr : address) (sid i : Z),
     Struct.unpack_uint 4 (slice 8 12 data) = Some sid ->
     Struct.unpack_uint 4 (slice 4 8 data) = Some i ->
     Struct.unpack_uint 1 (slice 3 4 data) = Some HELLO ->
     A.sessions s !! sid = None ->
     let s' := exec (A.datagram_received data addr) s in
     is_Some (A.sessions s' !! sid) /\ A.client_addresses s' !! sid = Some addr) /\
  (forall (s : A.server) (r : nat) (o : A.ServerSession),
     A.objs s !! r = Some o ->
     let s' := exec (A.terminate r) s in
     A.sessions s' !! A.session_id o = None /\
     A.client_addresses s' = A.client_addresses s) /\
  (forall (ev : A.event) (s : A.server) (sid : Z) (a : address),
     A.client_addresses s !! sid = Some a ->
     A.client_addresses (A.step ev s) !! sid = Some a \/
     (A.sessions s !! sid = None /\
      exists data addr, ev = A.Datagram data addr /\
        Struct.unpack_uint 4 (slice 8 12 data) = Some sid /\
        Struct.unpack_uint 1 (slice 3 4 data) = Some HELLO /\
        A.client_addresses (A.step ev s) !! sid = Some addr)).
Proof.
  assert (H0 : A_bound A.init) by (unfold A_bound; cbn; set_solver).
  split; [exact H0|]. split; [exact A_step_bound|].
  split; [intros evs; now apply A_run_bound|]. split; [|split].
  - intros s data addr sid i Hsid Hi Hc Hnone. cbv zeta.
    destruct (A_datagram_received_new s data addr sid i Hsid Hi Hc Hnone)
      as (Hs & _ & Hb & _).
    rewrite Hs, Hb, !lookup_insert_eq. eauto.
  - intros s r o Ho. cbv zeta.
    destruct (A_terminate_effect s r o Ho) as [Hs Hb].
    split; [rewrite Hs; apply lookup_delete_eq | exact Hb].
  - intros ev s sid a Ha.
    destruct (A_step_shrinks_or_enters ev s)
      as [[H1 _] | (data & addr & sid' & -> & Hsid & Hc & Hnone & _ & H2)].
    + left. now rewrite H1.
    + rewrite H2. destruct (decide (sid' = sid)) as [->|Hne].
      * right. split; [exact Hnone|]. exists data, addr.
        rewrite lookup_insert_eq. auto.
      * left. now rewrite lookup_insert_ne.
Qed.

Lemma session_ids_stay_bound_witness :
  A_bound (A.step (A.Datagram (datagram MAGIC 1 GOODBYE 1 7 0 []) peer1) A.init) /\
  A.client_addresses
    (exec (A.datagram_received (datagram MAGIC 1 HELLO 0 9 0 []) peer2) A_established)
    !! 9 = Some peer2.
Proof.
  destruct session_ids_stay_bound as (H0 & Hstep & _ & Hnew & _). split.
  - apply Hstep, H0.
  - unshelve epose proof
      (Hnew A_established (datagram MAGIC 1 HELLO 0 9 0 []) peer2 9 0 _ _ _ _) as H;
      [concrete .. |].
    destruct H as (_ & H). exact H.
Defined.

(** *** The B server, for any relation its state updates keep *)

Section BKeeps.
Variable R : B.server -> B.server -> Prop.
Context `{!PreOrder R}.
Hypothesis R_print : forall l s, R s (B.print_line l s).
Hypothesis R_objs : forall f s, R s (B.set_objs f s).
Hypothesis R_timers : forall f s, R s (B.set_timers f s).
Hypothesis R_bump : forall s, R s (B.bump_id s).
Hypothesis R_sendto : forall m a s, R s (B.sendto m a s).
Hypothesis R_clock : forall c s, B.logical_clock s <= c -> R s (B.set_logical_clock c s).
Hypothesis R_sessions : forall f s, R s (B.set_sessions f s).

Lemma B_print_keeps l : preserves R (B.print l).
Proof. apply preserves_modify, R_print. Qed.

Lemma B_self_keeps r : preserves R (B.self_ r).
Proof. intros s. unfold B.self_. destruct (B.objs s !! r); reflexivity. Qed.

Lemma B_update_self_keeps r f : preserves R (B.update_self r f).
Proof. apply preserves_modify. intros s. apply R_objs. Qed.

Lemma B_fresh_keeps : preserves R B.fresh.
Proof. intros s. apply R_bump. Qed.

Lemma B_update_logical_clock_keeps v : preserves R (B.update_logical_clock v).
Proof.
  intros s. unfold B.update_logical_clock. cbn [fst]. apply R_clock.
  destruct v as [v|]; [destruct (Z.gtb_spec v (B.logical_clock s))|]; lia.
Qed.

Lemma B_modify_timers_keeps f : preserves R (modify (B.set_timers f)).
Proof. apply preserves_modify. intros s. apply R_timers. Qed.

Lemma B_modify_objs_keeps f : preserves R (modify (B.set_objs f)).
Proof. apply preserves_modify. intros s. apply R_objs. Qed.

Lemma B_modify_sessions_keeps f : preserves R (modify (B.set_sessions f)).
Proof. apply preserves_modify. intros s. apply R_sessions. Qed.

Lemma B_modify_sendto_keeps m a : preserves R (modify (B.sendto m a)).
Proof. apply preserves_modify. intros s. apply R_sendto. Qed.

Hint Resolve B_print_keeps B_self_keeps B_update_self_keeps B_fresh_keeps
  B_update_logical_clock_keeps B_modify_timers_keeps B_modify_objs_keeps
  B_modify_sessions_keeps B_modify_sendto_keeps : keeps.

Ltac keeps := repeat first [ solve [auto with keeps] | preserves_step ].

Lemma B_cancel_timer_keeps r : preserves R (B.cancel_timer r).
Proof. unfold B.cancel_timer. keeps. Qed.

Lemma B_set_timer_keeps r : preserves R (B.set_timer r).
Proof. unfold B.set_timer. pose proof (B_cancel_timer_keeps r). keeps. Qed.

Lemma B_send_message_keeps r c n d : preserves R (B.send_message r c n d).
Proof. unfold B.send_message. keeps. Qed.

Lemma B_send_goodbye_keeps r : preserves R (B.send_goodbye r).
Proof. unfold B.send_goodbye. pose proof (B_send_message_keeps r GOODBYE). keeps. Qed.

Lemma B_issue_timeout_keeps r : preserves R (B.issue_timeout r).
Proof. unfold B.issue_timeout. pose proof (B_send_goodbye_keeps r). keeps. Qed.

Lemma B_handle_hello_keeps r n : preserves R (B.handle_hello r n).
Proof. unfold B.handle_hello. pose proof (B_send_message_keeps r HELLO n None). keeps. Qed.

Lemma B_print_data_keeps sid d : preserves R (B.print_data sid d).
Proof. unfold B.print_data. keeps. Qed.

Lemma B_accept_data_keeps r n d : preserves R (B.accept_data r n d).
Proof.
  unfold B.accept_data. pose proof B_print_data_keeps.
  pose proof (B_send_message_keeps r ALIVE n None). keeps.
Qed.

Lemma B_handle_data_keeps r n d v : preserves R (B.handle_data r n d v).
Proof. unfold B.handle_data. pose proof (B_accept_data_keeps r n d). keeps. Qed.

Lemma B_handle_goodbye_keeps r : preserves R (B.handle_goodbye r).
Proof. unfold B.handle_goodbye. pose proof (B_send_goodbye_keeps r). keeps. Qed.

Lemma B_process_message_keeps r m : preserves R (B.process_message r m).
Proof.
  unfold B.process_message. pose proof (B_cancel_timer_keeps r).
  pose proof (B_set_timer_keeps r). pose proof (B_handle_hello_keeps r).
  pose proof (B_handle_data_keeps r). pose proof (B_handle_goodbye_keeps r). keeps.
Qed.

Lemma B_process_and_reap_keeps r sid m : preserves R (B.process_and_reap r sid m).
Proof. unfold B.process_and_reap. pose proof (B_process_message_keeps r m). keeps. Qed.

Lemma B_locked_keeps h m a : preserves R (B.locked h m a).
Proof.
  unfold B.locked, B.send_rejection, B.start. cbv zeta.
  pose proof B_process_and_reap_keeps. pose proof B_set_timer_keeps. keeps.
Qed.

End BKeeps.

#[global] Instance B_clock_le_preorder : PreOrder B_clock_le.
Proof. split; unfold B_clock_le; [intros s | intros s1 s2 s3]; lia. Qed.

Lemma B_locked_clock (h : Struct.header) (m : bytes) (a : address) :
  preserves B_clock_le (B.locked h m a).
Proof.
  apply B_locked_keeps; try exact _; unfold B_clock_le; intros; cbn; lia.
Qed.

Lemma B_issue_timeout_clock (r : nat) : preserves B_clock_le (B.issue_timeout r).
Proof.
  apply B_issue_timeout_keeps; try exact _; unfold B_clock_le; intros; cbn; lia.
Qed.

(** On every well-formed datagram the B server merges the clock it carries
    before anything else, and nothing after that takes the clock back. *)
Lemma B_handle_client_clock (t : B.server) (message : bytes) (addr : address)
    (h : Struct.header) :
  Struct.unpack (slice_to 20 message) = Some h ->
  Z.max (B.logical_clock t) (Struct.logical_clock h) + 1
    <= B.logical_clock (exec (B.handle_client message addr) t).
Proof.
  intros Hu. unfold exec, B.handle_client. rewrite Hu.
  unfold bind, B.update_logical_clock. rewrite merge_max.
  set (t1 := B.set_logical_clock _ t).
  apply (B_locked_clock h message addr t1).
Qed.

(** ** The clock on send and on receive *)

Lemma ClientB_send_message_sent (c : ClientB.AsyncUDPClient) (command : Z)
    (data : option bytes) :
  result (ClientB.send_message command data) c = Ret tt ->
  let c' := exec (ClientB.send_message command data) c in
  ClientB.logical_clock c' = ClientB.logical_clock c + 1 /\
  exists m, ClientB.sent c' = ClientB.sent c ++ [(m, ClientB.server c)] /\
    Struct.decode m =
      Some (Struct.Header MAGIC 1 command (ClientB.sequence_number c) (ClientB.session_id c)
                          (ClientB.logical_clock c), payload_of data).
Proof.
  unfold result, exec, ClientB.send_message, bind, get, lift, ret, raise, modify,
    ClientB.print, ClientB.update_logical_clock.
  destruct (Struct.pack _) as [hd|] eqn:Hp; cbn; [|discriminate].
  intros _. split; [reflexivity|].
  eexists. split; [reflexivity|].
  destruct data as [[|b d]|]; cbn [payload_of]; now apply decode_app.
Qed.

Lemma ClientA_send_message_sent (c : ClientA.Client) (command : Z) (data : option bytes) :
  result (ClientA.send_message command data) c = Ret tt ->
  let c' := exec (ClientA.send_message command data) c in
  ClientA.logical_clock c' = ClientA.logical_clock c + 1 /\
  exists m, ClientA.sent c' = ClientA.sent c ++ [(m, ClientA.server c)] /\
    Struct.decode m =
      Some (Struct.Header MAGIC 1 command (ClientA.sequence_number c) (ClientA.session_id c)
                          (ClientA.logical_clock c + 1), payload_of data).
Proof.
  unfold result, exec, ClientA.send_message, bind, get, lift, ret, raise, modify,
    ClientA.print, ClientA.update_logical_clock.
  cbn [fst snd ClientA.sequence_number ClientA.session_id ClientA.set_logical_clock
       ClientA.server].
  destruct (Struct.pack _) as [hd|] eqn:Hp; cbn [fst snd]; [|discriminate].
  intros _. destruct (command =? GOODBYE); cbn; (split; [reflexivity|]);
    (eexists; split; [reflexivity|]);
    (destruct data as [d|]; cbn [payload_of];
     [now apply decode_app | rewrite <- (app_nil_r hd); now apply decode_app]).
Qed.

Lemma A_send_message_sent (s : A.server) (r : nat) (command seq : Z) (data : option bytes) :
  result (A.send_message r command seq data) s = Ret tt ->
  let s' := exec (A.send_message r command seq data) s in
  A.logical_clock s' = A.logical_clock s + 1 /\
  exists o m, A.objs s !! r = Some o /\
    A.sent s' = A.sent s ++ [(m, A.client_address o)] /\
    Struct.decode m =
      Some (Struct.Header MAGIC 1 command seq (A.session_id o) (A.logical_clock s + 1),
            payload_of data).
Proof.
  unfold result, exec, A.send_message, bind, get, lift, ret, raise, modify,
    A.self_, A.update_logical_clock.
  cbn [fst snd A.objs A.set_logical_clock].
  destruct (A.objs s !! r) as [o|] eqn:Ho; cbn [fst snd]; [|discriminate].
  destruct (Struct.pack _) as [hd|] eqn:Hp; cbn [fst snd]; [|discriminate].
  intros _. split; [reflexivity|]. exists o. eexists. split; [reflexivity|].
  split; [reflexivity|].
  destruct data as [[|b d]|]; cbn [payload_of];
    first [now apply decode_app | rewrite <- (app_nil_r hd); now apply decode_app].
Qed.

Lemma B_send_message_sent (t : B.server) (q : nat) (command seq : Z) (data : option bytes) :
  result (B.send_message q command seq data) t = Ret tt ->
  let t' := exec (B.send_message q command seq data) t in
  B.logical_clock t' = B.logical_clock t + 1 /\
  exists p m, B.objs t !! q = Some p /\
    B.sent t' = B.sent t ++ [(m, B.client_address p)] /\
    Struct.decode m =
      Some (Struct.Header MAGIC 1 command seq (B.session_id p) (B.logical_clock t + 1),
            payload_of data).
Proof.
  unfold result, exec, B.send_message, bind, get, lift, ret, raise, modify,
    B.self_, B.update_logical_clock.
  cbn [fst snd B.objs B.set_logical_clock].
  destruct (B.objs t !! q) as [p|] eqn:Ho; cbn [fst snd]; [|discriminate].
  destruct (Struct.pack _) as [hd|] eqn:Hp; cbn [fst snd]; [|discriminate].
  intros _. split; [reflexivity|]. exists p. eexists. split; [reflexivity|].
  split; [reflexivity|].
  destruct data as [[|b d]|]; cbn [payload_of]; now apply decode_app.
Qed.

Lemma ClientB_handle_response_clock (c : ClientB.AsyncUDPClient) (message : bytes)
    (h : Struct.header) :
  Struct.unpack (slice_to 20 message) = Some h ->
  ClientB.logical_clock (exec (ClientB.handle_response message) c)
    = Z.max (ClientB.logical_clock c) (Struct.logical_clock h) + 1.
Proof.
  intros Hu.
  unfold exec, ClientB.handle_response, bind, get, lift, ret, raise, modify,
    ClientB.print, ClientB.update_logical_clock.
  rewrite Hu, merge_max. cbn [fst snd ClientB.session_id ClientB.set_logical_clock].
  destruct (negb (Struct.magic h =? MAGIC) || negb (Struct.version h =? 1));
    [reflexivity|].
  destruct (negb (Struct.session_id h =? ClientB.session_id c)); [reflexivity|].
  destruct (Struct.command h =? ALIVE); [reflexivity|].
  destruct (Struct.command h =? GOODBYE); [reflexivity|].
  cbn [fst snd].
  destruct (if Nat.ltb 20 (length message) then slice_from 20 message else [])
    as [|b d]; [reflexivity|].
  destruct (utf8_valid (b :: d)); reflexivity.
Qed.

Lemma ClientA_receive_message_clock (c : ClientA.Client) (response : bytes)
    (h : Struct.header) :
  Struct.unpack (slice_to 20 response) = Some h ->
  utf8_valid (slice_from 20 response) = true ->
  ClientA.logical_clock (exec (ClientA.receive_message response) c)
    = Z.max (ClientA.logical_clock c) (Struct.logical_clock h) + 1.
Proof.
  intros Hu Hv.
  unfold exec, ClientA.receive_message, ClientA.decode_message, ClientA.cancel_timer,
    ClientA.print, ClientA.update_logical_clock, try_except, bind, get, lift, ret, raise,
    modify.
  rewrite Hu, Hv. rewrite <- merge_max.
  destruct (ClientA.idle_timer c); cbn; destruct (Struct.command h =? GOODBYE); reflexivity.
Qed.

Lemma A_classify_clock (r : nat) (o : A.ServerSession) (n : Z) (d : bytes) :
  preserves A_clock_le (A.classify r o n d).
Proof.
  apply A_classify_keeps; try exact _; unfold A_clock_le; intros; cbn; lia.
Qed.

(** A [DATA] handled by an A-server session in [RECEIVE] merges the clock it
    carries. *)
Lemma A_handle_data_clock (s : A.server) (r : nat) (o : A.ServerSession)
    (seq v : Z) (data : bytes) :
  A.objs s !! r = Some o ->
  A.state o = A.RECEIVE ->
  Z.max (A.logical_clock s) v + 1 <= A.logical_clock (exec (A.handle_data r seq data v) s).
Proof.
  intros Ho Hst. unfold exec, A.handle_data, bind, A.self_. rewrite Ho, Hst.
  unfold A.update_logical_clock. rewrite merge_max.
  apply (A_classify_clock r o seq data (A.set_logical_clock _ s)).
Qed.

(** *** Receipts that do not merge *)

#[global] Instance A_quiet_preorder : PreOrder A_quiet.
Proof.
  split.
  - intros s. split; reflexivity.
  - intros s1 s2 s3 [H1 H2] [H3 H4]. split; congruence.
Qed.

Lemma A_close_quiet (r : nat) :
  preserves A_quiet (A.update_self r (A.with_state A.DONE) ;; A.terminate r)%py.
Proof.
  apply preserves_bind; [exact _ | |intros _].
  - apply A_update_self_keeps. intros f s. split; reflexivity.
  - apply A_terminate_keeps; try exact _; intros; split; reflexivity.
Qed.

Lemma A_enter_receive_quiet (r : nat) :
  preserves A_quiet (A.update_self r (A.with_state A.RECEIVE) ;; A.set_timer r)%py.
Proof.
  apply preserves_bind; [exact _ | |intros _].
  - apply A_update_self_keeps. intros f s. split; reflexivity.
  - apply A_set_timer_keeps; try exact _; intros; split; reflexivity.
Qed.

(** A line, one [send_message], and steps that leave clock and [sent] log
    alone: the clock ticks once, and at most one datagram goes out. *)
Lemma A_reply_ticks_once (l : A.line) (r : nat) (c n : Z) (d : option bytes)
    (k : M A.server unit) (s : A.server) :
  preserves A_quiet k ->
  let s' := exec (A.print l ;; A.send_message r c n d ;; k)%py s in
  A.logical_clock s' = A.logical_clock s + 1 /\
  (A.sent s' = A.sent s \/ exists m, A.sent s' = A.sent s ++ [m]).
Proof.
  intros Hk. cbv zeta.
  unfold exec, A.print, A.send_message, A.update_logical_clock, A.self_, lift, ret, raise,
    modify, bind.
  cbn [fst snd A.objs A.set_logical_clock A.print_line A.logical_clock].
  destruct (A.objs s !! r) as [o|]; cbn [fst snd]; [|split; [reflexivity | now left]].
  destruct (Struct.pack _) as [hd|]; cbn [fst snd]; [|split; [reflexivity | now left]].
  match goal with
  | |- context [k ?x] => destruct (Hk x) as [Hc Hs]; destruct (k x) as [s2 o2]
  end.
  cbn [fst snd] in Hc, Hs.
  assert (E : fst (let (s', o') := (s2, o2) in
                   match o' with
                   | Ret a => (s', Ret a)
                   | Raise e => (s', @Raise unit e)
                   end) = s2) by (destruct o2; reflexivity).
  destruct o2; cbn [fst snd]; rewrite Hc, Hs; cbn;
    (split; [reflexivity | right; eexists; reflexivity]).
Qed.

Lemma A_print_then_close_ticks_once (l : A.line) (r : nat) (s : A.server) :
  let s' := exec (A.print l ;; A.goodbye_and_terminate r)%py s in
  A.logical_clock s' = A.logical_clock s + 1 /\
  (A.sent s' = A.sent s \/ exists m, A.sent s' = A.sent s ++ [m]).
Proof. apply (A_reply_ticks_once l r GOODBYE 0 None _ s (A_close_quiet r)). Qed.

(** [handle_message], once the header is unpacked and [self] is read. *)
Lemma A_handle_message_dispatch (s : A.server) (r : nat) (o : A.ServerSession)
    (message : bytes) (h : Struct.header) :
  A.objs s !! r = Some o ->
  Struct.unpack (slice_to 20 message) = Some h ->
  A.handle_message r message s =
    (if negb (Struct.magic h =? MAGIC) || negb (Struct.version h =? 1) then
       A.print (A.InvalidMessage (A.client_address o)) ;; A.goodbye_and_terminate r
     else if negb (Struct.session_id h =? A.session_id o) then
       A.print (A.InvalidSessionId (A.client_address o)) ;; A.goodbye_and_terminate r
     else if Struct.command h =? HELLO then A.handle_hello r (Struct.sequence_number h)
     else if Struct.command h =? DATA then
       A.handle_data r (Struct.sequence_number h) (slice_from 20 message)
         (Struct.logical_clock h)
     else if Struct.command h =? GOODBYE then A.handle_goodbye r
     else A.print (A.UnknownCommand (A.client_address o)) ;; A.goodbye_and_terminate r)%py
      s.
Proof.
  intros Ho Hu. unfold A.handle_message, bind at 1, lift. rewrite Hu.
  unfold ret at 1, bind at 1, A.self_ at 1. now rewrite Ho.
Qed.

Lemma A_handle_hello_read (s : A.server) (r : nat) (o : A.ServerSession) (n : Z) :
  A.objs s !! r = Some o ->
  A.handle_hello r n s =
    match A.state o with
    | A.WAIT_FOR_HELLO =>
        A.print (A.ReceivedHello (A.client_address o) (A.session_id o)) ;;
        A.send_message r HELLO n None ;;
        A.update_self r (A.with_state A.RECEIVE) ;;
        A.set_timer r
    | st => A.print (A.HelloInState st) ;; A.goodbye_and_terminate r
    end%py s.
Proof. intros Ho. unfold A.handle_hello, bind at 1, A.self_ at 1. now rewrite Ho. Qed.

(** Whatever a session is handed, the clock value it carries is merged only
    when the header is valid, the session id is the session's, the command
    is [DATA] and the session is in [RECEIVE]; otherwise the clock stays, or
    ticks once for the one [send_message] of the reply. *)
Lemma A_handle_message_no_merge (s : A.server) (r : nat) (o : A.ServerSession)
    (message : bytes) :
  A.objs s !! r = Some o ->
  (forall h, Struct.unpack (slice_to 20 message) = Some h ->
     ~ (Struct.magic h = MAGIC /\ Struct.version h = 1 /\
        Struct.session_id h = A.session_id o /\ Struct.command h = DATA /\
        A.state o = A.RECEIVE)) ->
  let s' := exec (A.handle_message r message) s in
  (A.logical_clock s' = A.logical_clock s /\ A.sent s' = A.sent s) \/
  (A.logical_clock s' = A.logical_clock s + 1 /\
   (A.sent s' = A.sent s \/ exists m, A.sent s' = A.sent s ++ [m])).
Proof.
  intros Ho Hno. cbv zeta.
  destruct (Struct.unpack (slice_to 20 message)) as [h|] eqn:Hu.
  2:{ left. unfold exec, A.handle_message, bind, lift. rewrite Hu. split; reflexivity. }
  specialize (Hno h eq_refl).
  unfold exec. rewrite (A_handle_message_dispatch s r o message h Ho Hu).
  fold (@exec A.server unit).
  destruct (Z.eqb_spec (Struct.magic h) MAGIC) as [Hm|_]; cbn [negb orb];
    [|right; apply A_print_then_close_ticks_once].
  destruct (Z.eqb_spec (Struct.version h) 1) as [Hv|_]; cbn [negb orb];
    [|right; apply A_print_then_close_ticks_once].
  destruct (Z.eqb_spec (Struct.session_id h) (A.session_id o)) as [Hsid|_]; cbn [negb];
    [|right; apply A_print_then_close_ticks_once].
  destruct (Struct.command h =? HELLO).
  { rewrite (A_handle_hello_read s r o _ Ho). right.
    destruct (A.state o); try apply A_print_then_close_ticks_once.
    apply (A_reply_ticks_once _ r HELLO _ None _ s (A_enter_receive_quiet r)). }
  destruct (Z.eqb_spec (Struct.command h) DATA) as [Hd|_].
  { unfold A.handle_data, bind, A.self_. rewrite Ho.
    destruct (A.state o) eqn:Hst; try (left; split; reflexivity).
    exfalso. apply Hno. auto. }
  destruct (Struct.command h =? GOODBYE).
  { destruct (A.state o) eqn:Hst.
    - left. unfold A.handle_goodbye, bind, A.self_. rewrite Ho, Hst. split; reflexivity.
    - right.
      assert (E : A.handle_goodbye r s =
                  (A.print (A.ReceivedGoodbye (A.client_address o)) ;;
                   A.goodbye_and_terminate r)%py s).
      { unfold A.handle_goodbye, bind at 1, A.self_ at 1. now rewrite Ho, Hst. }
      rewrite E. apply A_print_then_close_ticks_once.
    - left. unfold A.handle_goodbye, bind, A.self_. rewrite Ho, Hst. split; reflexivity. }
  right. apply A_print_then_close_ticks_once.
Qed.

(** The first receive of the A client, in [run], ticks the clock and does
    not look at the clock value of the response. *)
Lemma ClientA_await_hello_clock (c : ClientA.Client) (response : bytes)
    (h : Struct.header) :
  Struct.unpack (slice_to 20 response) = Some h ->
  utf8_valid (slice_from 20 response) = true ->
  ClientA.logical_clock (exec (ClientA.await_hello response) c)
    = ClientA.logical_clock c + 1.
Proof.
  intros Hu Hv.
  unfold exec, ClientA.await_hello, ClientA.decode_message, ClientA.cancel_timer,
    ClientA.print, ClientA.update_logical_clock, try_except, bind, get, lift, ret, raise,
    modify.
  rewrite Hu, Hv.
  destruct (ClientA.idle_timer c); cbn; destruct (Struct.command h =? HELLO); reflexivity.
Qed.

(** The whole of [run] with a decoded response: the [HELLO] sent, the
    update after it and the receive, three ticks whatever the server says. *)
Lemma ClientA_run_clock (c : ClientA.Client) (response : bytes) (h : Struct.header) :
  Struct.in_range HELLO (ClientA.sequence_number c) (ClientA.session_id c)
    (ClientA.logical_clock c + 1) ->
  Struct.unpack (slice_to 20 response) = Some h ->
  utf8_valid (slice_from 20 response) = true ->
  ClientA.logical_clock (exec (ClientA.run (Some response)) c)
    = ClientA.logical_clock c + 3.
Proof.
  intros Hr Hu Hv. destruct (pack_in_range _ _ _ _ Hr) as [hd Hhd].
  unfold exec, ClientA.run, ClientA.await_hello, ClientA.set_timer, ClientA.send_message,
    ClientA.decode_message, ClientA.cancel_timer, ClientA.print,
    ClientA.update_logical_clock, try_except, lift, ret, raise, get, modify, bind.
  cbn [fst snd ClientA.sequence_number ClientA.session_id ClientA.logical_clock
       ClientA.set_logical_clock ClientA.print_line].
  rewrite Hhd. change (HELLO =? GOODBYE) with false. cbn. rewrite Hu, Hv. cbn.
  destruct (Struct.command h =? HELLO); cbn; lia.
Qed.

(** C3, as the code has it. A [send_message] that sends advances the clock of
    its process by exactly one, in both clients and both servers; the header
    it sends carries the clock before that step in the B client and after it
    in the A client and in both servers. A receive that merges leaves the
    clock at [max(local, received) + 1] (the B client's [handle_response] and
    the A client's [receive_message]) or at least there (the B server on
    every well-formed datagram, the A server on a [DATA] handled in
    [RECEIVE]), hence strictly greater than before. The first receive of the
    A client, in [run], does not merge: it ticks the clock by one whatever
    the response carries, so that the whole of [run] takes three ticks. The
    A server merges on no other receipt:
    [datagram_received] leaves the clock as it is, and a session that is
    handed anything but a valid [DATA] of its own in [RECEIVE] leaves the
    clock as it is or ticks it once, for the one [send_message] of its
    reply. No step of the A server takes the clock back. *)
Theorem clock_on_send_and_receive :
  (forall (c : ClientB.AsyncUDPClient) (command : Z) (data : option bytes),
     result (ClientB.send_message command data) c = Ret tt ->
     let c' := exec (ClientB.send_message command data) c in
     ClientB.logical_clock c' = ClientB.logical_clock c + 1 /\
     exists m, ClientB.sent c' = ClientB.sent c ++ [(m, ClientB.server c)] /\
       Struct.decode m =
         Some (Struct.Header MAGIC 1 command (ClientB.sequence_number c)
                 (ClientB.session_id c) (ClientB.logical_clock c), payload_of data)) /\
  (forall (c : ClientA.Client) (command : Z) (data : option bytes),
     result (ClientA.send_message command data) c = Ret tt ->
     let c' := exec (ClientA.send_message command data) c in
     ClientA.logical_clock c' = ClientA.logical_clock c + 1 /\
     exists m, ClientA.sent c' = ClientA.sent c ++ [(m, ClientA.server c)] /\
       Struct.decode m =
         Some (Struct.Header MAGIC 1 command (ClientA.sequence_number c)
                 (ClientA.session_id c) (ClientA.logical_clock c'), payload_of data)) /\
  (forall (s : A.server) (r : nat) (command seq : Z) (data : option bytes),
     result (A.send_message r command seq data) s = Ret tt ->
     let s' := exec (A.send_message r command seq data) s in
     A.logical_clock s' = A.logical_clock s + 1 /\
     exists o m, A.objs s !! r = Some o /\
       A.sent s' = A.sent s ++ [(m, A.client_address o)] /\
       Struct.decode m =
         Some (Struct.Header MAGIC 1 command seq (A.session_id o) (A.logical_clock s'),
               payload_of data)) /\
  (forall (t : B.server) (q : nat) (command seq : Z) (data : option bytes),
     result (B.send_message q command seq data) t = Ret tt ->
     let t' := exec (B.send_message q command seq data) t in
     B.logical_clock t' = B.logical_clock t + 1 /\
     exists p m, B.objs t !! q = Some p /\
       B.sent t' = B.sent t ++ [(m, B.client_address p)] /\
       Struct.decode m =
         Some (Struct.Header MAGIC 1 command seq (B.session_id p) (B.logical_clock t'),
               payload_of data)) /\
  (forall (c : ClientB.AsyncUDPClient) (message : bytes) (h : Struct.header),
     Struct.unpack (slice_to 20 message) = Some h ->
     let c' := exec (ClientB.handle_response message) c in
     ClientB.logical_clock c' = Z.max (ClientB.logical_clock c) (Struct.logical_clock h) + 1 /\
     ClientB.logical_clock c < ClientB.logical_clock c') /\
  (forall (c : ClientA.Client) (response : bytes) (h : Struct.header),
     Struct.unpack (slice_to 20 response) = Some h ->
     utf8_valid (slice_from 20 response) = true ->
     let c' := exec (ClientA.receive_message response) c in
     ClientA.logical_clock c' = Z.max (ClientA.logical_clock c) (Struct.logical_clock h) + 1 /\
     ClientA.logical_clock c < ClientA.logical_clock c') /\
  (forall (t : B.server) (message : bytes) (addr : address) (h : Struct.header),
     Struct.unpack (slice_to 20 message) = Some h ->
     let t' := exec (B.handle_client message addr) t in
     Z.max (B.logical_clock t) (Struct.logical_clock h) + 1 <= B.logical_clock t' /\
     B.logical_clock t < B.logical_clock t') /\
  (forall (s : A.server) (r : nat) (o : A.ServerSession) (seq v : Z) (data : bytes),
     A.objs s !! r = Some o ->
     A.state o = A.RECEIVE ->
     let s' := exec (A.handle_data r seq data v) s in
     Z.max (A.logical_clock s) v + 1 <= A.logical_clock s' /\
     A.logical_clock s < A.logical_clock s') /\
  (forall (ev : A.event) (s : A.server), A.logical_clock s <= A.logical_clock (A.step ev s)) /\
  (forall (c : ClientA.Client) (response : bytes) (h : Struct.header),
     Struct.unpack (slice_to 20 response) = Some h ->
     utf8_valid (slice_from 20 response) = true ->
     ClientA.logical_clock (exec (ClientA.await_hello response) c)
       = ClientA.logical_clock c + 1 /\
     (Struct.in_range HELLO (ClientA.sequence_number c) (ClientA.session_id c)
        (ClientA.logical_clock c + 1) ->
      ClientA.logical_clock (exec (ClientA.run (Some response)) c)
        = ClientA.logical_clock c + 3)) /\
  (forall (s : A.server) (data : bytes) (addr : address),
     A.logical_clock (exec (A.datagram_received data addr) s) = A.logical_clock s) /\
  (forall (s : A.server) (r : nat) (o : A.ServerSession) (message : bytes),
     A.objs s !! r = Some o ->
     (forall h, Struct.unpack (slice_to 20 message) = Some h ->
        ~ (Struct.magic h = MAGIC /\ Struct.version h = 1 /\
           Struct.session_id h = A.session_id o /\ Struct.command h = DATA /\
           A.state o = A.RECEIVE)) ->
     let s' := exec (A.handle_message r message) s in
     (A.logical_clock s' = A.logical_clock s /\ A.sent s' = A.sent s) \/
     (A.logical_clock s' = A.logical_clock s + 1 /\
      (A.sent s' = A.sent s \/ exists m, A.sent s' = A.sent s ++ [m]))).
Proof.
  split; [exact ClientB_send_message_sent|].
  split.
  { intros c command data Hr. cbv zeta.
    destruct (ClientA_send_message_sent c command data Hr) as [Hc Hm].
    split; [exact Hc|]. rewrite Hc. exact Hm. }
  split.
  { intros s r command seq data Hr. cbv zeta.
    destruct (A_send_message_sent s r command seq data Hr) as [Hc Hm].
    split; [exact Hc|]. rewrite Hc. exact Hm. }
  split.
  { intros t q command seq data Hr. cbv zeta.
    destruct (B_send_message_sent t q command seq data Hr) as [Hc Hm].
    split; [exact Hc|]. rewrite Hc. exact Hm. }
  split.
  { intros c message h Hu. cbv zeta.
    rewrite (ClientB_handle_response_clock c message h Hu). lia. }
  split.
  { intros c response h Hu Hv. cbv zeta.
    rewrite (ClientA_receive_message_clock c response h Hu Hv). lia. }
  split.
  { intros t message addr h Hu. cbv zeta.
    pose proof (B_handle_client_clock t message addr h Hu). lia. }
  split.
  { intros s r o seq v data Ho Hst. cbv zeta.
    pose proof (A_handle_data_clock s r o seq v data Ho Hst). lia. }
  split; [exact A_step_clock|].
  split.
  { intros c response h Hu Hv. split; [exact (ClientA_await_hello_clock c response h Hu Hv)|].
    intros Hr. exact (ClientA_run_clock c response h Hr Hu Hv). }
  split.
  { intros s data addr. now destruct (A_datagram_received_effect data addr s) as (H & _). }
  exact A_handle_message_no_merge.
Qed.

Lemma clock_on_send_and_receive_witness :
  ClientB.logical_clock
    (exec (ClientB.send_message HELLO None) (ClientB.init peer1 7)) = 1 /\
  B.logical_clock B_established
    < B.logical_clock (exec (B.handle_client (datagram MAGIC 1 DATA 2 7 9 hi) peer1)
                            B_established) /\
  ClientA.logical_clock
    (exec (ClientA.await_hello (datagram MAGIC 1 HELLO 0 7 9 [])) (ClientA.init peer1 7))
    = 1.
Proof.
  destruct clock_on_send_and_receive
    as (HsB & _ & _ & _ & _ & _ & HrB & _ & _ & HrA & _).
  split; [|split].
  - unshelve epose proof (HsB (ClientB.init peer1 7) HELLO None _) as H; [concrete |].
    destruct H as (H & _). exact H.
  - unshelve epose proof
      (HrB B_established (datagram MAGIC 1 DATA 2 7 9 hi) peer1
           (Struct.Header MAGIC 1 DATA 2 7 9) _) as H; [concrete |].
    destruct H as (_ & H). exact H.
  - unshelve epose proof
      (HrA (ClientA.init peer1 7) (datagram MAGIC 1 HELLO 0 7 9 [])
           (Struct.Header MAGIC 1 HELLO 0 7 9) _ _) as H; [concrete | concrete |].
    destruct H as (H & _). exact H.
Defined.

(** C3 fails on the A server: the session of [peer1] is sent a [GOODBYE] that
    carries clock 5 while the server clock is 1. Receiving the datagram
    leaves the clock at 1; handling it sends the [GOODBYE] reply, and the
    clock is 2 after the receive and the send together. *)
Lemma A_receive_does_not_advance_clock :
  let s := A_established in
  let s1 := A.step (A.Datagram (datagram MAGIC 1 GOODBYE 1 7 5 []) peer1) s in
  let s2 := A.step A.RunTask s1 in
  A.logical_clock s = 1 /\
  ~ (A.logical_clock s < A.logical_clock s1) /\
  A.tasks s1 = [(0%nat, datagram MAGIC 1 GOODBYE 1 7 5 [])] /\
  emitted GOODBYE (A.sent s) (A.sent s2) = true /\
  length (A.sent s2) = S (length (A.sent s)) /\
  A.logical_clock s2 = A.logical_clock s + 1.
Proof.
  vm_compute. repeat split; try reflexivity. intros H. discriminate H.
Qed.

(** * Further properties of the code *)

(** ** The codec, in the other direction *)

Lemma byte_of_Z_of_byte (b : byte) : byte_of_Z (Z_of_byte b) = b.
Proof.
  unfold byte_of_Z, Z_of_byte. pose proof (Byte.to_N_bounded b).
  rewrite Z.mod_small by lia. rewrite N2Z.id, Byte.of_to_N. reflexivity.
Qed.

Lemma byte_of_Z_mod (z : Z) : byte_of_Z (z mod 256) = byte_of_Z z.
Proof. unfold byte_of_Z. now rewrite Z.mod_mod by lia. Qed.

Lemma be_value_acc (bs : bytes) (acc : Z) :
  Struct.be_value bs acc = acc * 256 ^ Z.of_nat (length bs) + Struct.be_value bs 0.
Proof.
  revert acc. induction bs as [|b bs IH]; intros acc.
  - simpl. lia.
  - cbn [Struct.be_value length]. rewrite IH, (IH (0 * 256 + Z_of_byte b)).
    rewrite Nat2Z.inj_succ, Z.pow_succ_r by lia. lia.
Qed.

(** Only the [n] low-order bytes of a value are written. *)
Lemma be_bytes_mod (n : nat) (v : Z) :
  Struct.be_bytes n (v mod 256 ^ Z.of_nat n) = Struct.be_bytes n v.
Proof.
  revert v. induction n as [|k IH]; intros v; [reflexivity|].
  cbn [Struct.be_bytes].
  assert (Hp : 0 < 256 ^ Z.of_nat k) by (apply Z.pow_pos_nonneg; lia).
  assert (Hs : 256 ^ Z.of_nat (S k) = 256 ^ Z.of_nat k * 256)
    by (rewrite Nat2Z.inj_succ, Z.pow_succ_r by lia; lia).
  rewrite Hs, (Z.rem_mul_r v (256 ^ Z.of_nat k) 256) by lia. f_equal.
  - rewrite <- (byte_of_Z_mod (v / _)). f_equal.
    rewrite Z.mul_comm, Z.div_add by lia.
    rewrite Z.div_small by (apply Z.mod_pos_bound; lia). reflexivity.
  - rewrite <- IH, Z.mul_comm, Z.mod_add by lia.
    rewrite Z.mod_mod by lia. apply IH.
Qed.

Lemma be_bytes_be_value (bs : bytes) :
  Struct.be_bytes (length bs) (Struct.be_value bs 0) = bs.
Proof.
  induction bs as [|b bs IH]; [reflexivity|].
  cbn [length Struct.be_bytes Struct.be_value].
  rewrite be_value_acc. replace (0 * 256 + Z_of_byte b) with (Z_of_byte b) by lia.
  pose proof (be_value_bound bs 0 ltac:(lia)) as Hb. rewrite Z.mul_1_l in Hb.
  assert (Hp : 0 < 256 ^ Z.of_nat (length bs)) by (apply Z.pow_pos_nonneg; lia).
  f_equal.
  - rewrite Z.div_add_l by lia. rewrite Z.div_small by assumption.
    rewrite Z.add_0_r. apply byte_of_Z_of_byte.
  - rewrite <- be_bytes_mod, Z.add_comm, Z.mod_add by lia.
    rewrite Z.mod_small by assumption. exact IH.
Qed.

Lemma pack_uint_be_value (n : nat) (bs : bytes) :
  length bs = n -> Struct.pack_uint n (Struct.be_value bs 0) = Some bs.
Proof.
  intros <-. pose proof (be_value_bound bs 0 ltac:(lia)) as Hb. rewrite Z.mul_1_l in Hb.
  rewrite pack_uint_Some by assumption. now rewrite be_bytes_be_value.
Qed.

(** Packing what [unpack] returned gives back the very 20 bytes. *)
Lemma pack_unpack (buf : bytes) (h : Struct.header) :
  Struct.unpack buf = Some h -> Struct.pack h = Some buf.
Proof.
  unfold Struct.unpack. destruct (Nat.eqb (length buf) 20) eqn:E; [|discriminate].
  apply Nat.eqb_eq in E. intros H. apply (inj Some) in H. subst h.
  do 20 (destruct buf as [|? buf]; [discriminate E|]).
  destruct buf; [|discriminate E].
  unfold Struct.pack, slice.
  cbn [Struct.magic Struct.version Struct.command Struct.sequence_number
       Struct.session_id Struct.logical_clock skipn firstn Nat.sub].
  rewrite !pack_uint_be_value by reflexivity. reflexivity.
Qed.

Lemma decode_None_iff (message : bytes) :
  Struct.decode message = None <-> (length message < 20)%nat.
Proof.
  unfold Struct.decode, Struct.unpack, slice_to. rewrite length_take.
  destruct (Nat.eqb_spec (20 `min` length message) 20) as [E|E].
  - cbn iota. split; [discriminate | lia].
  - split; [lia | reflexivity].
Qed.

(** X1: a datagram is undecodable exactly when it has fewer than 20 bytes.
    For any longer one the decoded header packs back into the first 20 bytes
    of the datagram, the payload is the rest, and every decoded field lies
    within the width of its wire field. *)
Theorem decode_total_on_long_datagrams (message : bytes) :
  (Struct.decode message = None <-> (length message < 20)%nat) /\
  ((20 <= length message)%nat ->
   exists h payload,
     Struct.decode message = Some (h, payload) /\
     Struct.pack h = Some (slice_to 20 message) /\
     slice_to 20 message ++ payload = message /\
     0 <= Struct.magic h < 2 ^ 16 /\ 0 <= Struct.version h < 2 ^ 8 /\
     Struct.in_range (Struct.command h) (Struct.sequence_number h) (Struct.session_id h)
                     (Struct.logical_clock h)).
Proof.
  split; [apply decode_None_iff|]. intros Hlen.
  destruct (Struct.decode message) as [[h payload]|] eqn:Hd.
  - exists h, payload. split; [reflexivity|].
    unfold Struct.decode in Hd.
    destruct (Struct.unpack (slice_to 20 message)) as [h'|] eqn:Hu; [|discriminate].
    apply (inj Some) in Hd.
    pose proof (f_equal fst Hd) as H1. pose proof (f_equal snd Hd) as H2.
    cbn [fst snd] in H1, H2. subst h' payload.
    split; [now apply pack_unpack|]. split; [apply take_drop|].
    apply (unpack_range _ _ Hu).
  - apply decode_None_iff in Hd. lia.
Qed.

Lemma decode_total_on_long_datagrams_witness :
  exists h payload,
    Struct.decode (datagram MAGIC 1 DATA 1 7 3 hi) = Some (h, payload) /\
    Struct.pack h = Some (slice_to 20 (datagram MAGIC 1 DATA 1 7 3 hi)).
Proof.
  destruct (decode_total_on_long_datagrams (datagram MAGIC 1 DATA 1 7 3 hi)) as [_ H].
  destruct H as (h & payload & H1 & H2 & _); [vm_compute; lia|].
  exists h, payload. auto.
Defined.

Lemma pack_uint_None_iff (n : nat) (v : Z) :
  Struct.pack_uint n v = None <-> ~ (0 <= v < 256 ^ Z.of_nat n).
Proof.
  unfold Struct.pack_uint.
  destruct (Z.leb_spec 0 v); destruct (Z.ltb_spec v (256 ^ Z.of_nat n)); cbn;
    split; intros; try discriminate; try reflexivity; lia.
Qed.

(** X2: packing raises [struct.error] exactly when some field does not fit
    its width; so a message is encoded if and only if command, sequence
    number, session id and clock are in range, and then it is the six
    fields in network byte order (magic number, version, command, sequence
    number, session id, clock: 2, 1, 1, 4, 4 and 8 bytes) followed by the
    payload. *)
Theorem encode_fails_iff_out_of_range (command sequence_number session_id logical_clock : Z)
    (payload : bytes) :
  (Struct.encode command sequence_number session_id logical_clock payload = None <->
   ~ Struct.in_range command sequence_number session_id logical_clock) /\
  (Struct.in_range command sequence_number session_id logical_clock ->
   Struct.encode command sequence_number session_id logical_clock payload =
     Some (Struct.be_bytes 2 MAGIC ++ Struct.be_bytes 1 1 ++ Struct.be_bytes 1 command ++
           Struct.be_bytes 4 sequence_number ++ Struct.be_bytes 4 session_id ++
           Struct.be_bytes 8 logical_clock ++ payload)).
Proof.
  split; [|intros (Hc & Hs & Hi & Hl); unfold Struct.encode, Struct.pack;
           cbn [Struct.magic Struct.version Struct.command Struct.sequence_number
                Struct.session_id Struct.logical_clock];
           rewrite (pack_uint_Some 2 50273) by (simpl; lia);
           rewrite (pack_uint_Some 1 1) by (simpl; lia);
           rewrite (pack_uint_Some 1 command) by (simpl; lia);
           rewrite (pack_uint_Some 4 sequence_number) by (simpl; lia);
           rewrite (pack_uint_Some 4 session_id) by (simpl; lia);
           rewrite (pack_uint_Some 8 logical_clock) by (simpl; lia);
           unfold MAGIC; now rewrite <- !app_assoc].
  split.
  - intros He Hr. destruct (pack_in_range _ _ _ _ Hr) as [hd Hhd].
    unfold Struct.encode in He. fold MAGIC in He. rewrite Hhd in He. discriminate.
  - intros Hr. unfold Struct.encode, Struct.pack.
    cbn [Struct.magic Struct.version Struct.command Struct.sequence_number
         Struct.session_id Struct.logical_clock].
    destruct (Struct.pack_uint 1 command) as [c|] eqn:E1;
      destruct (Struct.pack_uint 4 sequence_number) as [s|] eqn:E2;
      destruct (Struct.pack_uint 4 session_id) as [i|] eqn:E3;
      destruct (Struct.pack_uint 8 logical_clock) as [k|] eqn:E4;
      try (destruct (Struct.pack_uint 2 50273), (Struct.pack_uint 1 1); reflexivity).
    exfalso. apply Hr.
    apply pack_uint_inv in E1 as [R1 _], E2 as [R2 _], E3 as [R3 _], E4 as [R4 _].
    unfold Struct.in_range. cbn in R1, R2, R3, R4. lia.
Qed.

Lemma encode_fails_iff_out_of_range_witness :
  Struct.encode DATA 1 7 3 hi =
    Some ["196"; "097"; "001"; "002"; "000"; "000"; "000"; "001"; "000"; "000"; "000";
          "007"; "000"; "000"; "000"; "000"; "000"; "000"; "000"; "003"; "h"; "i"]%byte /\
  Struct.encode DATA 1 7 (2 ^ 64) hi = None.
Proof.
  split.
  - destruct (encode_fails_iff_out_of_range DATA 1 7 3 hi) as [_ H].
    rewrite H; [reflexivity | vm_compute; intuition discriminate].
  - destruct (encode_fails_iff_out_of_range DATA 1 7 (2 ^ 64) hi) as [[_ H] _].
    apply H. vm_compute. intuition congruence.
Defined.

(** ** Datagrams that are too short *)

Lemma slice_length (i j : nat) (m : bytes) :
  length (slice i j m) = Nat.min (j - i) (length m - i).
Proof. unfold slice. now rewrite length_take, length_drop. Qed.

Lemma slice_take (i j n : nat) (m : bytes) :
  (j <= n)%nat -> slice i j (firstn n m) = slice i j m.
Proof.
  intros H. unfold slice. rewrite skipn_firstn_comm, firstn_firstn.
  f_equal. lia.
Qed.

Lemma unpack_Some_length (buf : bytes) (h : Struct.header) :
  Struct.unpack buf = Some h -> length buf = 20%nat.
Proof.
  unfold Struct.unpack. destruct (Nat.eqb_spec (length buf) 20); [auto | discriminate].
Qed.

(** The three fields that [datagram_received] reads by itself are the ones
    [handle_message] unpacks later from the same datagram. *)
Lemma unpack_header_fields (data : bytes) (h : Struct.header) :
  Struct.unpack (slice_to 20 data) = Some h ->
  Struct.unpack_uint 4 (slice 8 12 data) = Some (Struct.session_id h) /\
  Struct.unpack_uint 4 (slice 4 8 data) = Some (Struct.sequence_number h) /\
  Struct.unpack_uint 1 (slice 3 4 data) = Some (Struct.command h).
Proof.
  intros Hu. pose proof (unpack_Some_length _ _ Hu) as Hlen.
  unfold slice_to in Hlen. rewrite length_take in Hlen.
  unfold Struct.unpack in Hu. unfold slice_to in Hu.
  destruct (Nat.eqb (length (take 20 data)) 20); [|discriminate].
  apply (inj Some) in Hu. subst h.
  cbn [Struct.session_id Struct.sequence_number Struct.command].
  rewrite !slice_take by lia. unfold Struct.unpack_uint. rewrite !slice_length.
  replace (Nat.min (12 - 8) (length data - 8)) with 4%nat by lia.
  replace (Nat.min (8 - 4) (length data - 4)) with 4%nat by lia.
  replace (Nat.min (4 - 3) (length data - 3)) with 1%nat by lia.
  auto.
Qed.

Lemma A_datagram_received_short (s : A.server) (data : bytes) (addr : address) :
  (length data < 12)%nat ->
  A.datagram_received data addr s = (A.print_line A.StructErrorLine s, Ret tt).
Proof.
  intros Hlen. unfold A.datagram_received, try_except, bind, lift, A.print, modify.
  unfold Struct.unpack_uint at 1. rewrite slice_length.
  destruct (Nat.eqb_spec (Nat.min (12 - 8) (length data - 8)) 4) as [E|_]; [lia|].
  reflexivity.
Qed.

Lemma B_handle_client_short (t : B.server) (message : bytes) (addr : address) :
  (length message < 20)%nat ->
  B.handle_client message addr t = (B.print_line B.Malformed t, Ret tt).
Proof.
  intros Hlen. unfold B.handle_client.
  destruct (Struct.unpack (slice_to 20 message)) as [h|] eqn:Hu; [|reflexivity].
  apply unpack_Some_length in Hu. unfold slice_to in Hu. rewrite length_take in Hu. lia.
Qed.

(** X3: a datagram too short to hold the fields a server reads first is
    dropped with one log line and nothing else: under 12 bytes in the A server
    ([struct.error] caught in [datagram_received]), under 20 bytes in the B
    server. No session is created or touched, no task is queued, nothing is
    sent and the clock does not move. *)
Theorem short_datagrams_are_dropped :
  (forall (s : A.server) (data : bytes) (addr : address),
     (length data < 12)%nat ->
     A.step (A.Datagram data addr) s = A.print_line A.StructErrorLine s) /\
  (forall (t : B.server) (message : bytes) (addr : address),
     (length message < 20)%nat ->
     B.step (B.Datagram message addr) t = B.print_line B.Malformed t).
Proof.
  split.
  - intros s data addr H. unfold A.step, exec.
    now rewrite (A_datagram_received_short s data addr H).
  - intros t message addr H. unfold B.step, exec.
    now rewrite (B_handle_client_short t message addr H).
Qed.

Lemma short_datagrams_are_dropped_witness :
  A.step (A.Datagram hi peer1) A_established = A.print_line A.StructErrorLine A_established /\
  B.step (B.Datagram (firstn 19 (datagram MAGIC 1 DATA 2 7 0 [])) peer1) B_established
    = B.print_line B.Malformed B_established.
Proof.
  destruct short_datagrams_are_dropped as [HA HB]. split.
  - apply HA. vm_compute. lia.
  - apply HB. vm_compute. lia.
Defined.

(** ** The handshake of the A server *)

Lemma A_datagram_received_new_eq (s : A.server) (data : bytes) (addr : address)
    (sid i : Z) :
  Struct.unpack_uint 4 (slice 8 12 data) = Some sid ->
  Struct.unpack_uint 4 (slice 4 8 data) = Some i ->
  Struct.unpack_uint 1 (slice 3 4 data) = Some HELLO ->
  A.sessions s !! sid = None ->
  A.datagram_received data addr s =
    (A.set_tasks (fun q => q ++ [(A.next_id s, data)])
       (A.set_client_addresses (insert sid addr)
          (A.set_sessions (insert sid (A.next_id s))
             (A.set_objs (insert (A.next_id s) (A.new_session addr sid i))
                (A.bump_id s)))), Ret tt).
Proof.
  intros Hsid Hi Hc Hnone.
  unfold A.datagram_received, try_except, bind, lift, get, ret, A.fresh, A.create_task,
    modify.
  rewrite Hsid, Hi, Hc. cbn [fst snd]. rewrite Hnone. reflexivity.
Qed.

Lemma A_handle_message_hello_eq (s : A.server) (r : nat) (o : A.ServerSession)
    (data : bytes) (h : Struct.header) (hd : bytes) :
  A.objs s !! r = Some o ->
  A.state o = A.WAIT_FOR_HELLO ->
  A.idle_timer o = None ->
  Struct.unpack (slice_to 20 data) = Some h ->
  Struct.magic h = MAGIC ->
  Struct.version h = 1 ->
  Struct.session_id h = A.session_id o ->
  Struct.command h = HELLO ->
  Struct.pack (Struct.Header MAGIC 1 HELLO (Struct.sequence_number h) (A.session_id o)
                             (A.logical_clock s + 1)) = Some hd ->
  A.handle_message r data s =
    (A.set_objs (alter (A.with_idle_timer (Some (A.next_id s))) r)
       (A.set_timers (insert (A.next_id s) r)
          (A.bump_id
             (A.set_objs (alter (A.with_state A.RECEIVE) r)
                (A.sendto hd (A.client_address o)
                   (A.set_logical_clock (A.logical_clock s + 1)
                      (A.print_line (A.ReceivedHello (A.client_address o) (A.session_id o))
                         s)))))), Ret tt).
Proof.
  destruct o as [a sid N st tm to]. cbn [A.state A.idle_timer A.session_id A.client_address].
  intros Ho -> -> Hu Hm Hv Hsid Hc Hp.
  unfold A.handle_message, A.self_, lift, bind, ret.
  rewrite Hu, Ho, (valid_header_test h Hm Hv), Hsid, Hc, !Z.eqb_refl.
  cbn [negb A.session_id].
  a_run Ho. rewrite Hp. a_run Ho. reflexivity.
Qed.

(** X4: the handshake of the A server, end to end. A well-formed [HELLO]
    for a session id that is not in the table, delivered and then handled,
    leaves a session bound to the sender, in [RECEIVE], expecting the
    sender's sequence number plus one, with its idle timer armed, and the
    only datagram sent is a [HELLO] that echoes the sequence number. *)
Theorem A_handshake (s : A.server) (data : bytes) (addr : address) (h : Struct.header) :
  Struct.unpack (slice_to 20 data) = Some h ->
  Struct.magic h = MAGIC ->
  Struct.version h = 1 ->
  Struct.command h = HELLO ->
  A.sessions s !! Struct.session_id h = None ->
  A.tasks s = [] ->
  0 <= A.logical_clock s ->
  A.logical_clock s + 1 < 2 ^ 64 ->
  let s' := A.run [A.Datagram data addr; A.RunTask] s in
  let r := A.next_id s in
  exists m,
    Struct.encode HELLO (Struct.sequence_number h) (Struct.session_id h)
                  (A.logical_clock s + 1) [] = Some m /\
    A.sent s' = A.sent s ++ [(m, addr)] /\
    A.sessions s' !! Struct.session_id h = Some r /\
    A.client_addresses s' !! Struct.session_id h = Some addr /\
    A.objs s' !! r = Some (A.Session addr (Struct.session_id h)
                             (Struct.sequence_number h + 1) A.RECEIVE (Some (S r)) 20) /\
    A.timers s' !! S r = Some r /\
    A.tasks s' = [].
Proof.
  intros Hu Hm Hv Hc Hnone Htasks Hclk Hmax. cbv zeta.
  destruct (unpack_header_fields data h Hu) as (Fsid & Fseq & Fcmd). rewrite Hc in Fcmd.
  pose proof (unpack_range _ _ Hu) as (_ & _ & (_ & Rseq & Rsid & _)).
  destruct (pack_in_range HELLO (Struct.sequence_number h) (Struct.session_id h)
              (A.logical_clock s + 1)) as [hd Hhd];
    [unfold Struct.in_range, HELLO; lia|].
  exists hd. split; [now apply encode_header|].
  set (s1 := A.set_tasks (fun _ => [])
               (A.set_tasks (fun q => q ++ [(A.next_id s, data)])
                  (A.set_client_addresses (insert (Struct.session_id h) addr)
                     (A.set_sessions (insert (Struct.session_id h) (A.next_id s))
                        (A.set_objs (insert (A.next_id s)
                                       (A.new_session addr (Struct.session_id h)
                                          (Struct.sequence_number h)))
                           (A.bump_id s)))))).
  assert (Hrun : A.run [A.Datagram data addr; A.RunTask] s
                 = fst (A.handle_message (A.next_id s) data s1)).
  { unfold A.run, fold_left, A.step, exec.
    rewrite (A_datagram_received_new_eq s data addr _ _ Fsid Fseq Fcmd Hnone). cbn [fst].
    cbn [A.tasks A.set_tasks A.set_client_addresses A.set_sessions A.set_objs A.bump_id].
    rewrite Htasks. reflexivity. }
  rewrite Hrun.
  erewrite (A_handle_message_hello_eq s1 (A.next_id s)
              (A.new_session addr (Struct.session_id h) (Struct.sequence_number h))
              data h hd);
    try reflexivity; try assumption.
  - subst s1. a_cbn. rewrite !lookup_alter_eq, !lookup_insert_eq.
    repeat split; reflexivity.
  - subst s1. a_cbn. apply lookup_insert_eq.
Qed.

Lemma A_handshake_witness :
  A.state <$> A.objs (A.run [A.Datagram (datagram MAGIC 1 HELLO 0 9 0 []) peer2; A.RunTask]
                            A_established) !! 2%nat = Some A.RECEIVE.
Proof.
  unshelve epose proof
    (A_handshake A_established (datagram MAGIC 1 HELLO 0 9 0 []) peer2
       (Struct.Header MAGIC 1 HELLO 0 9 0) _ _ _ _ _ _ _ _) as H; [concrete .. |].
  destruct H as (m & _ & _ & _ & _ & H & _).
  change (A.next_id A_established) with 2%nat in H. now rewrite H.
Defined.

(** X5: a [HELLO] that arrives cut short, with at least the 12 bytes
    [datagram_received] reads but fewer than the 20 of a header, still
    creates a session and binds the id to the sender; its [handle_message]
    then ends in [struct.error], so the session stays in [WAIT_FOR_HELLO]
    with no idle timer: these two steps send no reply and start no timer. *)
Theorem A_truncated_hello_leaves_session (s : A.server) (data : bytes) (addr : address)
    (sid i : Z) :
  (length data < 20)%nat ->
  Struct.unpack_uint 4 (slice 8 12 data) = Some sid ->
  Struct.unpack_uint 4 (slice 4 8 data) = Some i ->
  Struct.unpack_uint 1 (slice 3 4 data) = Some HELLO ->
  A.sessions s !! sid = None ->
  A.tasks s = [] ->
  let s' := A.run [A.Datagram data addr; A.RunTask] s in
  A.sessions s' !! sid = Some (A.next_id s) /\
  A.client_addresses s' !! sid = Some addr /\
  A.objs s' !! A.next_id s = Some (A.Session addr sid (i + 1) A.WAIT_FOR_HELLO None 20) /\
  A.timers s' = A.timers s /\
  A.sent s' = A.sent s /\
  A.tasks s' = [] /\
  A.logical_clock s' = A.logical_clock s.
Proof.
  intros Hlen Hsid Hi Hc Hnone Htasks. cbv zeta.
  assert (Hu : Struct.unpack (slice_to 20 data) = None).
  { destruct (Struct.unpack (slice_to 20 data)) as [h|] eqn:Hu; [|reflexivity].
    apply unpack_Some_length in Hu. unfold slice_to in Hu. rewrite length_take in Hu. lia. }
  assert (Hrun : A.run [A.Datagram data addr; A.RunTask] s
                 = A.set_tasks (fun _ => [])
                     (A.set_tasks (fun q => q ++ [(A.next_id s, data)])
                        (A.set_client_addresses (insert sid addr)
                           (A.set_sessions (insert sid (A.next_id s))
                              (A.set_objs (insert (A.next_id s) (A.new_session addr sid i))
                                 (A.bump_id s)))))).
  { unfold A.run, fold_left, A.step, exec.
    rewrite (A_datagram_received_new_eq s data addr _ _ Hsid Hi Hc Hnone). cbn [fst].
    cbn [A.tasks A.set_tasks A.set_client_addresses A.set_sessions A.set_objs A.bump_id].
    rewrite Htasks. cbn [app].
    unfold A.handle_message, lift, bind. rewrite Hu. reflexivity. }
  rewrite Hrun. a_cbn. rewrite !lookup_insert_eq. repeat split; reflexivity.
Qed.

Lemma A_truncated_hello_leaves_session_witness :
  A.state <$> A.objs A_awaiting !! 0%nat = Some A.WAIT_FOR_HELLO /\
  A.timers A_awaiting = ∅.
Proof.
  unshelve epose proof
    (A_truncated_hello_leaves_session A.init (firstn 16 (datagram MAGIC 1 HELLO 0 7 0 []))
       peer1 7 0 _ _ _ _ _ _) as H; [vm_compute; lia | concrete .. |].
  destruct H as (_ & _ & H1 & H2 & _). split.
  - change (A.objs A_awaiting !! 0%nat) with
      (A.objs (A.run [A.Datagram (firstn 16 (datagram MAGIC 1 HELLO 0 7 0 [])) peer1;
                      A.RunTask] A.init) !! A.next_id A.init).
    now rewrite H1.
  - exact H2.
Defined.

(** ** [GOODBYE] and a second [HELLO] *)

Lemma A_handle_message_goodbye (s : A.server) (r : nat) (o : A.ServerSession)
    (data : bytes) (h : Struct.header) :
  A.objs s !! r = Some o ->
  Struct.unpack (slice_to 20 data) = Some h ->
  Struct.magic h = MAGIC ->
  Struct.version h = 1 ->
  Struct.session_id h = A.session_id o ->
  Struct.command h = GOODBYE ->
  A.handle_message r data s =
    match A.state o with
    | A.RECEIVE =>
        A.goodbye_and_terminate r (A.print_line (A.ReceivedGoodbye (A.client_address o)) s)
    | _ => (s, Ret tt)
    end.
Proof.
  intros Ho Hu Hm Hv Hsid Hc.
  unfold A.handle_message, A.handle_goodbye, A.self_, A.print, lift, bind, ret, modify.
  rewrite Hu, Ho, (valid_header_test h Hm Hv), Hsid, Hc, !Z.eqb_refl. cbn [negb].
  change (GOODBYE =? HELLO) with false. change (GOODBYE =? DATA) with false.
  cbv beta iota. rewrite Ho. destruct (A.state o); reflexivity.
Qed.

(** X6: a [GOODBYE] handed to an A-server session in [RECEIVE] is answered
    with a [GOODBYE] (sequence number 0, the clock after one step), the
    session becomes [DONE] and leaves the table, and its idle timer is
    cancelled while its address binding stays; a session that is already
    [DONE] ignores a [GOODBYE] altogether. *)
Theorem A_goodbye_closes_session (s : A.server) (r : nat) (o : A.ServerSession)
    (data : bytes) (h : Struct.header) :
  A.objs s !! r = Some o ->
  Struct.unpack (slice_to 20 data) = Some h ->
  Struct.magic h = MAGIC ->
  Struct.version h = 1 ->
  Struct.session_id h = A.session_id o ->
  Struct.command h = GOODBYE ->
  0 <= A.logical_clock s ->
  A.logical_clock s + 1 < 2 ^ 64 ->
  let s' := exec (A.handle_message r data) s in
  (A.state o = A.RECEIVE ->
   exists m,
     Struct.encode GOODBYE 0 (A.session_id o) (A.logical_clock s + 1) [] = Some m /\
     A.sent s' = A.sent s ++ [(m, A.client_address o)] /\
     A.state <$> A.objs s' !! r = Some A.DONE /\
     A.idle_timer <$> A.objs s' !! r = Some None /\
     A.sessions s' = delete (A.session_id o) (A.sessions s) /\
     A.client_addresses s' = A.client_addresses s /\
     (forall t, A.idle_timer o = Some t -> A.timers s' !! t = None)) /\
  (A.state o = A.DONE -> s' = s).
Proof.
  intros Ho Hu Hm Hv Hsid Hc Hclk Hmax. cbv zeta. unfold exec.
  rewrite (A_handle_message_goodbye s r o data h Ho Hu Hm Hv Hsid Hc).
  pose proof (unpack_range _ _ Hu) as (_ & _ & (_ & _ & Rsid & _)). rewrite Hsid in Rsid.
  split.
  - intros ->.
    destruct (A_goodbye_and_terminate_facts
                (A.print_line (A.ReceivedGoodbye (A.client_address o)) s) r o Ho Rsid Hclk Hmax)
      as (m & Hmsg & Hsent & Hobj & Hses & Hca & _ & _ & _ & Htm).
    unfold exec in Hsent, Hobj, Hses, Hca, Htm.
    exists m. rewrite Hobj.
    split; [exact Hmsg|]. split; [exact Hsent|]. split; [reflexivity|].
    split; [reflexivity|]. split; [exact Hses|]. split; [exact Hca|].
    intros t Ht. rewrite Htm, Ht. apply lookup_delete_eq.
  - intros ->. reflexivity.
Qed.

Lemma A_goodbye_closes_session_witness :
  A.sessions (exec (A.handle_message 0 (datagram MAGIC 1 GOODBYE 1 7 0 [])) A_established)
    = delete 7 (A.sessions A_established).
Proof.
  unshelve epose proof
    (A_goodbye_closes_session A_established 0%nat
       (A.Session peer1 7 1 A.RECEIVE (Some 1%nat) 20)
       (datagram MAGIC 1 GOODBYE 1 7 0 []) (Struct.Header MAGIC 1 GOODBYE 1 7 0)
       _ _ _ _ _ _ _ _) as H; [concrete .. |].
  destruct H as (H & _). destruct (H eq_refl) as (m & _ & _ & _ & _ & Hs & _). exact Hs.
Defined.

Lemma A_handle_message_second_hello (s : A.server) (r : nat) (o : A.ServerSession)
    (data : bytes) (h : Struct.header) :
  A.objs s !! r = Some o ->
  A.state o <> A.WAIT_FOR_HELLO ->
  Struct.unpack (slice_to 20 data) = Some h ->
  Struct.magic h = MAGIC ->
  Struct.version h = 1 ->
  Struct.session_id h = A.session_id o ->
  Struct.command h = HELLO ->
  A.handle_message r data s =
    A.goodbye_and_terminate r (A.print_line (A.HelloInState (A.state o)) s).
Proof.
  intros Ho Hst Hu Hm Hv Hsid Hc.
  unfold A.handle_message, A.handle_hello, A.self_, A.print, lift, bind, ret, modify.
  rewrite Hu, Ho, (valid_header_test h Hm Hv), Hsid, Hc, !Z.eqb_refl. cbn [negb].
  cbv beta iota. rewrite Ho. destruct (A.state o); [congruence | reflexivity | reflexivity].
Qed.

(** ** [GOODBYE] in the B server, and the timer it leaves behind *)

Lemma B_rearmed_lookup (t : B.server) (q : nat) (p : B.ServerSession) :
  B.objs t !! q = Some p ->
  B.objs (B_rearmed q p t) !! q = Some (B.with_timer (Some (B.next_id t)) p).
Proof.
  intros Ho. unfold B_rearmed. destruct p as [a sid N act [tm|]]; b_cbn;
    rewrite lookup_alter_eq; b_cbn; rewrite Ho; reflexivity.
Qed.

Lemma B_rearmed_fields (t : B.server) (q : nat) (p : B.ServerSession) :
  B.logical_clock (B_rearmed q p t) = B.logical_clock t /\
  B.sent (B_rearmed q p t) = B.sent t /\
  B.sessions (B_rearmed q p t) = B.sessions t /\
  B.stdout (B_rearmed q p t) = B.stdout t /\
  B.next_id (B_rearmed q p t) = S (B.next_id t) /\
  B.timers (B_rearmed q p t) !! B.next_id t = Some q.
Proof.
  unfold B_rearmed. destruct (B.timer p); b_cbn; rewrite lookup_insert_eq;
    repeat split; reflexivity.
Qed.

(** [send_goodbye], then [self.active = False]: the common end of
    [handle_goodbye] and [issue_timeout]. *)
Lemma B_goodbye_and_deactivate_eq (t : B.server) (q : nat) (p : B.ServerSession)
    (l : B.line) (hd : bytes) :
  B.objs t !! q = Some p ->
  Struct.pack (Struct.Header MAGIC 1 GOODBYE (B.expected_sequence p) (B.session_id p)
                             (B.logical_clock t + 1)) = Some hd ->
  bind (B.print l)
       (fun _ => bind (B.send_goodbye q) (fun _ => B.update_self q (B.with_active false))) t
  = (B.set_objs (alter (B.with_active false) q)
       (B.sendto hd (B.client_address p)
          (B.set_logical_clock (B.logical_clock t + 1) (B.print_line l t))), Ret tt).
Proof.
  intros Ho Hp. b_run Ho. rewrite Hp. b_cbn. now rewrite app_nil_r.
Qed.

Lemma B_process_message_goodbye (t : B.server) (q : nat) (p : B.ServerSession)
    (message : bytes) (h : Struct.header) (hd : bytes) :
  B.objs t !! q = Some p ->
  Struct.unpack (slice_to 20 message) = Some h ->
  Struct.magic h = MAGIC ->
  Struct.version h = 1 ->
  Struct.command h = GOODBYE ->
  Struct.pack (Struct.Header MAGIC 1 GOODBYE (B.expected_sequence p) (B.session_id p)
                             (B.logical_clock t + 1)) = Some hd ->
  B.process_message q message t =
    (B.set_objs (alter (B.with_active false) q)
       (B.sendto hd (B.client_address p)
          (B.set_logical_clock (B.logical_clock t + 1)
             (B.print_line (B.ReceivedGoodbye (B.session_id p)) (B_rearmed q p t)))),
     Ret tt).
Proof.
  intros Ho Hu Hm Hv Hc Hp. unfold B.process_message.
  rewrite bind_assoc, (bind_ret_eq _ _ _ _ _ (B_rearm_eq t q p Ho)).
  pose proof (B_rearmed_lookup t q p Ho) as Ho'.
  destruct (B_rearmed_fields t q p) as (Hclk & _).
  unfold try_except, bind at 1, lift. rewrite Hu. unfold ret at 1.
  unfold bind at 1, B.self_ at 1. rewrite Ho'.
  rewrite (valid_header_test h Hm Hv), Hc.
  change (GOODBYE =? HELLO) with false. change (GOODBYE =? DATA) with false.
  change (GOODBYE =? GOODBYE) with true. cbv iota.
  unfold B.handle_goodbye, bind at 1, B.self_ at 1. rewrite Ho'.
  cbn [B.session_id B.with_timer].
  erewrite (B_goodbye_and_deactivate_eq (B_rearmed q p t) q _ _ hd); [| exact Ho' |].
  - cbn [B.client_address B.with_timer]. rewrite Hclk. reflexivity.
  - cbn [B.expected_sequence B.session_id B.with_timer]. rewrite Hclk. exact Hp.
Qed.

(** X8: a [GOODBYE] for a B-server session is answered with a [GOODBYE]
    that carries the session's expected sequence number; the session becomes
    inactive and [handle_client] deletes it from the table. Its timer, which
    [process_message] had just re-armed, is not cancelled: when it fires,
    the deleted session sends a second [GOODBYE] to the peer. *)
Theorem B_goodbye_leaves_timer_armed (t : B.server) (q : nat) (p : B.ServerSession)
    (message : bytes) (h : Struct.header) :
  B.objs t !! q = Some p ->
  Struct.unpack (slice_to 20 message) = Some h ->
  Struct.magic h = MAGIC ->
  Struct.version h = 1 ->
  Struct.command h = GOODBYE ->
  0 <= B.session_id p < 2 ^ 32 ->
  0 <= B.expected_sequence p < 2 ^ 32 ->
  0 <= B.logical_clock t ->
  B.logical_clock t + 2 < 2 ^ 64 ->
  let t' := exec (B.process_and_reap q (B.session_id p) message) t in
  let t'' := B.step (B.TimerFires (B.next_id t)) t' in
  exists m m',
    Struct.encode GOODBYE (B.expected_sequence p) (B.session_id p)
                  (B.logical_clock t + 1) [] = Some m /\
    B.sent t' = B.sent t ++ [(m, B.client_address p)] /\
    B.active <$> B.objs t' !! q = Some false /\
    B.sessions t' = delete (B.session_id p) (B.sessions t) /\
    B.timers t' !! B.next_id t = Some q /\
    Struct.encode GOODBYE (B.expected_sequence p) (B.session_id p)
                  (B.logical_clock t + 2) [] = Some m' /\
    B.sent t'' = B.sent t' ++ [(m', B.client_address p)].
Proof.
  intros Ho Hu Hm Hv Hc Rsid Rseq Hclk Hmax. cbv zeta.
  destruct (pack_in_range GOODBYE (B.expected_sequence p) (B.session_id p)
              (B.logical_clock t + 1)) as [hd Hhd];
    [unfold Struct.in_range, GOODBYE; lia|].
  destruct (pack_in_range GOODBYE (B.expected_sequence p) (B.session_id p)
              (B.logical_clock t + 2)) as [hd' Hhd'];
    [unfold Struct.in_range, GOODBYE; lia|].
  exists hd, hd'.
  pose proof (B_rearmed_lookup t q p Ho) as Ho'.
  destruct (B_rearmed_fields t q p) as (Fclk & Fsent & Fses & _ & _ & Ftm).
  set (t1 := B.set_objs (alter (B.with_active false) q)
               (B.sendto hd (B.client_address p)
                  (B.set_logical_clock (B.logical_clock t + 1)
                     (B.print_line (B.ReceivedGoodbye (B.session_id p))
                        (B_rearmed q p t))))).
  assert (Ho1 : B.objs t1 !! q
                = Some (B.with_active false (B.with_timer (Some (B.next_id t)) p))).
  { subst t1. b_cbn. now rewrite lookup_alter_eq, Ho'. }
  set (t2 := match B.sessions t !! B.session_id p with
             | Some _ => B.set_sessions (delete (B.session_id p)) t1
             | None => t1
             end).
  assert (Hreap : exec (B.process_and_reap q (B.session_id p) message) t = t2).
  { unfold exec, B.process_and_reap.
    rewrite (bind_ret_eq _ _ _ _ _
               (B_process_message_goodbye t q p message h hd Ho Hu Hm Hv Hc Hhd)).
    fold t1. unfold bind, B.self_, get, modify, raise. rewrite Ho1.
    cbn [B.active B.with_active]. subst t2 t1. b_cbn. rewrite Fses.
    destruct (B.sessions t !! B.session_id p); reflexivity. }
  rewrite Hreap.
  assert (F2 : B.objs t2 = B.objs t1 /\ B.sent t2 = B.sent t1 /\
               B.logical_clock t2 = B.logical_clock t1 /\ B.timers t2 = B.timers t1 /\
               B.sessions t2 = delete (B.session_id p) (B.sessions t)).
  { subst t2. destruct (B.sessions t !! B.session_id p) eqn:E; b_cbn.
    - subst t1. b_cbn. now rewrite Fses.
    - subst t1. b_cbn. rewrite Fses. now rewrite delete_id. }
  destruct F2 as (F2o & F2s & F2c & F2t & F2ses).
  split; [now apply encode_header|].
  split; [rewrite F2s; subst t1; b_cbn; now rewrite Fsent|].
  split; [rewrite F2o, Ho1; reflexivity|].
  split; [exact F2ses|].
  assert (Htm : B.timers t2 !! B.next_id t = Some q)
    by (rewrite F2t; subst t1; b_cbn; exact Ftm).
  split; [exact Htm|]. split; [now apply encode_header|].
  unfold B.step. rewrite Htm. unfold exec, B.issue_timeout, bind at 1, B.self_ at 1.
  cbn [B.objs B.set_timers]. rewrite F2o, Ho1.
  cbn [B.session_id B.with_active B.with_timer].
  erewrite (B_goodbye_and_deactivate_eq (B.set_timers (delete (B.next_id t)) t2) q
              (B.with_active false (B.with_timer (Some (B.next_id t)) p)) _ hd').
  - b_cbn. rewrite F2s. reflexivity.
  - b_cbn. rewrite F2o. exact Ho1.
  - b_cbn. rewrite F2c. subst t1. b_cbn.
    replace (B.logical_clock t + 1 + 1) with (B.logical_clock t + 2) by lia. exact Hhd'.
Qed.

Lemma B_goodbye_leaves_timer_armed_witness :
  exists m m',
    B.sent (B.step (B.TimerFires 5)
              (exec (B.process_and_reap 0 7 (datagram MAGIC 1 GOODBYE 2 7 0 []))
                    B_established))
    = B.sent B_established ++ [(m, peer1); (m', peer1)].
Proof.
  unshelve epose proof
    (B_goodbye_leaves_timer_armed B_established 0%nat (B.Session peer1 7 2 true (Some 4%nat))
       (datagram MAGIC 1 GOODBYE 2 7 0 []) (Struct.Header MAGIC 1 GOODBYE 2 7 0)
       _ _ _ _ _ _ _ _ _) as H; [concrete .. |].
  destruct H as (m & m' & _ & H1 & _ & _ & _ & _ & H2).
  exists m, m'. cbn [B.session_id] in H1, H2.
  change (B.next_id B_established) with 5%nat in H2.
  rewrite H2, H1, <- app_assoc. reflexivity.
Defined.

(** ** [DATA] at the edges *)

Lemma B_handle_data_gap_eq (t : B.server) (q : nat) (p : B.ServerSession)
    (seq v : Z) (payload hd : bytes) :
  B.objs t !! q = Some p ->
  seq > B.expected_sequence p ->
  utf8_valid payload = true ->
  Struct.pack (Struct.Header MAGIC 1 ALIVE seq (B.session_id p) (B.logical_clock t + 1))
    = Some hd ->
  B.handle_data q seq (Some payload) v t =
    (B.sendto hd (B.client_address p)
       (B.set_logical_clock (B.logical_clock t + 1)
          (B.set_objs (alter (B.with_expected (seq + 1 + 1)) q)
             (B.print_line (B.ReceivedData (B.session_id p) payload)
                (B.set_objs (alter (B.with_expected (seq + 1)) q)
                   (B.print_line (B.LostPackets (B.session_id p) (B.expected_sequence p) seq)
                      (B.print_line (B.ClockValue v) (B.print_line B.Blank t))))))),
     Ret tt).
Proof.
  destruct p as [a sid N act tm]. cbn [B.expected_sequence B.session_id B.client_address].
  intros Ho Hgt Hu Hp. b_run Ho.
  destruct (Z.gtb_spec seq N) as [_|]; [|lia].
  b_run Ho. rewrite Hu. b_run Ho. rewrite Hp. b_cbn. now rewrite app_nil_r.
Qed.

Lemma B_handle_data_duplicate_eq (t : B.server) (q : nat) (p : B.ServerSession)
    (seq v : Z) (payload : option bytes) :
  B.objs t !! q = Some p ->
  seq < B.expected_sequence p ->
  B.handle_data q seq payload v t =
    (B.print_line (B.DuplicatePacket (B.session_id p))
       (B.print_line (B.ClockValue v) (B.print_line B.Blank t)), Ret tt).
Proof.
  intros Ho Hlt. b_run Ho.
  destruct (Z.gtb_spec seq (B.expected_sequence p)) as [|_]; [lia|].
  destruct (Z.ltb_spec seq (B.expected_sequence p)) as [_|]; [|lia].
  reflexivity.
Qed.

(** X9: in the B server a gap costs one more packet than was lost. A [DATA]
    whose sequence number [seq] is above the expected one is accepted and
    leaves the session expecting [seq + 2]; the next packet in order,
    [seq + 1], is then taken for a duplicate: it is not printed, not counted
    and not acknowledged. *)
Theorem B_gap_drops_next_packet (t : B.server) (q : nat) (p : B.ServerSession)
    (seq v v' : Z) (payload : bytes) (payload' : option bytes) :
  B.objs t !! q = Some p ->
  seq > B.expected_sequence p ->
  utf8_valid payload = true ->
  0 <= B.session_id p < 2 ^ 32 ->
  0 <= seq < 2 ^ 32 ->
  0 <= B.logical_clock t ->
  B.logical_clock t + 1 < 2 ^ 64 ->
  let t1 := exec (B.handle_data q seq (Some payload) v) t in
  let t2 := exec (B.handle_data q (seq + 1) payload' v') t1 in
  B.expected_sequence <$> B.objs t1 !! q = Some (seq + 2) /\
  emitted ALIVE (B.sent t1) (B.sent t2) = false /\
  B.sent t2 = B.sent t1 /\
  B.objs t2 = B.objs t1 /\
  B.stdout t2 = B.stdout t1
    ++ [B.Blank; B.ClockValue v'; B.DuplicatePacket (B.session_id p)].
Proof.
  intros Ho Hgt Hu Rsid Rseq Hclk Hmax. cbv zeta.
  destruct (pack_in_range ALIVE seq (B.session_id p) (B.logical_clock t + 1)) as [hd Hhd];
    [unfold Struct.in_range, ALIVE; lia|].
  pose proof (B_handle_data_gap_eq t q p seq v payload hd Ho Hgt Hu Hhd) as E1.
  apply (f_equal fst) in E1. cbn [fst] in E1. fold (exec (B.handle_data q seq (Some payload) v) t) in E1.
  set (t1 := exec (B.handle_data q seq (Some payload) v) t) in *.
  assert (Ho1 : B.objs t1 !! q
                = Some (B.with_expected (seq + 1 + 1) (B.with_expected (seq + 1) p))).
  { rewrite E1. b_cbn. now rewrite !lookup_alter_eq, Ho. }
  assert (E2 : exec (B.handle_data q (seq + 1) payload' v') t1 =
               B.print_line (B.DuplicatePacket (B.session_id p))
                 (B.print_line (B.ClockValue v') (B.print_line B.Blank t1))).
  { unfold exec.
    rewrite (B_handle_data_duplicate_eq t1 q _ (seq + 1) v' payload' Ho1)
      by (cbn [B.expected_sequence B.with_expected]; lia).
    reflexivity. }
  rewrite E2.
  cbn [B.sent B.objs B.stdout B.print_line].
  rewrite Ho1. cbn [fmap option_fmap option_map B.expected_sequence B.with_expected].
  unfold emitted. rewrite drop_all.
  repeat split; try reflexivity.
  - f_equal. lia.
  - now rewrite <- !app_assoc.
Qed.

Lemma B_gap_drops_next_packet_witness :
  B.sent (exec (B.handle_data 0 6 (Some hi) 0) (exec (B.handle_data 0 5 (Some hi) 0)
                                                   B_established))
    = B.sent (exec (B.handle_data 0 5 (Some hi) 0) B_established).
Proof.
  unshelve epose proof
    (B_gap_drops_next_packet B_established 0%nat (B.Session peer1 7 2 true (Some 4%nat))
       5 0 0 hi (Some hi) _ _ _ _ _ _ _) as H; [concrete .. |].
  destruct H as (_ & _ & H & _). exact H.
Defined.

(** X10: a [DATA] datagram of exactly 20 bytes has no payload, and the B
    server then fails on [payload.decode()]: when its sequence number is not
    below the expected one, [process_message] ends in [AttributeError],
    nothing is sent, and the session stays active; its expected sequence
    number is unchanged if the packet was in order and already moved to
    [seq + 1] if it was ahead. *)
Theorem B_data_without_payload_raises (t : B.server) (q : nat) (p : B.ServerSession)
    (message : bytes) (h : Struct.header) :
  B.objs t !! q = Some p ->
  Struct.unpack (slice_to 20 message) = Some h ->
  (length message <= 20)%nat ->
  Struct.magic h = MAGIC ->
  Struct.version h = 1 ->
  Struct.command h = DATA ->
  B.expected_sequence p <= Struct.sequence_number h ->
  let t' := exec (B.process_message q message) t in
  result (B.process_message q message) t = Raise AttributeError /\
  B.sent t' = B.sent t /\
  B.logical_clock t' = B.logical_clock t /\
  B.sessions t' = B.sessions t /\
  B.active <$> B.objs t' !! q = Some (B.active p) /\
  B.expected_sequence <$> B.objs t' !! q =
    Some (if Struct.sequence_number h >? B.expected_sequence p
          then Struct.sequence_number h + 1 else B.expected_sequence p).
Proof.
  intros Ho Hu Hlen Hm Hv Hc Hge. cbv zeta.
  pose proof (B_rearmed_lookup t q p Ho) as Ho'.
  destruct (B_rearmed_fields t q p) as (Fclk & Fsent & Fses & _).
  assert (Hpl : Nat.ltb 20 (length message) = false) by (apply Nat.ltb_ge; lia).
  set (N := B.expected_sequence p) in *. set (seq := Struct.sequence_number h) in *.
  set (t1 := B.print_line (B.ClockValue (Struct.logical_clock h))
               (B.print_line B.Blank (B_rearmed q p t))).
  assert (Heq : B.process_message q message t =
                (if seq >? N
                 then B.set_objs (alter (B.with_expected (seq + 1)) q)
                        (B.print_line (B.LostPackets (B.session_id p) N seq) t1)
                 else t1, Raise AttributeError)).
  { unfold B.process_message.
    rewrite bind_assoc, (bind_ret_eq _ _ _ _ _ (B_rearm_eq t q p Ho)).
    unfold try_except, bind at 1, lift. rewrite Hu. unfold ret at 1.
    unfold bind at 1, B.self_ at 1. rewrite Ho'.
    rewrite (valid_header_test h Hm Hv), Hc, Hpl.
    change (DATA =? HELLO) with false. change (DATA =? DATA) with true. cbv iota.
    fold seq. destruct p as [a sid N0 act tm]. subst N.
    cbn [B.expected_sequence B.session_id B.with_timer] in *.
    b_run Ho'. destruct (Z.gtb_spec seq N0) as [Hgt|Hle].
    - b_run Ho'. reflexivity.
    - destruct (Z.ltb_spec seq N0) as [|_]; [lia|]. b_run Ho'. reflexivity. }
  unfold result, exec. rewrite Heq. cbn [fst snd].
  split; [reflexivity|].
  destruct (seq >? N); subst t1; b_cbn; rewrite ?lookup_alter_eq, Ho', Fsent, Fclk, Fses;
    repeat split; reflexivity.
Qed.

Lemma B_data_without_payload_raises_witness :
  result (B.process_message 0 (datagram MAGIC 1 DATA 2 7 0 [])) B_established
    = Raise AttributeError.
Proof.
  unshelve epose proof
    (B_data_without_payload_raises B_established 0%nat
       (B.Session peer1 7 2 true (Some 4%nat))
       (datagram MAGIC 1 DATA 2 7 0 []) (Struct.Header MAGIC 1 DATA 2 7 0)
       _ _ _ _ _ _ _) as H;
    [concrete | concrete | vm_compute; lia | concrete .. |].
  destruct H as (H & _). exact H.
Defined.

(** X11: a [DATA] whose payload is not valid UTF-8 makes the A server's
    [handle_data] end in [UnicodeDecodeError] at the [print]: the clock has
    been merged, but no [ALIVE] is sent and the idle timer is not re-armed.
    When the packet was in order the session is left as it was; when it was
    ahead, the session already expects [seq + 1], so the packet counts as
    received although it was never acknowledged. *)
Theorem A_undecodable_payload (s : A.server) (r : nat) (o : A.ServerSession)
    (seq v : Z) (data : bytes) :
  A.objs s !! r = Some o ->
  A.state o = A.RECEIVE ->
  utf8_valid data = false ->
  A.expected_sequence_number o <= seq ->
  let s' := exec (A.handle_data r seq data v) s in
  result (A.handle_data r seq data v) s = Raise UnicodeDecodeError /\
  A.sent s' = A.sent s /\
  A.timers s' = A.timers s /\
  A.sessions s' = A.sessions s /\
  A.logical_clock s' = Z.max (A.logical_clock s) v + 1 /\
  A.objs s' !! r =
    Some (if seq >? A.expected_sequence_number o then A.with_expected (seq + 1) o else o).
Proof.
  destruct o as [a sid N st tm to].
  cbn [A.state A.expected_sequence_number]. intros Ho -> Hu Hge. cbv zeta.
  a_run Ho. rewrite merge_max.
  destruct (Z.eqb_spec seq N) as [->|Hne].
  - rewrite Hu. a_run Ho.
    destruct (Z.gtb_spec N N) as [|_]; [lia|]. repeat split; reflexivity.
  - destruct (Z.gtb_spec seq N) as [_|]; [|lia].
    rewrite A_print_lost. a_run Ho. rewrite Hu. a_run Ho. repeat split; reflexivity.
Qed.

Lemma A_undecodable_payload_witness :
  result (A.handle_data 0 1 ["255"%byte] 0) A_established = Raise UnicodeDecodeError /\
  A.sent (exec (A.handle_data 0 1 ["255"%byte] 0) A_established) = A.sent A_established.
Proof.
  unshelve epose proof
    (A_undecodable_payload A_established 0%nat
       (A.Session peer1 7 1 A.RECEIVE (Some 1%nat) 20) 1 0 ["255"%byte] _ _ _ _) as H;
    [concrete | concrete | concrete | vm_compute; discriminate |].
  destruct H as (H1 & H2 & _). split; [exact H1 | exact H2].
Defined.

(** ** What the clients do with a response *)

Lemma unpack_short (message : bytes) :
  (length message < 20)%nat -> Struct.unpack (slice_to 20 message) = None.
Proof.
  intros Hlen. destruct (Struct.unpack (slice_to 20 message)) as [h|] eqn:Hu; [|reflexivity].
  apply unpack_Some_length in Hu. unfold slice_to in Hu. rewrite length_take in Hu. lia.
Qed.

(** X12: the B client closes its transport on a response exactly when the
    header carries the right magic number and version, the client's own
    session id and the [GOODBYE] command; whatever the response is, the
    client sends nothing and keeps its sequence number, also when a payload
    that is not UTF-8 makes [handle_response] raise. *)
Theorem ClientB_closes_iff_own_goodbye (c : ClientB.AsyncUDPClient) (message : bytes)
    (h : Struct.header) :
  Struct.unpack (slice_to 20 message) = Some h ->
  let c' := exec (ClientB.handle_response message) c in
  ClientB.closed c' =
    ClientB.closed c ||
      ((Struct.magic h =? MAGIC) && (Struct.version h =? 1) &&
       (Struct.session_id h =? ClientB.session_id c) && (Struct.command h =? GOODBYE)) /\
  ClientB.sent c' = ClientB.sent c /\
  ClientB.sequence_number c' = ClientB.sequence_number c.
Proof.
  intros Hu. cbv zeta.
  unfold exec, ClientB.handle_response, bind, get, lift, ret, raise, modify,
    ClientB.print, ClientB.update_logical_clock.
  rewrite Hu. cbn [fst snd ClientB.session_id ClientB.set_logical_clock].
  destruct (Struct.magic h =? MAGIC); cbn [negb orb andb];
    [|rewrite orb_false_r; repeat split; reflexivity].
  destruct (Struct.version h =? 1); cbn [negb orb andb];
    [|rewrite orb_false_r; repeat split; reflexivity].
  destruct (Struct.session_id h =? ClientB.session_id c); cbn [negb orb andb];
    [|rewrite orb_false_r; repeat split; reflexivity].
  destruct (Z.eqb_spec (Struct.command h) ALIVE) as [E|_].
  - rewrite E. change (ALIVE =? GOODBYE) with false.
    rewrite orb_false_r; repeat split; reflexivity.
  - destruct (Struct.command h =? GOODBYE).
    + cbn. rewrite orb_true_r. repeat split; reflexivity.
    + rewrite orb_false_r. cbn [fst snd].
      destruct (if Nat.ltb 20 (length message) then slice_from 20 message else [])
        as [|b d]; [repeat split; reflexivity|].
      destruct (utf8_valid (b :: d)); repeat split; reflexivity.
Qed.

Lemma ClientB_closes_iff_own_goodbye_witness :
  ClientB.closed
    (exec (ClientB.handle_response (datagram MAGIC 1 GOODBYE 0 8 0 []))
       (ClientB.init peer1 7)) = false.
Proof.
  unshelve epose proof
    (ClientB_closes_iff_own_goodbye (ClientB.init peer1 7)
       (datagram MAGIC 1 GOODBYE 0 8 0 []) (Struct.Header MAGIC 1 GOODBYE 0 8 0) _) as H;
    [concrete |].
  destruct H as (H & _). exact H.
Defined.

(** X13: the A client checks nothing but the command. A response whose
    header unpacks and whose payload decodes cancels the idle timer, and it
    sets the shutdown event exactly when its command is [GOODBYE], whatever
    its magic number, version and session id are; the client answers
    nothing and keeps its sequence number. *)
Theorem ClientA_obeys_any_goodbye (c : ClientA.Client) (response : bytes)
    (h : Struct.header) :
  Struct.unpack (slice_to 20 response) = Some h ->
  utf8_valid (slice_from 20 response) = true ->
  let c' := exec (ClientA.receive_message response) c in
  result (ClientA.receive_message response) c = Ret tt /\
  ClientA.shutdown_event c' = ClientA.shutdown_event c || (Struct.command h =? GOODBYE) /\
  ClientA.idle_timer c' = None /\
  ClientA.sent c' = ClientA.sent c /\
  ClientA.sequence_number c' = ClientA.sequence_number c.
Proof.
  intros Hu Hv. cbv zeta.
  unfold exec, result, ClientA.receive_message, ClientA.decode_message, ClientA.cancel_timer,
    ClientA.print, ClientA.update_logical_clock, try_except, bind, get, lift, ret, raise,
    modify.
  rewrite Hu, Hv.
  destruct (ClientA.idle_timer c) eqn:Ht; cbn; destruct (Struct.command h =? GOODBYE);
    cbn; rewrite ?orb_true_r, ?orb_false_r, ?Ht; repeat split; reflexivity.
Qed.

Lemma ClientA_obeys_any_goodbye_witness :
  ClientA.shutdown_event
    (exec (ClientA.receive_message (datagram 1 9 GOODBYE 0 8 0 []))
       (ClientA.init peer1 7)) = true.
Proof.
  unshelve epose proof
    (ClientA_obeys_any_goodbye (ClientA.init peer1 7)
       (datagram 1 9 GOODBYE 0 8 0 []) (Struct.Header 1 9 GOODBYE 0 8 0) _ _) as H;
    [concrete | concrete |].
  destruct H as (_ & H & _). exact H.
Defined.

(** X14: a response shorter than a header. The A client catches the
    [struct.error] in [decode_message], which sets the shutdown event and
    returns nothing, so the unpacking of the pair in [receive_message] ends
    in [TypeError] with the clock not advanced. The B client does not catch
    it: [handle_response] ends in [struct.error] and leaves the client as it
    was. *)
Theorem short_responses (response : bytes) :
  (length response < 20)%nat ->
  (forall c : ClientA.Client,
     let c' := exec (ClientA.receive_message response) c in
     result (ClientA.receive_message response) c = Raise TypeError /\
     ClientA.shutdown_event c' = true /\
     ClientA.logical_clock c' = ClientA.logical_clock c /\
     ClientA.stdout c' = ClientA.stdout c ++ [ClientA.StructErrorLine] /\
     ClientA.sent c' = ClientA.sent c) /\
  (forall c : ClientB.AsyncUDPClient,
     ClientB.handle_response response c = (c, Raise StructError)).
Proof.
  intros Hlen. pose proof (unpack_short response Hlen) as Hu. split.
  - intros c. cbv zeta.
    unfold exec, result, ClientA.receive_message, ClientA.decode_message,
      ClientA.cancel_timer, ClientA.print, ClientA.update_logical_clock, try_except, bind,
      get, lift, ret, raise, modify.
    rewrite Hu. destruct (ClientA.idle_timer c); cbn; repeat split; reflexivity.
  - intros c. unfold ClientB.handle_response, bind, lift. now rewrite Hu.
Qed.

Lemma short_responses_witness :
  result (ClientA.receive_message hi) (ClientA.init peer1 7) = Raise TypeError /\
  ClientB.handle_response hi (ClientB.init peer1 7)
    = (ClientB.init peer1 7, Raise StructError).
Proof.
  unshelve epose proof (short_responses hi _) as H; [vm_compute; lia |].
  destruct H as (HA & HB). destruct (HA (ClientA.init peer1 7)) as (H1 & _).
  split; [exact H1 | exact (HB (ClientB.init peer1 7))].
Defined.

(** ** A clock beyond 64 bits *)

#[global] Instance A_silent_preorder : PreOrder A_silent.
Proof.
  split.
  - intros s. split; [lia | reflexivity].
  - intros s1 s2 s3 [H1 H2] [H3 H4]. split; [lia|].
    intros H. rewrite H4 by lia. now apply H2.
Qed.

Lemma pack_clock_overflow (magic version command seq sid clock : Z) :
  2 ^ 64 <= clock ->
  Struct.pack (Struct.Header magic version command seq sid clock) = None.
Proof.
  intros H. unfold Struct.pack.
  cbn [Struct.magic Struct.version Struct.command Struct.sequence_number Struct.session_id
       Struct.logical_clock].
  assert (E : Struct.pack_uint 8 clock = None)
    by (apply pack_uint_None_iff; change (256 ^ Z.of_nat 8) with (2 ^ 64); lia).
  rewrite E.
  destruct (Struct.pack_uint 2 magic), (Struct.pack_uint 1 version),
    (Struct.pack_uint 1 command), (Struct.pack_uint 4 seq), (Struct.pack_uint 4 sid);
    reflexivity.
Qed.

(** A state update that leaves the clock and the [sent] log alone. *)
Ltac silent_update :=
  apply preserves_modify; intros ?; split; [cbn; lia | intros _; reflexivity].

Lemma A_send_message_silent (r : nat) (c n : Z) (d : option bytes) :
  preserves A_silent (A.send_message r c n d).
Proof.
  intros s. unfold A.send_message, A.update_logical_clock, A.self_, bind, lift, ret, raise,
    modify.
  cbn [fst snd A.objs A.set_logical_clock].
  destruct (A.objs s !! r) as [o|]; cbn [fst snd]; [|split; [cbn; lia | reflexivity]].
  destruct (Struct.pack _) as [hd|] eqn:Hp; cbn [fst snd].
  - split; [cbn; lia|]. intros H. rewrite pack_clock_overflow in Hp by lia. discriminate.
  - split; [cbn; lia | reflexivity].
Qed.

Lemma A_self_silent (r : nat) : preserves A_silent (A.self_ r).
Proof. intros s. unfold A.self_. destruct (A.objs s !! r); reflexivity. Qed.

Lemma A_fresh_silent : preserves A_silent A.fresh.
Proof. intros s. split; [cbn; lia | reflexivity]. Qed.

Lemma A_update_logical_clock_silent (v : option Z) :
  preserves A_silent (A.update_logical_clock v).
Proof.
  intros s. unfold A.update_logical_clock. split; [|reflexivity]. cbn.
  destruct v as [v|]; [destruct (Z.gtb_spec v (A.logical_clock s))|]; lia.
Qed.

Lemma A_print_lost_silent (a : address) (l : list Z) :
  preserves A_silent
    (modify (fun s => fold_left (fun s i => A.print_line (A.LostPacket i a) s) l s)).
Proof.
  apply preserves_modify. intros s. rewrite A_print_lost. split; [cbn; lia | reflexivity].
Qed.

Create HintDb silent.

#[local] Hint Resolve A_send_message_silent A_self_silent A_fresh_silent
  A_update_logical_clock_silent A_print_lost_silent : silent.

Ltac silent :=
  repeat first [ solve [auto with silent] | preserves_step | silent_update ].

Lemma A_goodbye_and_terminate_silent (r : nat) :
  preserves A_silent (A.goodbye_and_terminate r).
Proof.
  unfold A.goodbye_and_terminate, A.terminate, A.cancel_timer, A.update_self, A.print.
  silent.
Qed.

Lemma A_session_timeout_silent (r : nat) : preserves A_silent (A.session_timeout r).
Proof.
  unfold A.session_timeout, A.print. pose proof (A_goodbye_and_terminate_silent r). silent.
Qed.

Lemma A_classify_silent (r : nat) (o : A.ServerSession) (n : Z) (d : bytes) :
  preserves A_silent (A.classify r o n d).
Proof.
  unfold A.classify, A.print_data, A.set_timer, A.cancel_timer, A.update_self, A.print.
  pose proof (A_goodbye_and_terminate_silent r). silent.
Qed.

Lemma A_handle_message_silent (r : nat) (m : bytes) :
  preserves A_silent (A.handle_message r m).
Proof.
  unfold A.handle_message, A.handle_hello, A.handle_data, A.handle_goodbye, A.set_timer,
    A.cancel_timer, A.update_self, A.print.
  pose proof (A_goodbye_and_terminate_silent r). pose proof (A_classify_silent r). silent.
Qed.

Lemma A_step_silent (ev : A.event) (s : A.server) : A_silent s (A.step ev s).
Proof.
  destruct ev as [data addr | | t]; unfold A.step.
  - destruct (A_datagram_received_effect data addr s) as (H1 & H2 & _).
    split; [lia | intros _; exact H2].
  - destruct (A.tasks s) as [|[r data] rest]; [reflexivity|].
    apply (A_handle_message_silent r data (A.set_tasks (fun _ => rest) s)).
  - destruct (A.timers s !! t) as [r|]; [|reflexivity].
    apply (A_session_timeout_silent r (A.set_timers (delete t) s)).
Qed.

Lemma A_run_silent (evs : list A.event) (s : A.server) : A_silent s (A.run evs s).
Proof.
  revert s. induction evs as [|ev evs IH]; intros s; [reflexivity|].
  etransitivity; [apply (A_step_silent ev) | apply IH].
Qed.

(** X15: one datagram can silence the A server for good. A valid [DATA]
    for a session in the [RECEIVE] state whose clock field is [2 ^ 64 - 2]
    or more is merged into the server's clock, after which every
    [send_message] fails in [struct.pack]: neither that message nor any
    later datagram, task or timeout, for this session or any other, makes
    the server send anything again. *)
Theorem A_clock_overflow_silences_server (s : A.server) (r : nat) (o : A.ServerSession)
    (message : bytes) (h : Struct.header) :
  A.objs s !! r = Some o ->
  A.state o = A.RECEIVE ->
  Struct.unpack (slice_to 20 message) = Some h ->
  Struct.magic h = MAGIC ->
  Struct.version h = 1 ->
  Struct.session_id h = A.session_id o ->
  Struct.command h = DATA ->
  2 ^ 64 - 2 <= Struct.logical_clock h ->
  let s' := exec (A.handle_message r message) s in
  2 ^ 64 - 1 <= A.logical_clock s' /\
  forall evs, A.sent (A.run evs s') = A.sent s.
Proof.
  intros Ho Hst Hu Hm Hv Hsid Hc Hbig. cbv zeta.
  set (s1 := A.set_logical_clock
               (Z.max (A.logical_clock s) (Struct.logical_clock h) + 1) s).
  assert (Heq : exec (A.handle_message r message) s =
                exec (A.classify r o (Struct.sequence_number h) (slice_from 20 message)) s1).
  { unfold exec, A.handle_message, A.handle_data, bind at 1, lift. rewrite Hu.
    unfold ret at 1, bind at 1, A.self_ at 1. rewrite Ho.
    rewrite (valid_header_test h Hm Hv), Hsid, Z.eqb_refl, Hc. cbn [negb].
    change (DATA =? HELLO) with false. change (DATA =? DATA) with true. cbv iota.
    unfold bind at 1, A.self_ at 1. rewrite Ho, Hst.
    unfold bind at 1, A.update_logical_clock. rewrite merge_max. reflexivity. }
  rewrite Heq.
  destruct (A_classify_silent r o (Struct.sequence_number h) (slice_from 20 message) s1)
    as [Hle Hsent].
  fold (exec (A.classify r o (Struct.sequence_number h) (slice_from 20 message)) s1)
    in Hle, Hsent.
  assert (Hs1 : 2 ^ 64 - 1 <= A.logical_clock s1) by (subst s1; cbn; lia).
  split; [lia|]. intros evs.
  destruct (A_run_silent evs
              (exec (A.classify r o (Struct.sequence_number h) (slice_from 20 message)) s1))
    as [_ Hrun].
  rewrite Hrun by lia. now rewrite Hsent.
Qed.

Lemma A_clock_overflow_silences_server_witness :
  A.sent (A.run [A.Datagram (datagram MAGIC 1 DATA 2 7 0 hi) peer1; A.RunTask;
                 A.Datagram (datagram MAGIC 1 HELLO 0 9 0 []) peer2; A.RunTask]
            (exec (A.handle_message 0 (datagram MAGIC 1 DATA 1 7 (2 ^ 64 - 1) hi))
               A_established))
    = A.sent A_established.
Proof.
  unshelve epose proof
    (A_clock_overflow_silences_server A_established 0%nat
       (A.Session peer1 7 1 A.RECEIVE (Some 1%nat) 20)
       (datagram MAGIC 1 DATA 1 7 (2 ^ 64 - 1) hi)
       (Struct.Header MAGIC 1 DATA 1 7 (2 ^ 64 - 1)) _ _ _ _ _ _ _ _) as H;
    [concrete | concrete | concrete | concrete | concrete | concrete | concrete
    | vm_compute; discriminate |].
  destruct H as (_ & H). apply H.
Defined.

#[global] Instance B_muted_preorder : PreOrder B_muted.
Proof.
  split.
  - intros t. split; [lia|]. intros _. exists []. now rewrite app_nil_r.
  - intros t1 t2 t3 [H1 H2] [H3 H4]. split; [lia|]. intros H.
    destruct (H2 H) as (r1 & E1 & F1). destruct H4 as (r2 & E2 & F2); [lia|].
    exists (r1 ++ r2). split; [now rewrite E2, E1, app_assoc | now apply Forall_app].
Qed.

Lemma B_muted_same (t t' : B.server) :
  B.logical_clock t <= B.logical_clock t' -> B.sent t' = B.sent t -> B_muted t t'.
Proof.
  intros Hc Hs. split; [exact Hc|]. intros _. exists []. now rewrite app_nil_r.
Qed.

Ltac muted_update :=
  apply preserves_modify; intros ?; apply B_muted_same; [cbn; lia | reflexivity].

Lemma B_send_message_muted (r : nat) (c n : Z) (d : option bytes) :
  preserves B_muted (B.send_message r c n d).
Proof.
  intros t. unfold B.send_message, B.update_logical_clock, B.self_, bind, lift, ret, raise,
    modify.
  cbn [fst snd B.objs B.set_logical_clock].
  destruct (B.objs t !! r) as [o|]; cbn [fst snd];
    [|apply B_muted_same; [cbn; lia | reflexivity]].
  destruct (Struct.pack _) as [hd|] eqn:Hp; cbn [fst snd].
  - split; [cbn; lia|]. intros H. rewrite pack_clock_overflow in Hp by lia. discriminate.
  - apply B_muted_same; [cbn; lia | reflexivity].
Qed.

Lemma B_send_rejection_muted (a : address) (sid : Z) :
  preserves B_muted (B.send_rejection a sid).
Proof.
  apply preserves_modify. intros t. split; [cbn; lia|]. intros _.
  exists [(B.rejection_message sid, a)]. split; [reflexivity|].
  constructor; [now exists sid | constructor].
Qed.

Lemma B_self_muted (r : nat) : preserves B_muted (B.self_ r).
Proof. intros t. unfold B.self_. destruct (B.objs t !! r); reflexivity. Qed.

Lemma B_fresh_muted : preserves B_muted B.fresh.
Proof. intros t. apply B_muted_same; [cbn; lia | reflexivity]. Qed.

Lemma B_update_logical_clock_muted (v : option Z) :
  preserves B_muted (B.update_logical_clock v).
Proof.
  intros t. unfold B.update_logical_clock. apply B_muted_same; [|reflexivity]. cbn.
  destruct v as [v|]; [destruct (Z.gtb_spec v (B.logical_clock t))|]; lia.
Qed.

Create HintDb muted.

#[local] Hint Resolve B_send_message_muted B_send_rejection_muted B_self_muted B_fresh_muted
  B_update_logical_clock_muted : muted.

Ltac muted :=
  repeat first [ solve [auto with muted] | preserves_step | muted_update ].

Lemma B_set_timer_muted (r : nat) : preserves B_muted (B.set_timer r).
Proof. unfold B.set_timer, B.cancel_timer, B.update_self. muted. Qed.

Lemma B_issue_timeout_muted (r : nat) : preserves B_muted (B.issue_timeout r).
Proof. unfold B.issue_timeout, B.send_goodbye, B.update_self, B.print. muted. Qed.

Lemma B_handle_data_muted (r : nat) (n : Z) (payload : option bytes) (v : Z) :
  preserves B_muted (B.handle_data r n payload v).
Proof.
  unfold B.handle_data, B.accept_data, B.print_data, B.update_self, B.print. muted.
Qed.

Lemma B_process_message_muted (r : nat) (message : bytes) :
  preserves B_muted (B.process_message r message).
Proof.
  unfold B.process_message, B.handle_hello, B.handle_goodbye, B.send_goodbye,
    B.cancel_timer, B.update_self, B.print.
  pose proof (B_set_timer_muted r). pose proof (B_handle_data_muted r). muted.
Qed.

Lemma B_locked_muted (h : Struct.header) (message : bytes) (a : address) :
  preserves B_muted (B.locked h message a).
Proof.
  unfold B.locked, B.process_and_reap, B.start, B.print.
  pose proof B_set_timer_muted. pose proof B_process_message_muted. muted.
Qed.

Lemma B_step_muted (ev : B.event) (t : B.server) : B_muted t (B.step ev t).
Proof.
  destruct ev as [message addr | tm]; unfold B.step.
  - unfold exec, B.handle_client.
    destruct (Struct.unpack (slice_to 20 message)) as [h|].
    + apply preserves_bind; [exact _ | apply B_update_logical_clock_muted |].
      intros _. apply B_locked_muted.
    + apply B_muted_same; [cbn; lia | reflexivity].
  - destruct (B.timers t !! tm) as [r|]; [|reflexivity].
    apply (B_issue_timeout_muted r (B.set_timers (delete tm) t)).
Qed.

Lemma B_run_muted (evs : list B.event) (t : B.server) : B_muted t (B.run evs t).
Proof.
  revert t. induction evs as [|ev evs IH]; intros t; [reflexivity|].
  etransitivity; [apply (B_step_muted ev) | apply IH].
Qed.

(** X16: the B server merges the clock field of every datagram that holds a
    whole header before it checks anything else. So one datagram with a
    clock field of [2 ^ 64 - 2] or more, from any address and with any
    magic number, version, command and session id, ends all protocol
    traffic: from then on every [send_message] fails in [struct.pack], and
    the only datagrams the server still sends are the rejection texts. *)
Theorem B_clock_overflow_mutes_server (t : B.server) (message : bytes) (addr : address)
    (h : Struct.header) :
  Struct.unpack (slice_to 20 message) = Some h ->
  2 ^ 64 - 2 <= Struct.logical_clock h ->
  forall evs, exists rej,
    B.sent (B.run (B.Datagram message addr :: evs) t) = B.sent t ++ rej /\
    Forall is_rejection rej.
Proof.
  intros Hu Hbig evs.
  set (t1 := B.set_logical_clock
               (Z.max (B.logical_clock t) (Struct.logical_clock h) + 1) t).
  assert (Heq : B.step (B.Datagram message addr) t = exec (B.locked h message addr) t1).
  { unfold B.step, exec, B.handle_client. rewrite Hu.
    unfold bind, B.update_logical_clock. now rewrite merge_max. }
  change (B.run (B.Datagram message addr :: evs) t)
    with (B.run evs (B.step (B.Datagram message addr) t)).
  rewrite Heq.
  assert (Hm : B_muted t1 (B.run evs (exec (B.locked h message addr) t1))).
  { etransitivity; [apply (B_locked_muted h message addr t1) | apply B_run_muted]. }
  destruct Hm as [_ Hm]. apply Hm. subst t1. cbn. lia.
Qed.

Lemma B_clock_overflow_mutes_server_witness :
  exists rej,
    B.sent (B.run [B.Datagram (datagram 0 0 0 0 0 (2 ^ 64 - 1) []) peer2;
                   B.Datagram (datagram MAGIC 1 DATA 2 7 3 hi) peer1;
                   B.Datagram (datagram MAGIC 1 HELLO 0 7 0 []) peer2] B_established)
      = B.sent B_established ++ rej /\
    Forall is_rejection rej.
Proof.
  unshelve epose proof
    (B_clock_overflow_mutes_server B_established (datagram 0 0 0 0 0 (2 ^ 64 - 1) []) peer2
       (Struct.Header 0 0 0 0 0 (2 ^ 64 - 1)) _ _
       [B.Datagram (datagram MAGIC 1 DATA 2 7 3 hi) peer1;
        B.Datagram (datagram MAGIC 1 HELLO 0 7 0 []) peer2]) as H;
    [concrete | vm_compute; discriminate |].
  exact H.
Defined.

(** ** The idle timers of the A server *)

Section Hoare.
Context {S : Type} (E : S -> Prop).

Lemma hoare_ret {A} (P : S -> Prop) (Q : A -> S -> Prop) (a : A) :
  (forall s, P s -> Q a s) -> hoare P (ret a) Q E.
Proof. intros H s Hs. cbn. auto. Qed.

Lemma hoare_raise {A} (P : S -> Prop) (Q : A -> S -> Prop) (e : exn) :
  (forall s, P s -> E s) -> hoare P (raise e) Q E.
Proof. intros H s Hs. cbn. auto. Qed.

Lemma hoare_lift {A} (P : S -> Prop) (Q : A -> S -> Prop) (e : exn) (o : option A) :
  (forall a s, P s -> Q a s) -> (forall s, P s -> E s) -> hoare P (lift e o) Q E.
Proof. intros HQ HE. destruct o; [apply hoare_ret | apply hoare_raise]; auto. Qed.

Lemma hoare_get (P : S -> Prop) : hoare P get (fun _ => P) E.
Proof. intros s Hs. exact Hs. Qed.

Lemma hoare_modify (f : S -> S) (P : S -> Prop) (Q : unit -> S -> Prop) :
  (forall s, P s -> Q tt (f s)) -> hoare P (modify f) Q E.
Proof. intros H s Hs. cbn. auto. Qed.

Lemma hoare_bind {A B} (P : S -> Prop) (m : M S A) (Q : A -> S -> Prop)
    (k : A -> M S B) (R : B -> S -> Prop) :
  hoare P m Q E -> (forall a, hoare (Q a) (k a) R E) -> hoare P (bind m k) R E.
Proof.
  intros Hm Hk s Hs. specialize (Hm s Hs). unfold bind.
  destruct (m s) as [s1 [a|e]]; cbn [fst snd] in *.
  - apply Hk, Hm.
  - exact Hm.
Qed.

Lemma hoare_weaken {A} (P P' : S -> Prop) (m : M S A) (Q Q' : A -> S -> Prop) :
  hoare P m Q E -> (forall s, P' s -> P s) -> (forall a s, Q a s -> Q' a s) ->
  hoare P' m Q' E.
Proof.
  intros Hm HP HQ s Hs. specialize (Hm s (HP s Hs)).
  destruct (snd (m s)); auto.
Qed.

End Hoare.

#[global] Instance A_frame_preorder : PreOrder A_frame.
Proof.
  split.
  - intros s. repeat split; reflexivity.
  - intros s1 s2 s3 (H1 & H2 & H3) (H4 & H5 & H6). repeat split; congruence.
Qed.

Lemma A_timers_ok_frame (s s' : A.server) : A_frame s s' -> A_timers_ok s -> A_timers_ok s'.
Proof. intros (Ho & Ht & Hn) [H1 H2]. split; rewrite ?Ho, ?Ht, Hn; auto. Qed.

Lemma A_at_frame (r : nat) (o : A.ServerSession) (s s' : A.server) :
  A_frame s s' -> A_at r o s -> A_at r o s'.
Proof.
  intros HF [Hok Ho]. split; [now apply (A_timers_ok_frame s)|].
  destruct HF as (E & _). now rewrite E.
Qed.

(** An operation that leaves objects and timers alone keeps what is known
    of them, whether it returns or raises. *)
Lemma hoare_framed {A} (P : A.server -> Prop) (m : M A.server A) :
  preserves A_frame m ->
  (forall s s', A_frame s s' -> P s -> P s') ->
  (forall s, P s -> A_timers_ok s) ->
  hoare P m (fun _ => P) A_timers_ok.
Proof.
  intros Hm HP HE s Hs. specialize (Hm s).
  destruct (m s) as [s' [a|e]]; cbn [fst snd] in *; [|apply HE]; now apply (HP s).
Qed.

Lemma A_print_frame (l : A.line) : preserves A_frame (A.print l).
Proof. intros s. repeat split; reflexivity. Qed.

Lemma A_send_message_frame (r : nat) (c n : Z) (d : option bytes) :
  preserves A_frame (A.send_message r c n d).
Proof.
  intros s. unfold A.send_message, A.update_logical_clock, A.self_, bind, lift, ret, raise,
    modify.
  cbn [fst snd A.objs A.set_logical_clock].
  destruct (A.objs s !! r) as [o|]; cbn [fst snd]; [|repeat split; reflexivity].
  destruct (Struct.pack _); repeat split; reflexivity.
Qed.

Lemma A_print_data_frame (a : address) (d : bytes) : preserves A_frame (A.print_data a d).
Proof. intros s. unfold A.print_data. destruct (utf8_valid d); repeat split; reflexivity. Qed.

Lemma A_print_lost_frame (a : address) (l : list Z) :
  preserves A_frame
    (modify (fun s => fold_left (fun s i => A.print_line (A.LostPacket i a) s) l s)).
Proof. intros s. cbn. rewrite A_print_lost. repeat split; reflexivity. Qed.

Lemma A_update_logical_clock_frame (v : option Z) :
  preserves A_frame (A.update_logical_clock v).
Proof. intros s. repeat split; reflexivity. Qed.

(** What a change of the session behind [r] and of its timers must respect. *)
Lemma A_timers_ok_local (s s' : A.server) (r : nat) (o o' : A.ServerSession) :
  A_timers_ok s ->
  A.objs s !! r = Some o ->
  A.objs s' !! r = Some o' ->
  (forall r', r' <> r -> A.objs s' !! r' = A.objs s !! r') ->
  (A.next_id s <= A.next_id s')%nat ->
  (forall t r', A.timers s' !! t = Some r' ->
     (r' <> r /\ A.timers s !! t = Some r') \/
     (r' = r /\ (t < A.next_id s')%nat /\ A.idle_timer o' = Some t /\
      A.state o' = A.RECEIVE)) ->
  A_timers_ok s'.
Proof.
  intros [H1 H2] Ho Ho' Hother Hn Ht. split.
  - intros r' Hr'. destruct (decide (r' = r)) as [->|Hne].
    + specialize (H1 r (ex_intro _ o Ho)). lia.
    + rewrite Hother in Hr' by exact Hne. specialize (H1 r' Hr'). lia.
  - intros t r' Htr. destruct (Ht t r' Htr) as [[Hne Hold] | (-> & Hlt & Hi & Hst)].
    + destruct (H2 t r' Hold) as (Hlt & o1 & Ho1 & Hi & Hst).
      split; [lia|]. exists o1. rewrite Hother by exact Hne. auto.
    + split; [exact Hlt|]. exists o'. auto.
Qed.

(** The timers that point to a session are the one it holds. *)
Lemma A_timer_of (s : A.server) (r : nat) (o : A.ServerSession) (t : nat) :
  A_at r o s -> A.timers s !! t = Some r ->
  A.idle_timer o = Some t /\ A.state o = A.RECEIVE /\ (t < A.next_id s)%nat.
Proof.
  intros [[_ H2] Ho] Ht. destruct (H2 t r Ht) as (Hlt & o1 & Ho1 & Hi & Hst).
  rewrite Ho in Ho1. apply (inj Some) in Ho1. subst o1. auto.
Qed.

Lemma hoare_self (r : nat) :
  hoare A_timers_ok (A.self_ r) (fun o => A_at r o) A_timers_ok.
Proof.
  intros s Hs. unfold A.self_. destruct (A.objs s !! r) as [o|] eqn:Ho; cbn; [|exact Hs].
  split; assumption.
Qed.

Lemma hoare_update_self (r : nat) (o : A.ServerSession)
    (f : A.ServerSession -> A.ServerSession) :
  A.idle_timer (f o) = A.idle_timer o ->
  (A.state o = A.RECEIVE -> A.state (f o) = A.RECEIVE) ->
  hoare (A_at r o) (A.update_self r f) (fun _ => A_at r (f o)) A_timers_ok.
Proof.
  intros Hi Hst. apply hoare_modify. intros s Hat.
  assert (Ho' : A.objs (A.set_objs (alter f r) s) !! r = Some (f o))
    by (destruct Hat as [_ Ho]; cbn; now rewrite lookup_alter_eq, Ho).
  split; [|exact Ho'].
  destruct Hat as [Hok Ho].
  apply (A_timers_ok_local s _ r o (f o) Hok Ho Ho').
  - intros r' Hne. cbn. now rewrite lookup_alter_ne by auto.
  - cbn. lia.
  - intros t r' Ht. cbn in Ht. destruct (decide (r' = r)) as [->|Hne]; [right | now left].
    destruct (A_timer_of s r o t (conj Hok Ho) Ht) as (H1 & H2 & H3).
    split; [reflexivity|]. cbn. rewrite Hi. auto.
Qed.

Lemma hoare_set_timer (r : nat) (o : A.ServerSession) :
  A.state o = A.RECEIVE ->
  hoare (A_at r o) (A.set_timer r) (fun _ => A_timers_ok) A_timers_ok.
Proof.
  intros Hst s Hat. pose proof Hat as [Hok Ho].
  assert (Hr : (r < A.next_id s)%nat) by (apply Hok; eauto).
  destruct o as [a sid N st tm to]. cbn [A.state] in Hst. subst st.
  a_run Ho. destruct tm as [t0|]; a_run Ho.
  - eapply (A_timers_ok_local s _ r _ _ Hok Ho).
    + cbn. rewrite !lookup_alter_eq, Ho. reflexivity.
    + intros r' Hne. cbn. now rewrite !lookup_alter_ne by auto.
    + cbn. lia.
    + intros t r' Ht. cbn in Ht. apply lookup_insert_Some in Ht.
      destruct Ht as [[<- <-] | [Hne Ht]].
      * right. cbn. repeat split; try reflexivity. lia.
      * apply lookup_delete_Some in Ht. destruct Ht as [Hne0 Ht].
        left. split; [|exact Ht]. intros ->.
        destruct (A_timer_of s r _ t Hat Ht) as (H1 & _). cbn in H1. congruence.
  - eapply (A_timers_ok_local s _ r _ _ Hok Ho).
    + cbn. rewrite !lookup_alter_eq, Ho. reflexivity.
    + intros r' Hne. cbn. now rewrite !lookup_alter_ne by auto.
    + cbn. lia.
    + intros t r' Ht. cbn in Ht. apply lookup_insert_Some in Ht.
      destruct Ht as [[<- <-] | [Hne Ht]].
      * right. cbn. repeat split; try reflexivity. lia.
      * left. split; [|exact Ht]. intros ->.
        destruct (A_timer_of s r _ t Hat Ht) as (H1 & _). cbn in H1. congruence.
Qed.

(** From [self.state = "DONE"] to the end of [terminate]: the session's
    timer, if it has one, is cancelled on the way. *)
Lemma hoare_done_and_terminate (r : nat) (o : A.ServerSession) :
  hoare (A_at r o) (A.update_self r (A.with_state A.DONE) ;; A.terminate r)%py
    (fun _ => A_timers_ok) A_timers_ok.
Proof.
  intros s Hat. pose proof Hat as [Hok Ho].
  destruct o as [a sid N st tm to].
  assert (Hlocal : forall s' o',
    A.objs s' !! r = Some o' ->
    (forall r', r' <> r -> A.objs s' !! r' = A.objs s !! r') ->
    A.next_id s' = A.next_id s ->
    (forall t r', A.timers s' !! t = Some r' -> r' <> r /\ A.timers s !! t = Some r') ->
    A_timers_ok s').
  { intros s' o' Ho' Hother Hn Ht.
    apply (A_timers_ok_local s s' r _ o' Hok Ho Ho' Hother); [lia|].
    intros t r' Htr. left. now apply Ht. }
  a_run Ho. destruct tm as [t0|]; a_run Ho.
  - assert (A_timers_ok
              (A.set_objs (alter (A.with_idle_timer None) r)
                 (A.set_timers (delete t0)
                    (A.print_line (A.Terminated a)
                       (A.set_objs (alter (A.with_state A.DONE) r) s))))) as Hfin.
    { eapply Hlocal.
      - cbn. rewrite !lookup_alter_eq, Ho. reflexivity.
      - intros r' Hne. cbn. now rewrite !lookup_alter_ne by auto.
      - reflexivity.
      - intros t r' Ht. cbn in Ht. apply lookup_delete_Some in Ht. destruct Ht as [Hne Ht].
        split; [|exact Ht]. intros ->.
        destruct (A_timer_of s r _ t Hat Ht) as (H1 & _). cbn in H1. congruence. }
    destruct (A.sessions s !! sid); cbn [fst snd];
      (eapply A_timers_ok_frame; [|exact Hfin]); repeat split; reflexivity.
  - assert (A_timers_ok
              (A.print_line (A.Terminated a)
                 (A.set_objs (alter (A.with_state A.DONE) r) s))) as Hfin.
    { eapply Hlocal.
      - cbn. rewrite !lookup_alter_eq, Ho. reflexivity.
      - intros r' Hne. cbn. now rewrite !lookup_alter_ne by auto.
      - reflexivity.
      - intros t r' Ht. cbn in Ht. split; [|exact Ht]. intros ->.
        destruct (A_timer_of s r _ t Hat Ht) as (H1 & _). cbn in H1. congruence. }
    destruct (A.sessions s !! sid); cbn [fst snd];
      (eapply A_timers_ok_frame; [|exact Hfin]); repeat split; reflexivity.
Qed.

Lemma A_at_ok (r : nat) (o : A.ServerSession) (s : A.server) : A_at r o s -> A_timers_ok s.
Proof. now intros [H _]. Qed.

(** The steps that occur in the handlers, from what is known of [self]. *)
Ltac framed_at :=
  apply hoare_framed;
  [ first [ apply A_print_frame | apply A_send_message_frame | apply A_print_data_frame
          | apply A_print_lost_frame | apply A_update_logical_clock_frame ]
  | apply A_at_frame | apply A_at_ok ].

Lemma hoare_framed_last {A} (r : nat) (o : A.ServerSession) (m : M A.server A) :
  preserves A_frame m -> hoare (A_at r o) m (fun _ => A_timers_ok) A_timers_ok.
Proof.
  intros Hm. eapply hoare_weaken.
  - apply (hoare_framed (A_at r o) m Hm); [apply A_at_frame | apply A_at_ok].
  - auto.
  - intros ? s. apply A_at_ok.
Qed.

Ltac framed_last :=
  apply hoare_framed_last;
  first [ apply A_print_frame | apply A_send_message_frame | apply A_print_data_frame
        | apply A_print_lost_frame | apply A_update_logical_clock_frame ].

Lemma hoare_goodbye_and_terminate (r : nat) (o : A.ServerSession) :
  hoare (A_at r o) (A.goodbye_and_terminate r) (fun _ => A_timers_ok) A_timers_ok.
Proof.
  unfold A.goodbye_and_terminate.
  eapply hoare_bind; [framed_at|]. intros ?; cbv beta. apply hoare_done_and_terminate.
Qed.

Lemma hoare_print_then_close (r : nat) (o : A.ServerSession) (l : A.line) :
  hoare (A_at r o) (A.print l ;; A.goodbye_and_terminate r)%py
    (fun _ => A_timers_ok) A_timers_ok.
Proof.
  eapply hoare_bind; [framed_at|]. intros ?; cbv beta. apply hoare_goodbye_and_terminate.
Qed.

Lemma hoare_session_timeout (r : nat) :
  hoare A_timers_ok (A.session_timeout r) (fun _ => A_timers_ok) A_timers_ok.
Proof.
  unfold A.session_timeout.
  eapply hoare_bind; [apply hoare_self|]. intros o. apply hoare_print_then_close.
Qed.

Lemma hoare_handle_hello (r : nat) (n : Z) :
  hoare A_timers_ok (A.handle_hello r n) (fun _ => A_timers_ok) A_timers_ok.
Proof.
  unfold A.handle_hello.
  eapply hoare_bind; [apply hoare_self|]. intros o.
  destruct (A.state o) eqn:Hst; try apply hoare_print_then_close.
  eapply hoare_bind; [framed_at|]. intros ?; cbv beta.
  eapply hoare_bind; [framed_at|]. intros ?; cbv beta.
  eapply hoare_bind; [apply hoare_update_self; [reflexivity | reflexivity]|]. intros ?; cbv beta.
  apply hoare_set_timer. reflexivity.
Qed.

Lemma hoare_classify (r : nat) (o : A.ServerSession) (n : Z) (d : bytes) :
  A.state o = A.RECEIVE ->
  hoare (A_at r o) (A.classify r o n d) (fun _ => A_timers_ok) A_timers_ok.
Proof.
  intros Hst. unfold A.classify.
  destruct (n =? A.expected_sequence_number o);
    [|destruct (n >? A.expected_sequence_number o);
      [|destruct (n =? A.expected_sequence_number o - 1)]].
  - eapply hoare_bind; [framed_at|]. intros ?; cbv beta.
    eapply hoare_bind; [apply hoare_update_self; [reflexivity | auto]|]. intros ?; cbv beta.
    eapply hoare_bind; [framed_at|]. intros ?; cbv beta.
    apply hoare_set_timer. exact Hst.
  - eapply hoare_bind; [framed_at|]. intros ?; cbv beta.
    eapply hoare_bind; [apply hoare_update_self; [reflexivity | auto]|]. intros ?; cbv beta.
    eapply hoare_bind; [framed_at|]. intros ?; cbv beta.
    framed_last.
  - framed_last.
  - apply hoare_print_then_close.
Qed.

Lemma hoare_handle_data (r : nat) (n : Z) (d : bytes) (v : Z) :
  hoare A_timers_ok (A.handle_data r n d v) (fun _ => A_timers_ok) A_timers_ok.
Proof.
  unfold A.handle_data.
  eapply hoare_bind; [apply hoare_self|]. intros o.
  destruct (A.state o) eqn:Hst; try (apply hoare_ret; intros s; apply A_at_ok).
  eapply hoare_bind; [framed_at|]. intros ?; cbv beta. now apply hoare_classify.
Qed.

Lemma hoare_handle_goodbye (r : nat) :
  hoare A_timers_ok (A.handle_goodbye r) (fun _ => A_timers_ok) A_timers_ok.
Proof.
  unfold A.handle_goodbye.
  eapply hoare_bind; [apply hoare_self|]. intros o.
  destruct (A.state o); try (apply hoare_ret; intros s; apply A_at_ok).
  apply hoare_print_then_close.
Qed.

Lemma hoare_handle_message (r : nat) (m : bytes) :
  hoare A_timers_ok (A.handle_message r m) (fun _ => A_timers_ok) A_timers_ok.
Proof.
  unfold A.handle_message.
  apply (hoare_bind _ _ _ (fun _ => A_timers_ok)); [apply hoare_lift; auto|]. intros h.
  eapply hoare_bind; [apply hoare_self|]. intros o.
  destruct (negb (Struct.magic h =? MAGIC) || negb (Struct.version h =? 1));
    [apply hoare_print_then_close|].
  destruct (negb (Struct.session_id h =? A.session_id o)); [apply hoare_print_then_close|].
  destruct (Struct.command h =? HELLO).
  { eapply hoare_weaken; [apply hoare_handle_hello | apply A_at_ok | auto]. }
  destruct (Struct.command h =? DATA).
  { eapply hoare_weaken; [apply hoare_handle_data | apply A_at_ok | auto]. }
  destruct (Struct.command h =? GOODBYE).
  { eapply hoare_weaken; [apply hoare_handle_goodbye | apply A_at_ok | auto]. }
  apply hoare_print_then_close.
Qed.

Lemma hoare_exec {A} (m : M A.server A) (s : A.server) :
  hoare A_timers_ok m (fun _ => A_timers_ok) A_timers_ok ->
  A_timers_ok s -> A_timers_ok (exec m s).
Proof. intros Hm Hs. specialize (Hm s Hs). unfold exec. destruct (snd (m s)); exact Hm. Qed.

Lemma A_datagram_received_timers (data : bytes) (addr : address) (s : A.server) :
  A_timers_ok s -> A_timers_ok (exec (A.datagram_received data addr) s).
Proof.
  intros Hok.
  unfold exec, A.datagram_received, try_except, bind, lift, get, ret, raise, A.print,
    A.create_task, A.fresh, modify.
  destruct (Struct.unpack_uint 4 (slice 8 12 data)) as [sid|];
    destruct (Struct.unpack_uint 4 (slice 4 8 data)) as [i|];
    destruct (Struct.unpack_uint 1 (slice 3 4 data)) as [c|];
    cbn; try (apply (A_timers_ok_frame s); [repeat split; reflexivity | exact Hok]).
  destruct (A.sessions s !! sid) as [r|]; cbn.
  - destruct (A.client_addresses s !! sid) as [bound|]; cbn; [|exact Hok].
    destruct (bool_decide (addr = bound)); cbn;
      (apply (A_timers_ok_frame s); [repeat split; reflexivity | exact Hok]).
  - destruct (c =? HELLO); cbn;
      [|apply (A_timers_ok_frame s); [repeat split; reflexivity | exact Hok]].
    destruct Hok as [H1 H2]. split; cbn.
    + intros r Hr. apply lookup_insert_is_Some in Hr. destruct Hr as [<- | [_ Hr]]; [lia|].
      specialize (H1 r Hr). lia.
    + intros t r Ht. destruct (H2 t r Ht) as (Hlt & o & Ho & Hi & Hst).
      split; [lia|]. exists o. rewrite lookup_insert_ne; [auto|].
      intros <-. specialize (H1 (A.next_id s) (ex_intro _ o Ho)). lia.
Qed.

Lemma A_step_timers (ev : A.event) (s : A.server) :
  A_timers_ok s -> A_timers_ok (A.step ev s).
Proof.
  intros Hok. destruct ev as [data addr | | t]; unfold A.step.
  - now apply A_datagram_received_timers.
  - destruct (A.tasks s) as [|[r data] rest]; [exact Hok|].
    apply hoare_exec; [apply hoare_handle_message|].
    apply (A_timers_ok_frame s); [repeat split; reflexivity | exact Hok].
  - destruct (A.timers s !! t) as [r|]; [|exact Hok].
    apply hoare_exec; [apply hoare_session_timeout|].
    destruct Hok as [H1 H2]. split; [exact H1|]. intros t' r' Ht. cbn in Ht.
    apply lookup_delete_Some in Ht. destruct Ht as [_ Ht]. now apply H2.
Qed.

Lemma A_run_timers (evs : list A.event) (s : A.server) :
  A_timers_ok s -> A_timers_ok (A.run evs s).
Proof.
  revert s. induction evs as [|ev evs IH]; intros s Hok; [exact Hok|].
  apply IH, A_step_timers, Hok.
Qed.

Lemma A_init_timers : A_timers_ok A.init.
Proof. split; [intros r [o Ho] | intros t r Ht]; cbn in *; now rewrite lookup_empty in *. Qed.

(** X17: in every state the A server reaches, a sleeping [session_timeout]
    task belongs to an allocated session that is in the [RECEIVE] state and
    holds that very task as its [idle_timer]. So no timeout is pending for a
    session that is closed or still waiting for its [HELLO], a timer that
    was replaced or cancelled never fires, and a session has at most one
    timer running. *)
Theorem A_pending_timeouts_are_current (evs : list A.event) (t r : nat) :
  let s := A.run evs A.init in
  A.timers s !! t = Some r ->
  (exists o, A.objs s !! r = Some o /\ A.idle_timer o = Some t /\ A.state o = A.RECEIVE) /\
  (forall t', A.timers s !! t' = Some r -> t' = t).
Proof.
  cbv zeta. intros Ht.
  pose proof (A_run_timers evs A.init A_init_timers) as [_ H2].
  destruct (H2 t r Ht) as (_ & o & Ho & Hi & Hst).
  split; [exists o; auto|].
  intros t' Ht'. destruct (H2 t' r Ht') as (_ & o' & Ho' & Hi' & _).
  congruence.
Qed.

Lemma A_pending_timeouts_are_current_witness :
  exists o, A.objs A_established !! 0%nat = Some o /\ A.idle_timer o = Some 1%nat /\
            A.state o = A.RECEIVE.
Proof.
  unshelve epose proof
    (A_pending_timeouts_are_current
       [A.Datagram (datagram MAGIC 1 HELLO 0 7 0 []) peer1; A.RunTask] 1%nat 0%nat _) as H;
    [concrete |].
  destruct H as (H & _). exact H.
Defined.

(** ** The session-id check of the A server *)

#[global] Instance A_ids_kept_preorder : PreOrder A_ids_kept.
Proof.
  split.
  - intros s. repeat split; eauto.
  - intros s1 s2 s3 (H1 & H2 & H3 & H4 & H5 & H6) (K1 & K2 & K3 & K4 & K5 & K6).
    repeat split; [| auto | lia | auto | congruence | auto].
    intros r o Ho. destruct (H1 r o Ho) as (o2 & Ho2 & E2).
    destruct (K1 r o2 Ho2) as (o3 & Ho3 & E3). exists o3. split; [auto | congruence].
Qed.

Lemma A_ids_ok_kept (s s' : A.server) : A_ids_kept s s' -> A_ids_ok s -> A_ids_ok s'.
Proof.
  intros (H1 & H2 & H3 & H4 & H5 & H6) (I1 & I2 & I3 & I4). repeat split.
  - intros r Hr. specialize (I1 r (H2 r Hr)). lia.
  - intros sid r Hs. destruct (I2 sid r (H4 sid r Hs)) as (o & Ho & E).
    destruct (H1 r o Ho) as (o' & Ho' & E'). exists o'. split; [auto | congruence].
  - intros r data Hin. rewrite H5 in Hin. destruct (I3 r data Hin) as (o & Ho & E).
    destruct (H1 r o Ho) as (o' & Ho' & E'). exists o'. split; [auto | congruence].
  - intros a Hin. exact (I4 a (H6 a Hin)).
Qed.

(** A state update that leaves objects, table, queue and output alone. *)
Lemma A_ids_kept_same (s s' : A.server) :
  A.objs s' = A.objs s -> (A.next_id s <= A.next_id s')%nat ->
  A.sessions s' = A.sessions s -> A.tasks s' = A.tasks s -> A.stdout s' = A.stdout s ->
  A_ids_kept s s'.
Proof.
  intros Ho Hn Hs Ht Hp. unfold A_ids_kept. rewrite Ho, Hs, Ht, Hp.
  repeat split; eauto.
Qed.

Lemma A_print_ids (l : A.line) :
  (forall a, l <> A.InvalidSessionId a) -> preserves A_ids_kept (A.print l).
Proof.
  intros Hl. apply preserves_modify. intros s. repeat split; cbn; eauto.
  intros a Hin. apply in_app_or in Hin. destruct Hin as [Hin | [E | []]]; [exact Hin|].
  now destruct (Hl a).
Qed.

Lemma A_print_lost_ids (a : address) (l : list Z) :
  preserves A_ids_kept
    (modify (fun s => fold_left (fun s i => A.print_line (A.LostPacket i a) s) l s)).
Proof.
  apply preserves_modify. intros s. rewrite A_print_lost. repeat split; cbn; eauto.
  intros a' Hin. apply in_app_or in Hin. destruct Hin as [Hin | Hin]; [exact Hin|].
  apply in_map_iff in Hin. destruct Hin as (i & E & _). discriminate.
Qed.

Lemma A_update_self_ids (r : nat) (f : A.ServerSession -> A.ServerSession) :
  (forall o, A.session_id (f o) = A.session_id o) ->
  preserves A_ids_kept (A.update_self r f).
Proof.
  intros Hf. apply preserves_modify. intros s. repeat split; cbn; eauto.
  - intros r' o Ho. destruct (decide (r' = r)) as [->|Hne].
    + exists (f o). now rewrite lookup_alter_eq, Ho.
    + exists o. now rewrite lookup_alter_ne by auto.
  - intros r'. now rewrite lookup_alter_is_Some.
Qed.

Lemma A_self_ids (r : nat) : preserves A_ids_kept (A.self_ r).
Proof. intros s. unfold A.self_. destruct (A.objs s !! r); reflexivity. Qed.

Lemma A_fresh_ids : preserves A_ids_kept A.fresh.
Proof. intros s. apply A_ids_kept_same; cbn; auto. Qed.

Lemma A_update_logical_clock_ids (v : option Z) :
  preserves A_ids_kept (A.update_logical_clock v).
Proof. intros s. apply A_ids_kept_same; reflexivity. Qed.

Lemma A_send_message_ids (r : nat) (c n : Z) (d : option bytes) :
  preserves A_ids_kept (A.send_message r c n d).
Proof.
  intros s. unfold A.send_message, A.update_logical_clock, A.self_, bind, lift, ret, raise,
    modify.
  cbn [fst snd A.objs A.set_logical_clock].
  destruct (A.objs s !! r) as [o|]; cbn [fst snd]; [|apply A_ids_kept_same; reflexivity].
  destruct (Struct.pack _); apply A_ids_kept_same; reflexivity.
Qed.

Lemma A_set_timers_ids (f : gmap nat nat -> gmap nat nat) :
  preserves A_ids_kept (modify (A.set_timers f)).
Proof. apply preserves_modify. intros s. apply A_ids_kept_same; reflexivity. Qed.

Lemma A_delete_session_ids (k : Z) :
  preserves A_ids_kept (modify (A.set_sessions (delete k))).
Proof.
  apply preserves_modify. intros s. repeat split; cbn; eauto.
  intros sid r Hs. apply lookup_delete_Some in Hs. tauto.
Qed.

Create HintDb ids.

#[local] Hint Resolve A_print_lost_ids A_self_ids A_fresh_ids A_update_logical_clock_ids
  A_send_message_ids A_set_timers_ids A_delete_session_ids : ids.

(** The leaves of a handler: a line other than that of the session-id check,
    or a field of [self] other than its session id. *)
Ltac ids :=
  repeat first
    [ solve [auto with ids]
    | apply A_print_ids; intros ?; discriminate
    | apply A_update_self_ids; intros ?; reflexivity
    | preserves_step ].

Lemma A_goodbye_and_terminate_ids (r : nat) :
  preserves A_ids_kept (A.goodbye_and_terminate r).
Proof. unfold A.goodbye_and_terminate, A.terminate, A.cancel_timer. ids. Qed.

Lemma A_set_timer_ids (r : nat) : preserves A_ids_kept (A.set_timer r).
Proof. unfold A.set_timer, A.cancel_timer. ids. Qed.

Lemma A_session_timeout_ids (r : nat) : preserves A_ids_kept (A.session_timeout r).
Proof. unfold A.session_timeout. pose proof (A_goodbye_and_terminate_ids r). ids. Qed.

Lemma A_handle_data_ids (r : nat) (n : Z) (d : bytes) (v : Z) :
  preserves A_ids_kept (A.handle_data r n d v).
Proof.
  unfold A.handle_data, A.classify, A.print_data.
  pose proof (A_goodbye_and_terminate_ids r). pose proof (A_set_timer_ids r). ids.
Qed.

(** The branches of [handle_message] after the session-id check. *)
Lemma A_dispatch_ids (r : nat) (h : Struct.header) (o : A.ServerSession) (message : bytes) :
  preserves A_ids_kept
    (if Struct.command h =? HELLO then A.handle_hello r (Struct.sequence_number h)
     else if Struct.command h =? DATA then
       A.handle_data r (Struct.sequence_number h) (slice_from 20 message)
         (Struct.logical_clock h)
     else if Struct.command h =? GOODBYE then A.handle_goodbye r
     else (A.print (A.UnknownCommand (A.client_address o)) ;;
           A.goodbye_and_terminate r)%py).
Proof.
  unfold A.handle_hello, A.handle_goodbye.
  pose proof (A_goodbye_and_terminate_ids r). pose proof (A_set_timer_ids r).
  pose proof (A_handle_data_ids r). ids.
Qed.

(** A task whose datagram carries the id of its session passes the check. *)
Lemma A_handle_message_ids (s : A.server) (r : nat) (o : A.ServerSession)
    (message : bytes) :
  A.objs s !! r = Some o ->
  Struct.unpack_uint 4 (slice 8 12 message) = Some (A.session_id o) ->
  A_ids_kept s (exec (A.handle_message r message) s).
Proof.
  intros Ho Hsid. unfold exec, A.handle_message, bind at 1, lift.
  destruct (Struct.unpack (slice_to 20 message)) as [h|] eqn:Hu; [|reflexivity].
  destruct (unpack_header_fields message h Hu) as (Hsid' & _).
  rewrite Hsid in Hsid'. apply (inj Some) in Hsid'.
  unfold ret at 1, bind at 1, A.self_ at 1. rewrite Ho.
  rewrite <- Hsid', Z.eqb_refl. cbn [negb].
  destruct (negb (Struct.magic h =? MAGIC) || negb (Struct.version h =? 1)).
  - pose proof (A_goodbye_and_terminate_ids r) as Hg.
    assert (Hp : preserves A_ids_kept
                   (A.print (A.InvalidMessage (A.client_address o)) ;;
                    A.goodbye_and_terminate r)%py) by ids.
    apply Hp.
  - apply (A_dispatch_ids r h o message).
Qed.

Lemma A_datagram_received_ids (data : bytes) (addr : address) (s : A.server) :
  A_ids_ok s -> A_ids_ok (exec (A.datagram_received data addr) s).
Proof.
  intros Hok. pose proof Hok as (I1 & I2 & I3 & I4).
  unfold exec, A.datagram_received, try_except, bind, lift, get, ret, raise, A.print,
    A.create_task, A.fresh, modify.
  destruct (Struct.unpack_uint 4 (slice 8 12 data)) as [sid|] eqn:Hsid;
    destruct (Struct.unpack_uint 4 (slice 4 8 data)) as [i|];
    destruct (Struct.unpack_uint 1 (slice 3 4 data)) as [c|];
    cbn [fst snd];
    try (apply (A_ids_ok_kept s); [|exact Hok];
         apply (A_print_ids A.StructErrorLine); intros ?; discriminate).
  destruct (A.sessions s !! sid) as [r|] eqn:Hs; cbn [fst snd].
  - destruct (A.client_addresses s !! sid) as [bound|]; cbn [fst snd]; [|exact Hok].
    destruct (bool_decide (addr = bound)); cbn [fst snd].
    + repeat split; cbn; auto.
      intros r' data' Hin. apply in_app_or in Hin.
      destruct Hin as [Hin | [E | []]]; [now apply I3|].
      apply (inj2 pair) in E as [<- <-].
      destruct (I2 sid r Hs) as (o & Ho & E). exists o. split; [auto | rewrite E; exact Hsid].
    + apply (A_ids_ok_kept s); [|exact Hok].
      apply (A_print_ids (A.IgnoringClient addr sid)); intros ?; discriminate.
  - destruct (c =? HELLO); cbn [fst snd].
    + assert (Hfresh : A.objs s !! A.next_id s = None).
      { destruct (A.objs s !! A.next_id s) eqn:E; [|reflexivity].
        specialize (I1 (A.next_id s) (ex_intro _ _ E)). lia. }
      repeat split; cbn.
      * intros r Hr. apply lookup_insert_is_Some in Hr.
        destruct Hr as [<- | [_ Hr]]; [lia|]. specialize (I1 r Hr). lia.
      * intros sid' r Hs'. apply lookup_insert_Some in Hs'.
        destruct Hs' as [[<- <-] | [Hne Hs']].
        -- eexists. rewrite lookup_insert_eq. split; reflexivity.
        -- destruct (I2 sid' r Hs') as (o & Ho & E). exists o. split; [|exact E].
           rewrite lookup_insert_ne; [exact Ho | congruence].
      * intros r data' Hin. apply in_app_or in Hin. destruct Hin as [Hin | [E | []]].
        -- destruct (I3 r data' Hin) as (o & Ho & E). exists o. split; [|exact E].
           rewrite lookup_insert_ne; [exact Ho | congruence].
        -- apply (inj2 pair) in E as [<- <-].
           eexists. rewrite lookup_insert_eq. split; [reflexivity | exact Hsid].
      * exact I4.
    + apply (A_ids_ok_kept s); [|exact Hok].
      apply (A_print_ids (A.InvalidInitial addr)); intros ?; discriminate.
Qed.

Lemma A_step_ids (ev : A.event) (s : A.server) : A_ids_ok s -> A_ids_ok (A.step ev s).
Proof.
  intros Hok. destruct ev as [data addr | | t]; unfold A.step.
  - now apply A_datagram_received_ids.
  - destruct (A.tasks s) as [|[r data] rest] eqn:Ht; [exact Hok|].
    destruct Hok as (I1 & I2 & I3 & I4).
    destruct (I3 r data) as (o & Ho & Hsid); [rewrite Ht; now left|].
    apply (A_ids_ok_kept (A.set_tasks (fun _ => rest) s)).
    + now apply (A_handle_message_ids _ r o data).
    + repeat split; cbn; auto. intros r' data' Hin. apply I3. rewrite Ht. now right.
  - destruct (A.timers s !! t) as [r|]; [|exact Hok].
    apply (A_ids_ok_kept (A.set_timers (delete t) s)).
    + apply (A_session_timeout_ids r).
    + exact Hok.
Qed.

Lemma A_init_ids : A_ids_ok A.init.
Proof.
  repeat split; cbn.
  - intros r [o Ho]. now rewrite lookup_empty in Ho.
  - intros sid r H. now rewrite lookup_empty in H.
  - intros r data [].
  - intros a [].
Qed.

Lemma A_run_ids (evs : list A.event) (s : A.server) : A_ids_ok s -> A_ids_ok (A.run evs s).
Proof.
  revert s. induction evs as [|ev evs IH]; intros s Hok; [exact Hok|].
  apply IH, A_step_ids, Hok.
Qed.

(** X18: the session-id check of [handle_message] never fires in the A
    server. [datagram_received] files every session under the id it was
    created with and hands a datagram only to the session found under the
    id the datagram carries, and no handler changes a session's id: so
    whatever arrives, the server never prints the line of an invalid session
    id, and every queued task belongs to the session its datagram names. *)
Theorem A_session_id_check_never_fires (evs : list A.event) :
  let s := A.run evs A.init in
  (forall a, ~ In (A.InvalidSessionId a) (A.stdout s)) /\
  (forall r data, In (r, data) (A.tasks s) ->
     exists o, A.objs s !! r = Some o /\
               Struct.unpack_uint 4 (slice 8 12 data) = Some (A.session_id o)) /\
  (forall sid r, A.sessions s !! sid = Some r ->
     exists o, A.objs s !! r = Some o /\ A.session_id o = sid).
Proof.
  cbv zeta. destruct (A_run_ids evs A.init A_init_ids) as (_ & I2 & I3 & I4). auto.
Qed.

(** ** The input loop of the B client *)





(** ** The idle timers of the A client *)

Lemma ClientA_orphan_frame (t : nat) (c c' : ClientA.Client) :
  ClientA.timers c' = ClientA.timers c ->
  ClientA.idle_timer c' = ClientA.idle_timer c ->
  ClientA.next_id c' = ClientA.next_id c ->
  ClientA_orphan t c -> ClientA_orphan t c'.
Proof. intros Ht Hi Hn. unfold ClientA_orphan. now rewrite Ht, Hi, Hn. Qed.

Lemma ClientA_set_timer_orphan (t : nat) (c : ClientA.Client) :
  ClientA_orphan t c -> ClientA_orphan t (exec ClientA.set_timer c).
Proof.
  intros (Hin & Hne & Hlt). repeat split; cbn.
  - set_solver.
  - intros E. apply (inj Some) in E. lia.
  - lia.
Qed.

Lemma ClientA_cancel_timer_orphan (t : nat) (c : ClientA.Client) :
  ClientA_orphan t c -> ClientA_orphan t (exec ClientA.cancel_timer c).
Proof.
  intros (Hin & Hne & Hlt). unfold exec, ClientA.cancel_timer, modify. cbn [fst].
  destruct (ClientA.idle_timer c) as [t'|] eqn:Hi.
  - repeat split; cbn; [|discriminate | exact Hlt].
    apply elem_of_difference. split; [exact Hin|].
    intros E. apply elem_of_singleton in E. congruence.
  - repeat split; [exact Hin | now rewrite Hi | exact Hlt].
Qed.

Lemma ClientA_send_message_orphan (t : nat) (c : ClientA.Client) (command : Z)
    (data : option bytes) :
  ClientA_orphan t c -> ClientA_orphan t (exec (ClientA.send_message command data) c).
Proof.
  apply ClientA_orphan_frame;
    unfold exec, ClientA.send_message, ClientA.update_logical_clock, ClientA.print, bind,
      get, lift, ret, raise, modify;
    cbn [fst snd ClientA.sequence_number ClientA.session_id ClientA.set_logical_clock];
    (destruct (Struct.pack _); cbn [fst snd]; [|reflexivity]);
    destruct (command =? GOODBYE); reflexivity.
Qed.

Lemma ClientA_decode_then_merge_frame (response : bytes) (c : ClientA.Client) :
  let m := (decoded <- ClientA.decode_message response ;;
            p <- lift TypeError decoded ;;
            ClientA.update_logical_clock (Some (snd p)) ;;
            if fst p =? GOODBYE
            then ClientA.print ClientA.ReceivedGoodbye ;; modify ClientA.set_shutdown
            else ret tt)%py in
  ClientA.timers (exec m c) = ClientA.timers c /\
  ClientA.idle_timer (exec m c) = ClientA.idle_timer c /\
  ClientA.next_id (exec m c) = ClientA.next_id c.
Proof.
  cbv zeta.
  unfold exec, ClientA.decode_message, ClientA.print, ClientA.update_logical_clock,
    try_except, bind, get, lift, ret, raise, modify.
  destruct (Struct.unpack (slice_to 20 response)) as [h|]; [|repeat split; reflexivity].
  destruct (utf8_valid (slice_from 20 response)); [|repeat split; reflexivity].
  cbn. destruct (Struct.command h =? GOODBYE); repeat split; reflexivity.
Qed.

Lemma ClientA_receive_message_orphan (t : nat) (c : ClientA.Client) (response : bytes) :
  ClientA_orphan t c -> ClientA_orphan t (exec (ClientA.receive_message response) c).
Proof.
  intros Ho. apply ClientA_cancel_timer_orphan in Ho.
  set (c1 := exec ClientA.cancel_timer c) in *.
  destruct (ClientA_decode_then_merge_frame response c1) as (H1 & H2 & H3).
  exact (ClientA_orphan_frame t c1 _ H1 H2 H3 Ho).
Qed.

(** X20: the A client's [set_timer] starts a new timer without cancelling the
    one it holds. The replaced timer keeps running and is out of reach: no
    later [set_timer], [cancel_timer], send or received response stops it.
    When it fires, [issue_timeout] sends a [GOODBYE] and sets the shutdown
    event, although the server may have answered every message since. *)
Theorem ClientA_replaced_timer_keeps_running (c : ClientA.Client) (t : nat) :
  ClientA.idle_timer c = Some t ->
  t ∈ ClientA.timers c ->
  (t < ClientA.next_id c)%nat ->
  ClientA_orphan t (exec ClientA.set_timer c) /\
  (forall c', ClientA_orphan t c' ->
     ClientA_orphan t (exec ClientA.set_timer c') /\
     ClientA_orphan t (exec ClientA.cancel_timer c') /\
     (forall command data,
        ClientA_orphan t (exec (ClientA.send_message command data) c')) /\
     (forall response, ClientA_orphan t (exec (ClientA.receive_message response) c'))) /\
  (forall c',
     Struct.in_range GOODBYE (ClientA.sequence_number c') (ClientA.session_id c')
       (ClientA.logical_clock c' + 1) ->
     let c'' := exec ClientA.issue_timeout c' in
     result ClientA.issue_timeout c' = Ret tt /\
     ClientA.shutdown_event c'' = true /\
     exists m, ClientA.sent c'' = ClientA.sent c' ++ [(m, ClientA.server c')] /\
       Struct.decode m =
         Some (Struct.Header MAGIC 1 GOODBYE (ClientA.sequence_number c')
                 (ClientA.session_id c') (ClientA.logical_clock c' + 1), [])).
Proof.
  intros Hi Hin Hlt. split; [|split].
  - repeat split; cbn.
    + set_solver.
    + intros E. apply (inj Some) in E. lia.
    + lia.
  - intros c' Ho. split; [|split; [|split]].
    + now apply ClientA_set_timer_orphan.
    + now apply ClientA_cancel_timer_orphan.
    + intros command data. now apply ClientA_send_message_orphan.
    + intros response. now apply ClientA_receive_message_orphan.
  - intros c' Hr. cbv zeta. destruct (pack_in_range _ _ _ _ Hr) as [hd Hhd].
    unfold result, exec, ClientA.issue_timeout, ClientA.send_message,
      ClientA.update_logical_clock, ClientA.print, bind, get, lift, ret, raise, modify.
    cbn [fst snd ClientA.sequence_number ClientA.session_id ClientA.logical_clock
         ClientA.set_logical_clock ClientA.print_line].
    rewrite Hhd. cbn. repeat split.
    exists hd. split; [reflexivity|].
    rewrite <- (app_nil_r hd). now apply decode_app.
Qed.

Lemma ClientA_replaced_timer_keeps_running_witness :
  ClientA_orphan 0
    (exec ClientA.set_timer (exec ClientA.set_timer (ClientA.init peer1 7))) /\
  ClientA_orphan 0
    (exec (ClientA.receive_message (datagram MAGIC 1 ALIVE 1 7 3 []))
       (exec ClientA.set_timer (exec ClientA.set_timer (ClientA.init peer1 7)))).
Proof.
  unshelve epose proof
    (ClientA_replaced_timer_keeps_running (exec ClientA.set_timer (ClientA.init peer1 7))
       0%nat _ _ _) as H;
    [reflexivity | cbn; set_solver | cbn; lia |].
  destruct H as (H1 & H2 & _). split; [exact H1|].
  destruct (H2 _ H1) as (_ & _ & _ & H3). apply H3.
Defined.

(** * The B server, datagram by datagram

    What [handle_client] does with a datagram for a session that is in the
    table and belongs to the sender: the clock is merged, the idle timer is
    re-armed, the message is processed, and a session that is no longer
    active afterwards is deleted from the table. *)

Lemma B_handle_client_existing (t : B.server) (message : bytes) (addr : address)
    (h : Struct.header) (q : nat) (p : B.ServerSession) :
  Struct.unpack (slice_to 20 message) = Some h ->
  B.sessions t !! Struct.session_id h = Some q ->
  B.objs t !! q = Some p ->
  B.client_address p = addr ->
  B.handle_client message addr t =
    B.process_and_reap q (Struct.session_id h) message
      (B.set_logical_clock (Z.max (B.logical_clock t) (Struct.logical_clock h) + 1) t).
Proof.
  intros Hu Hs Ho Ha. unfold B.handle_client. rewrite Hu.
  unfold bind at 1, B.update_logical_clock. rewrite merge_max.
  unfold B.locked, bind at 1, get. cbn [B.sessions B.set_logical_clock]. rewrite Hs.
  unfold bind at 1, B.self_ at 1. cbn [B.objs B.set_logical_clock]. rewrite Ho.
  rewrite bool_decide_eq_true_2 by exact Ha. reflexivity.
Qed.

Lemma B_process_and_reap_eq (t t2 : B.server) (q : nat) (sid : Z) (message : bytes)
    (p2 : B.ServerSession) :
  B.process_message q message t = (t2, Ret tt) ->
  B.objs t2 !! q = Some p2 ->
  exec (B.process_and_reap q sid message) t =
    if B.active p2 then t2 else B.set_sessions (delete sid) t2.
Proof.
  intros Hpm Ho2. unfold exec, B.process_and_reap.
  rewrite (bind_ret_eq _ _ _ _ _ Hpm). unfold bind at 1, B.self_ at 1. rewrite Ho2.
  destruct (B.active p2); [reflexivity|].
  unfold bind, get, modify, raise. destruct (B.sessions t2 !! sid) eqn:Es; cbn [fst].
  - reflexivity.
  - destruct t2. unfold B.set_sessions. cbn in *. now rewrite delete_id.
Qed.

Lemma B_step_existing (t t2 : B.server) (message : bytes) (addr : address)
    (h : Struct.header) (q : nat) (p p2 : B.ServerSession) :
  Struct.unpack (slice_to 20 message) = Some h ->
  B.sessions t !! Struct.session_id h = Some q ->
  B.objs t !! q = Some p ->
  B.client_address p = addr ->
  B.process_message q message
    (B.set_logical_clock (Z.max (B.logical_clock t) (Struct.logical_clock h) + 1) t)
    = (t2, Ret tt) ->
  B.objs t2 !! q = Some p2 ->
  B.step (B.Datagram message addr) t =
    if B.active p2 then t2 else B.set_sessions (delete (Struct.session_id h)) t2.
Proof.
  intros Hu Hs Ho Ha Hpm Ho2. unfold B.step, exec.
  rewrite (B_handle_client_existing t message addr h q p Hu Hs Ho Ha).
  apply (B_process_and_reap_eq _ t2 q _ message p2 Hpm Ho2).
Qed.

(** Deleting the table entry touches nothing else. *)
Lemma B_reaped_fields (b : bool) (sid : Z) (t2 : B.server) :
  let t' := if b then t2 else B.set_sessions (delete sid) t2 in
  B.objs t' = B.objs t2 /\ B.sent t' = B.sent t2 /\ B.stdout t' = B.stdout t2 /\
  B.logical_clock t' = B.logical_clock t2 /\ B.timers t' = B.timers t2 /\
  B.sessions t' = if b then B.sessions t2 else delete sid (B.sessions t2).
Proof. destruct b; repeat split; reflexivity. Qed.

Lemma B_process_message_invalid_eq (t : B.server) (q : nat) (p : B.ServerSession)
    (message : bytes) (h : Struct.header) :
  B.objs t !! q = Some p ->
  Struct.unpack (slice_to 20 message) = Some h ->
  Struct.magic h <> MAGIC \/ Struct.version h <> 1 ->
  B.process_message q message t =
    (B.print_line (B.InvalidPacket (B.client_address p)) (B_rearmed q p t), Ret tt).
Proof.
  intros Ho Hu Hbad. unfold B.process_message.
  rewrite bind_assoc, (bind_ret_eq _ _ _ _ _ (B_rearm_eq t q p Ho)).
  pose proof (B_rearmed_lookup t q p Ho) as Ho'.
  unfold try_except, bind, lift, B.self_, ret, B.print, modify. rewrite Hu, Ho'.
  rewrite (invalid_header_test h Hbad). reflexivity.
Qed.

Lemma B_process_message_data_eq (t : B.server) (q : nat) (p : B.ServerSession)
    (message : bytes) (h : Struct.header) :
  B.objs t !! q = Some p ->
  Struct.unpack (slice_to 20 message) = Some h ->
  Struct.magic h = MAGIC ->
  Struct.version h = 1 ->
  Struct.command h = DATA ->
  (20 < length message)%nat ->
  B.process_message q message t =
    try_except
      (B.handle_data q (Struct.sequence_number h) (Some (slice_from 20 message))
         (Struct.logical_clock h))
      StructError (B.print B.ErrorDecoding) (B_rearmed q p t).
Proof.
  intros Ho Hu Hm Hv Hc Hlen. unfold B.process_message.
  rewrite bind_assoc, (bind_ret_eq _ _ _ _ _ (B_rearm_eq t q p Ho)).
  pose proof (B_rearmed_lookup t q p Ho) as Ho'.
  assert (Hl : Nat.ltb 20 (length message) = true) by (apply Nat.ltb_lt; lia).
  unfold try_except, bind at 1, lift. rewrite Hu. unfold ret at 1.
  unfold bind at 1, B.self_ at 1. rewrite Ho'.
  rewrite (valid_header_test h Hm Hv), Hc, Hl.
  change (DATA =? HELLO) with false. change (DATA =? DATA) with true. reflexivity.
Qed.

Lemma B_handle_data_inorder_eq (t : B.server) (q : nat) (p : B.ServerSession)
    (seq v : Z) (payload hd : bytes) :
  B.objs t !! q = Some p ->
  seq = B.expected_sequence p ->
  utf8_valid payload = true ->
  Struct.pack (Struct.Header MAGIC 1 ALIVE seq (B.session_id p) (B.logical_clock t + 1))
    = Some hd ->
  B.handle_data q seq (Some payload) v t =
    (B.sendto hd (B.client_address p)
       (B.set_logical_clock (B.logical_clock t + 1)
          (B.set_objs (alter (B.with_expected (seq + 1)) q)
             (B.print_line (B.ReceivedData (B.session_id p) payload)
                (B.print_line (B.ClockValue v) (B.print_line B.Blank t))))),
     Ret tt).
Proof.
  destruct p as [a sid N act tm]. cbn [B.expected_sequence B.session_id B.client_address].
  intros Ho -> Hu Hp. b_run Ho.
  destruct (Z.gtb_spec N N) as [|_]; [lia|].
  destruct (Z.ltb_spec N N) as [|_]; [lia|].
  b_run Ho. rewrite Hu. b_run Ho. rewrite Hp. b_cbn. now rewrite app_nil_r.
Qed.

Lemma try_except_ret {S A} (m h : M S A) (e : exn) (s s1 : S) (a : A) :
  m s = (s1, Ret a) -> try_except m e h s = (s1, Ret a).
Proof. intros H. unfold try_except. now rewrite H. Qed.

(** The state after the clock is merged holds the same objects. *)
Ltac b_merged t1 Ho1 :=
  match goal with
  | Ho : B.objs ?t !! ?q = Some ?p, Hu : Struct.unpack _ = Some ?h |- _ =>
      set (t1 := B.set_logical_clock
                   (Z.max (B.logical_clock t) (Struct.logical_clock h) + 1) t);
      assert (Ho1 : B.objs t1 !! q = Some p) by exact Ho
  end.

(** Projects the fields of a state built over a re-armed one. *)
Ltac b_fields Fclk Fsent Fses Fout Ho' :=
  b_cbn; rewrite ?lookup_alter_eq, ?Ho'; b_cbn; rewrite ?Fclk, ?Fsent, ?Fses, ?Fout.

(** ** A wrong magic number or version, delivered *)

(** C4, as the code has it. An A-server session that is handed a datagram
    whose magic is not 0xC461 or whose version is not 1 answers [GOODBYE],
    becomes [DONE] and leaves the table, whatever state it was in (as long as
    the clock still fits the header). The B server discards such a datagram
    when it arrives for a session of the sender: the clock is merged and the
    idle timer re-armed, nothing is sent, the session keeps its sequence
    tracking and its [active] flag; it stays in the table when it is active,
    and is deleted from it when its timeout had fired before. *)
Theorem invalid_magic_or_version :
  (forall (s : A.server) (r : nat) (o : A.ServerSession) (message : bytes)
          (h : Struct.header),
     A.objs s !! r = Some o ->
     Struct.unpack (slice_to 20 message) = Some h ->
     Struct.magic h <> MAGIC \/ Struct.version h <> 1 ->
     0 <= A.session_id o < 2 ^ 32 ->
     0 <= A.logical_clock s ->
     A.logical_clock s + 1 < 2 ^ 64 ->
     let s' := exec (A.handle_message r message) s in
     exists m,
       Struct.encode GOODBYE 0 (A.session_id o) (A.logical_clock s + 1) [] = Some m /\
       A.sent s' = A.sent s ++ [(m, A.client_address o)] /\
       A.state <$> A.objs s' !! r = Some A.DONE /\
       A.sessions s' !! A.session_id o = None) /\
  (forall (t : B.server) (message : bytes) (addr : address) (h : Struct.header)
          (q : nat) (p : B.ServerSession),
     Struct.unpack (slice_to 20 message) = Some h ->
     Struct.magic h <> MAGIC \/ Struct.version h <> 1 ->
     B.sessions t !! Struct.session_id h = Some q ->
     B.objs t !! q = Some p ->
     B.client_address p = addr ->
     let t' := B.step (B.Datagram message addr) t in
     B.sent t' = B.sent t /\
     B.stdout t' = B.stdout t ++ [B.InvalidPacket addr] /\
     B.active <$> B.objs t' !! q = Some (B.active p) /\
     B.expected_sequence <$> B.objs t' !! q = Some (B.expected_sequence p) /\
     B.timer <$> B.objs t' !! q = Some (Some (B.next_id t)) /\
     B.timers t' !! B.next_id t = Some q /\
     B.logical_clock t' = Z.max (B.logical_clock t) (Struct.logical_clock h) + 1 /\
     B.sessions t' = if B.active p then B.sessions t
                     else delete (Struct.session_id h) (B.sessions t)).
Proof.
  split.
  - intros s r o message h Ho Hu Hbad Hsid Hc Hmax. cbv zeta.
    unfold exec. rewrite (A_handle_message_invalid s r o message h Ho Hu Hbad).
    destruct (A_goodbye_and_terminate_facts
                (A.print_line (A.InvalidMessage (A.client_address o)) s) r o Ho Hsid Hc Hmax)
      as (m & Hm & Hsent & Hobj & Hses & _).
    exists m. unfold exec in Hsent, Hobj, Hses.
    split; [exact Hm|]. split; [exact Hsent|]. split.
    + rewrite Hobj. reflexivity.
    + rewrite Hses. apply lookup_delete_eq.
  - intros t message addr h q p Hu Hbad Hs Ho Ha. cbv zeta.
    b_merged t1 Ho1.
    pose proof (B_process_message_invalid_eq t1 q p message h Ho1 Hu Hbad) as Hpm.
    pose proof (B_rearmed_lookup t1 q p Ho1) as Ho'.
    destruct (B_rearmed_fields t1 q p) as (Fclk & Fsent & Fses & Fout & _ & Ftm).
    rewrite (B_step_existing t _ message addr h q p _ Hu Hs Ho Ha Hpm Ho').
    cbn [B.active B.with_timer].
    match goal with |- context [if _ then ?x else _] => set (t2 := x) end.
    destruct (B_reaped_fields (B.active p) (Struct.session_id h) t2)
      as (Ro & Rs & Rp & Rc & Rt & Rses).
    cbv zeta in Ro, Rs, Rp, Rc, Rt, Rses. rewrite Ro, Rs, Rp, Rc, Rt, Rses. subst t2.
    b_fields Fclk Fsent Fses Fout Ho'. rewrite Ha.
    repeat split; try reflexivity. exact Ftm.
Qed.

Lemma invalid_magic_or_version_witness :
  A.state <$> A.objs (exec (A.handle_message 0 (datagram 0 1 DATA 1 7 0 hi)) A_established)
                !! 0%nat = Some A.DONE /\
  B.sent (B.step (B.Datagram (datagram 0 1 DATA 2 7 0 hi) peer1) B_established)
    = B.sent B_established /\
  B.sessions (B.step (B.Datagram (datagram 0 1 DATA 2 7 0 hi) peer1) B_established)
    = B.sessions B_established.
Proof.
  destruct invalid_magic_or_version as [HA HB]. split.
  - unshelve epose proof
      (HA A_established 0%nat (A.Session peer1 7 1 A.RECEIVE (Some 1%nat) 20)
          (datagram 0 1 DATA 1 7 0 hi) (Struct.Header 0 1 DATA 1 7 0) _ _ _ _ _ _) as H;
      [concrete .. |].
    destruct H as (m & _ & _ & H & _). exact H.
  - unshelve epose proof
      (HB B_established (datagram 0 1 DATA 2 7 0 hi) peer1 (Struct.Header 0 1 DATA 2 7 0)
          0%nat (B.Session peer1 7 2 true (Some 4%nat)) _ _ _ _ _) as H;
      [concrete .. |].
    destruct H as (H1 & _ & _ & _ & _ & _ & _ & H2). split; [exact H1 | exact H2].
Defined.

(** ** [DATA], delivered *)

(** C1, as the code has it. In the A server, for a session in [RECEIVE] that
    expects [N], a valid-text payload and a clock that still fits the header:
    [seq = N] is accepted, answered with [ALIVE seq], and [N + 1] is expected
    next; [seq > N] reports every integer of [[N, seq)] as lost, is accepted,
    answered with [ALIVE seq], and [seq + 1] is expected next; [seq = N - 1]
    is discarded with no reply and no change to the session; [seq < N - 1] is
    answered with [GOODBYE] and the session is [DONE] and out of the table.
    In the B server, for a [DATA] that arrives for a session of the sender
    that expects [N]: [seq = N] is accepted, answered with [ALIVE seq], and
    [N + 1] is expected next; [seq > N] is reported as a loss in one line,
    accepted and answered with [ALIVE seq]; every [seq < N], however far
    behind, is discarded with no reply and the session keeps what it expects.
    In all three cases the B server merges the clock and re-arms the idle
    timer, and the session keeps its [active] flag: it stays in the table
    when it is active and is deleted from it when its timeout had fired. *)
Theorem handle_data_classification :
  (forall (s : A.server) (r : nat) (o : A.ServerSession) (seq v : Z) (data : bytes),
     A.objs s !! r = Some o ->
     A.state o = A.RECEIVE ->
     0 <= A.session_id o < 2 ^ 32 ->
     0 <= seq < 2 ^ 32 ->
     0 <= A.logical_clock s ->
     Z.max (A.logical_clock s) v + 2 < 2 ^ 64 ->
     utf8_valid data = true ->
     let N := A.expected_sequence_number o in
     let clock := Z.max (A.logical_clock s) v + 1 in
     let s' := exec (A.handle_data r seq data v) s in
     (seq = N ->
        exists m, Struct.encode ALIVE seq (A.session_id o) (clock + 1) [] = Some m /\
          A.sent s' = A.sent s ++ [(m, A.client_address o)] /\
          A.stdout s' = A.stdout s ++ [A.ReceivedData (A.client_address o) data] /\
          A.expected_sequence_number <$> A.objs s' !! r = Some (N + 1) /\
          A.state <$> A.objs s' !! r = Some A.RECEIVE /\
          A.sessions s' = A.sessions s) /\
     (seq > N ->
        (forall i, N <= i < seq <->
                   In (A.LostPacket i (A.client_address o))
                      (skipn (length (A.stdout s)) (A.stdout s'))) /\
        exists m, Struct.encode ALIVE seq (A.session_id o) (clock + 1) [] = Some m /\
          A.sent s' = A.sent s ++ [(m, A.client_address o)] /\
          A.stdout s' = A.stdout s
            ++ map (fun i => A.LostPacket i (A.client_address o)) (range N seq)
            ++ [A.ReceivedData (A.client_address o) data] /\
          A.expected_sequence_number <$> A.objs s' !! r = Some (seq + 1) /\
          A.state <$> A.objs s' !! r = Some A.RECEIVE /\
          A.sessions s' = A.sessions s) /\
     (seq = N - 1 ->
        A.sent s' = A.sent s /\ A.objs s' = A.objs s /\ A.sessions s' = A.sessions s /\
        A.timers s' = A.timers s /\ A.logical_clock s' = clock) /\
     (seq < N - 1 ->
        exists m, Struct.encode GOODBYE 0 (A.session_id o) (clock + 1) [] = Some m /\
          A.sent s' = A.sent s ++ [(m, A.client_address o)] /\
          A.state <$> A.objs s' !! r = Some A.DONE /\
          A.sessions s' !! A.session_id o = None)) /\
  (forall (t : B.server) (message : bytes) (addr : address) (h : Struct.header)
          (q : nat) (p : B.ServerSession),
     Struct.unpack (slice_to 20 message) = Some h ->
     Struct.magic h = MAGIC ->
     Struct.version h = 1 ->
     Struct.command h = DATA ->
     B.sessions t !! Struct.session_id h = Some q ->
     B.objs t !! q = Some p ->
     B.client_address p = addr ->
     (20 < length message)%nat ->
     utf8_valid (slice_from 20 message) = true ->
     0 <= B.session_id p < 2 ^ 32 ->
     0 <= B.logical_clock t ->
     Z.max (B.logical_clock t) (Struct.logical_clock h) + 2 < 2 ^ 64 ->
     let N := B.expected_sequence p in
     let seq := Struct.sequence_number h in
     let v := Struct.logical_clock h in
     let payload := slice_from 20 message in
     let clock := Z.max (B.logical_clock t) v + 1 in
     let t' := B.step (B.Datagram message addr) t in
     (B.active <$> B.objs t' !! q = Some (B.active p) /\
      B.timer <$> B.objs t' !! q = Some (Some (B.next_id t)) /\
      B.timers t' !! B.next_id t = Some q /\
      B.sessions t' = if B.active p then B.sessions t
                      else delete (Struct.session_id h) (B.sessions t)) /\
     (seq = N ->
        exists m,
          Struct.encode ALIVE seq (B.session_id p) (clock + 1) [] = Some m /\
          B.sent t' = B.sent t ++ [(m, addr)] /\
          B.stdout t' = B.stdout t
            ++ [B.Blank; B.ClockValue v; B.ReceivedData (B.session_id p) payload] /\
          B.expected_sequence <$> B.objs t' !! q = Some (N + 1) /\
          B.logical_clock t' = clock + 1) /\
     (seq > N ->
        exists m,
          Struct.encode ALIVE seq (B.session_id p) (clock + 1) [] = Some m /\
          B.sent t' = B.sent t ++ [(m, addr)] /\
          B.stdout t' = B.stdout t
            ++ [B.Blank; B.ClockValue v; B.LostPackets (B.session_id p) N seq;
                B.ReceivedData (B.session_id p) payload] /\
          B.logical_clock t' = clock + 1) /\
     (seq < N ->
        B.sent t' = B.sent t /\
        B.stdout t' = B.stdout t
          ++ [B.Blank; B.ClockValue v; B.DuplicatePacket (B.session_id p)] /\
        B.expected_sequence <$> B.objs t' !! q = Some N /\
        B.logical_clock t' = clock)).
Proof.
  split.
  - intros s r o seq v data Ho Hst Hsid Hseq Hc Hmax Hu.
    destruct (A_handle_data_cases s r o seq v data Ho Hst Hsid Hseq Hc Hmax Hu)
      as (H1 & H2 & H3 & H4).
    cbv zeta. split; [exact H1 | split; [| split; [exact H3 | exact H4]]].
    intros Hgt. split; [| exact (H2 Hgt)].
    destruct (H2 Hgt) as (m & _ & _ & Hout & _). rewrite Hout.
    rewrite drop_app_length. intros i. rewrite in_app_iff, in_map_iff. split.
    + intros Hi. left. exists i. split; [reflexivity | now apply range_spec].
    + intros [(j & Hj & Hin) | [Hin | []]]; [| discriminate].
      injection Hj as ->. now apply range_spec.
  - intros t message addr h q p Hu Hm Hv Hc Hs Ho Ha Hlen Hutf Rsid Hclk Hmax. cbv zeta.
    b_merged t1 Ho1.
    pose proof (B_process_message_data_eq t1 q p message h Ho1 Hu Hm Hv Hc Hlen) as Hpm.
    pose proof (B_rearmed_lookup t1 q p Ho1) as Ho'.
    destruct (B_rearmed_fields t1 q p) as (Fclk & Fsent & Fses & Fout & _ & Ftm).
    pose proof (unpack_range _ _ Hu) as (_ & _ & (_ & Rseq & _ & _)).
    destruct (pack_in_range ALIVE (Struct.sequence_number h) (B.session_id p)
                (Z.max (B.logical_clock t) (Struct.logical_clock h) + 1 + 1)) as [hd Hhd];
      [unfold Struct.in_range, ALIVE; lia|].
    assert (Hhd' : Struct.pack
                     (Struct.Header MAGIC 1 ALIVE (Struct.sequence_number h)
                        (B.session_id (B.with_timer (Some (B.next_id t1)) p))
                        (B.logical_clock (B_rearmed q p t1) + 1)) = Some hd)
      by (rewrite Fclk; exact Hhd).
    set (N := B.expected_sequence p) in *. set (seq := Struct.sequence_number h) in *.
    assert (Hcases :
      exists t2 p2,
        B.process_message q message t1 = (t2, Ret tt) /\
        B.objs t2 !! q = Some p2 /\
        B.active p2 = B.active p /\ B.timer p2 = Some (B.next_id t) /\
        B.timers t2 !! B.next_id t = Some q /\ B.sessions t2 = B.sessions t /\
        (seq = N ->
           B.sent t2 = B.sent t ++ [(hd, addr)] /\
           B.stdout t2 = B.stdout t
             ++ [B.Blank; B.ClockValue (Struct.logical_clock h);
                 B.ReceivedData (B.session_id p) (slice_from 20 message)] /\
           B.expected_sequence p2 = N + 1 /\
           B.logical_clock t2
             = Z.max (B.logical_clock t) (Struct.logical_clock h) + 1 + 1) /\
        (seq > N ->
           B.sent t2 = B.sent t ++ [(hd, addr)] /\
           B.stdout t2 = B.stdout t
             ++ [B.Blank; B.ClockValue (Struct.logical_clock h);
                 B.LostPackets (B.session_id p) N seq;
                 B.ReceivedData (B.session_id p) (slice_from 20 message)] /\
           B.logical_clock t2
             = Z.max (B.logical_clock t) (Struct.logical_clock h) + 1 + 1) /\
        (seq < N ->
           B.sent t2 = B.sent t /\
           B.stdout t2 = B.stdout t
             ++ [B.Blank; B.ClockValue (Struct.logical_clock h);
                 B.DuplicatePacket (B.session_id p)] /\
           B.expected_sequence p2 = N /\
           B.logical_clock t2 = Z.max (B.logical_clock t) (Struct.logical_clock h) + 1)).
    { destruct (Z.lt_trichotomy seq N) as [Hlt | [Heq | Hgt]].
      - eexists. eexists. split.
        { rewrite Hpm. apply try_except_ret.
          apply (B_handle_data_duplicate_eq _ q _ seq _ _ Ho'). exact Hlt. }
        b_fields Fclk Fsent Fses Fout Ho'.
        split; [reflexivity|]. split; [reflexivity|]. split; [reflexivity|].
        split; [exact Ftm|]. split; [reflexivity|].
        split; [intros; lia|]. split; [intros; lia|]. intros _.
        repeat split; try reflexivity. now rewrite <- !app_assoc.
      - eexists. eexists. split.
        { rewrite Hpm. apply try_except_ret.
          apply (B_handle_data_inorder_eq _ q _ seq _ _ hd Ho' Heq Hutf Hhd'). }
        b_fields Fclk Fsent Fses Fout Ho'.
        split; [reflexivity|]. split; [reflexivity|]. split; [reflexivity|].
        split; [exact Ftm|]. split; [reflexivity|].
        split; [|split; intros; lia]. intros _. rewrite Ha.
        repeat split; try reflexivity;
          [now rewrite <- !app_assoc | cbn [B.expected_sequence B.with_expected]; lia].
      - eexists. eexists. split.
        { rewrite Hpm. apply try_except_ret.
          apply (B_handle_data_gap_eq _ q _ seq _ _ hd Ho'); [exact (Z.lt_gt _ _ Hgt) | exact Hutf | exact Hhd']. }
        b_fields Fclk Fsent Fses Fout Ho'.
        split; [reflexivity|]. split; [reflexivity|]. split; [reflexivity|].
        split; [exact Ftm|]. split; [reflexivity|].
        split; [intros; lia|]. split; [|intros; lia]. intros _. rewrite Ha.
        repeat split; try reflexivity. now rewrite <- !app_assoc. }
    destruct Hcases as (t2 & p2 & Hrun & Ho2 & Hact & Htm & Htms & Hses & Heq & Hgt & Hlt).
    rewrite (B_step_existing t t2 message addr h q p p2 Hu Hs Ho Ha Hrun Ho2).
    destruct (B_reaped_fields (B.active p2) (Struct.session_id h) t2)
      as (Ro & Rs & Rp & Rc & Rt & Rses).
    cbv zeta in Ro, Rs, Rp, Rc, Rt, Rses. rewrite Ro, Rs, Rp, Rc, Rt, Rses, Ho2, Hact, Hses.
    cbn [fmap option_fmap option_map]. rewrite Hact, Htm.
    split; [repeat split; [exact Htms]|]. split; [|split].
    + intros E. destruct (Heq E) as (H1 & H2 & H3 & H4). exists hd.
      split; [now apply encode_header|]. rewrite H1, H2, H3, H4. repeat split.
    + intros E. destruct (Hgt E) as (H1 & H2 & H3). exists hd.
      split; [now apply encode_header|]. rewrite H1, H2, H3. repeat split.
    + intros E. destruct (Hlt E) as (H1 & H2 & H3 & H4). rewrite H1, H2, H3, H4.
      repeat split.
Qed.

Lemma handle_data_classification_witness :
  A.expected_sequence_number
    <$> A.objs (exec (A.handle_data 0 3 hi 5) A_established) !! 0%nat = Some 4 /\
  B.sent (B.step (B.Datagram (datagram MAGIC 1 DATA 0 7 3 hi) peer1) B_established)
    = B.sent B_established /\
  B.sessions (B.step (B.Datagram (datagram MAGIC 1 DATA 0 7 3 hi) peer1) B_established)
    = B.sessions B_established.
Proof.
  destruct handle_data_classification as [HA HB]. split.
  - unshelve epose proof
      (HA A_established 0%nat (A.Session peer1 7 1 A.RECEIVE (Some 1%nat) 20) 3 5 hi
          _ _ _ _ _ _ _) as H; [concrete .. |].
    destruct H as (_ & H & _). destruct H as (_ & m & _ & _ & _ & H & _); [concrete |].
    exact H.
  - unshelve epose proof
      (HB B_established (datagram MAGIC 1 DATA 0 7 3 hi) peer1
          (Struct.Header MAGIC 1 DATA 0 7 3) 0%nat (B.Session peer1 7 2 true (Some 4%nat))
          _ _ _ _ _ _ _ _ _ _ _ _) as H;
      [concrete | concrete | concrete | concrete | concrete | concrete | concrete
      | vm_compute; lia | concrete | concrete | concrete | concrete |].
    destruct H as ((_ & _ & _ & H2) & _ & _ & H). destruct H as (H1 & _); [concrete |].
    split; [exact H1 | exact H2].
Defined.

(** ** Other commands, delivered *)

(** C8, as the code has it. An A-server session in [WAIT_FOR_HELLO] that is
    handed a well-formed message of its own session ignores [DATA] and
    [GOODBYE] (no reply, nothing changes), and answers [GOODBYE] and
    terminates on a command that is none of [HELLO], [DATA] and [GOODBYE].
    The B server has no such state. A datagram for a session id that is not
    in its table and whose command is not [HELLO] is ignored: the clock is
    merged, one line is printed, no session is created and nothing is sent.
    A well-formed message with a command that is none of the three, arriving
    for a session of the sender, gets no reply either: the clock is merged,
    the idle timer re-armed, the session keeps its sequence tracking and its
    [active] flag, and it stays in the table when it is active and is deleted
    from it when its timeout had fired. *)
Theorem awaiting_hello_other_commands :
  (forall (s : A.server) (r : nat) (o : A.ServerSession) (message : bytes)
          (h : Struct.header),
     A.objs s !! r = Some o ->
     A.state o = A.WAIT_FOR_HELLO ->
     Struct.unpack (slice_to 20 message) = Some h ->
     Struct.magic h = MAGIC ->
     Struct.version h = 1 ->
     Struct.session_id h = A.session_id o ->
     (Struct.command h = DATA \/ Struct.command h = GOODBYE ->
      exec (A.handle_message r message) s = s) /\
     (Struct.command h <> HELLO -> Struct.command h <> DATA ->
      Struct.command h <> GOODBYE ->
      0 <= A.logical_clock s -> A.logical_clock s + 1 < 2 ^ 64 ->
      let s' := exec (A.handle_message r message) s in
      exists m,
        Struct.encode GOODBYE 0 (A.session_id o) (A.logical_clock s + 1) [] = Some m /\
        A.sent s' = A.sent s ++ [(m, A.client_address o)] /\
        A.state <$> A.objs s' !! r = Some A.DONE /\
        A.sessions s' !! A.session_id o = None)) /\
  (forall (t : B.server) (message : bytes) (addr : address) (h : Struct.header),
     Struct.unpack (slice_to 20 message) = Some h ->
     B.sessions t !! Struct.session_id h = None ->
     Struct.command h <> HELLO ->
     B.step (B.Datagram message addr) t =
       B.print_line (B.NotFound (Struct.session_id h) addr)
         (B.set_logical_clock
            (Z.max (B.logical_clock t) (Struct.logical_clock h) + 1) t)) /\
  (forall (t : B.server) (message : bytes) (addr : address) (h : Struct.header)
          (q : nat) (p : B.ServerSession),
     Struct.unpack (slice_to 20 message) = Some h ->
     Struct.magic h = MAGIC ->
     Struct.version h = 1 ->
     Struct.command h <> HELLO -> Struct.command h <> DATA ->
     Struct.command h <> GOODBYE ->
     B.sessions t !! Struct.session_id h = Some q ->
     B.objs t !! q = Some p ->
     B.client_address p = addr ->
     let t' := B.step (B.Datagram message addr) t in
     B.sent t' = B.sent t /\
     B.stdout t' = B.stdout t /\
     B.active <$> B.objs t' !! q = Some (B.active p) /\
     B.expected_sequence <$> B.objs t' !! q = Some (B.expected_sequence p) /\
     B.timer <$> B.objs t' !! q = Some (Some (B.next_id t)) /\
     B.timers t' !! B.next_id t = Some q /\
     B.logical_clock t' = Z.max (B.logical_clock t) (Struct.logical_clock h) + 1 /\
     B.sessions t' = if B.active p then B.sessions t
                     else delete (Struct.session_id h) (B.sessions t)).
Proof.
  split; [|split].
  - intros s r o message h Ho Hst Hu Hm Hv Hsid. split.
    + intros Hcmd. unfold exec.
      now rewrite (A_handle_message_waiting_ignored s r o message h Ho Hst Hu Hm Hv Hsid Hcmd).
    + intros H1 H2 H3 Hc Hmax. cbv zeta. unfold exec.
      rewrite (A_handle_message_unknown s r o message h Ho Hu Hm Hv Hsid H1 H2 H3).
      pose proof (unpack_range _ _ Hu) as (_ & _ & (_ & _ & Hr & _)). rewrite Hsid in Hr.
      destruct (A_goodbye_and_terminate_facts
                  (A.print_line (A.UnknownCommand (A.client_address o)) s) r o Ho Hr Hc Hmax)
        as (m & Hmsg & Hsent & Hobj & Hses & _).
      exists m. unfold exec in Hsent, Hobj, Hses.
      split; [exact Hmsg|]. split; [exact Hsent|]. split.
      * rewrite Hobj. reflexivity.
      * rewrite Hses. apply lookup_delete_eq.
  - intros t message addr h Hu Hs Hc. unfold B.step, exec, B.handle_client. rewrite Hu.
    unfold bind at 1, B.update_logical_clock. rewrite merge_max.
    unfold B.locked, bind at 1, get. cbn [B.sessions B.set_logical_clock]. rewrite Hs.
    apply Z.eqb_neq in Hc. rewrite Hc. reflexivity.
  - intros t message addr h q p Hu Hm Hv H1 H2 H3 Hs Ho Ha. cbv zeta.
    b_merged t1 Ho1.
    pose proof (B_process_message_unknown t1 q p message h Ho1 Hu Hm Hv H1 H2 H3) as Hpm.
    pose proof (B_rearmed_lookup t1 q p Ho1) as Ho'.
    destruct (B_rearmed_fields t1 q p) as (Fclk & Fsent & Fses & Fout & _ & Ftm).
    rewrite (B_step_existing t _ message addr h q p _ Hu Hs Ho Ha Hpm Ho').
    cbn [B.active B.with_timer].
    destruct (B_reaped_fields (B.active p) (Struct.session_id h) (B_rearmed q p t1))
      as (Ro & Rs & Rp & Rc & Rt & Rses).
    cbv zeta in Ro, Rs, Rp, Rc, Rt, Rses. rewrite Ro, Rs, Rp, Rc, Rt, Rses.
    b_fields Fclk Fsent Fses Fout Ho'.
    repeat split; try reflexivity. exact Ftm.
Qed.

Lemma awaiting_hello_other_commands_witness :
  exec (A.handle_message 0 (datagram MAGIC 1 GOODBYE 1 7 0 [])) A_awaiting = A_awaiting /\
  A.state <$> A.objs (exec (A.handle_message 0 (datagram MAGIC 1 ALIVE 1 7 0 [])) A_awaiting)
                !! 0%nat = Some A.DONE /\
  B.sessions (B.step (B.Datagram (datagram MAGIC 1 DATA 0 9 0 hi) peer2) B_handshaken)
    = B.sessions B_handshaken /\
  B.sent (B.step (B.Datagram (datagram MAGIC 1 ALIVE 1 7 0 []) peer1) B_handshaken)
    = B.sent B_handshaken.
Proof.
  destruct awaiting_hello_other_commands as (HA & HN & HB). split; [|split; [|split]].
  - unshelve epose proof
      (HA A_awaiting 0%nat (A.Session peer1 7 1 A.WAIT_FOR_HELLO None 20)
          (datagram MAGIC 1 GOODBYE 1 7 0 []) (Struct.Header MAGIC 1 GOODBYE 1 7 0)
          _ _ _ _ _ _) as H; [concrete .. |].
    destruct H as (H & _). apply H. right. reflexivity.
  - unshelve epose proof
      (HA A_awaiting 0%nat (A.Session peer1 7 1 A.WAIT_FOR_HELLO None 20)
          (datagram MAGIC 1 ALIVE 1 7 0 []) (Struct.Header MAGIC 1 ALIVE 1 7 0)
          _ _ _ _ _ _) as H; [concrete .. |].
    destruct H as (_ & H).
    destruct H as (m & _ & _ & H & _); [concrete .. |]. exact H.
  - unshelve epose proof
      (HN B_handshaken (datagram MAGIC 1 DATA 0 9 0 hi) peer2
          (Struct.Header MAGIC 1 DATA 0 9 0) _ _ _) as H; [concrete .. |].
    rewrite H. reflexivity.
  - unshelve epose proof
      (HB B_handshaken (datagram MAGIC 1 ALIVE 1 7 0 []) peer1
          (Struct.Header MAGIC 1 ALIVE 1 7 0) 0%nat (B.Session peer1 7 0 true (Some 2%nat))
          _ _ _ _ _ _ _ _ _) as H; [concrete .. |].
    destruct H as (H & _). exact H.
Defined.

(** ** A second [HELLO], delivered *)

(** X7: a second [HELLO] on an established session. The A server takes it
    for a protocol error: the session answers [GOODBYE], becomes [DONE] and
    leaves the table. The B server, when the [HELLO] arrives for a session
    of the sender, answers it like the first one, with a [HELLO] that echoes
    its sequence number; the clock is merged, the idle timer re-armed, the
    session keeps its sequence tracking and its [active] flag, and it stays
    in the table when it is active and is deleted from it when its timeout
    had fired. *)
Theorem second_hello :
  (forall (s : A.server) (r : nat) (o : A.ServerSession) (data : bytes) (h : Struct.header),
     A.objs s !! r = Some o ->
     A.state o <> A.WAIT_FOR_HELLO ->
     Struct.unpack (slice_to 20 data) = Some h ->
     Struct.magic h = MAGIC ->
     Struct.version h = 1 ->
     Struct.session_id h = A.session_id o ->
     Struct.command h = HELLO ->
     0 <= A.logical_clock s ->
     A.logical_clock s + 1 < 2 ^ 64 ->
     let s' := exec (A.handle_message r data) s in
     exists m,
       Struct.encode GOODBYE 0 (A.session_id o) (A.logical_clock s + 1) [] = Some m /\
       A.sent s' = A.sent s ++ [(m, A.client_address o)] /\
       A.state <$> A.objs s' !! r = Some A.DONE /\
       A.sessions s' !! A.session_id o = None) /\
  (forall (t : B.server) (message : bytes) (addr : address) (h : Struct.header)
          (q : nat) (p : B.ServerSession),
     Struct.unpack (slice_to 20 message) = Some h ->
     Struct.magic h = MAGIC ->
     Struct.version h = 1 ->
     Struct.command h = HELLO ->
     B.sessions t !! Struct.session_id h = Some q ->
     B.objs t !! q = Some p ->
     B.client_address p = addr ->
     0 <= B.session_id p < 2 ^ 32 ->
     0 <= B.logical_clock t ->
     Z.max (B.logical_clock t) (Struct.logical_clock h) + 2 < 2 ^ 64 ->
     let clock := Z.max (B.logical_clock t) (Struct.logical_clock h) + 1 in
     let t' := B.step (B.Datagram message addr) t in
     exists m,
       Struct.encode HELLO (Struct.sequence_number h) (B.session_id p) (clock + 1) []
         = Some m /\
       B.sent t' = B.sent t ++ [(m, addr)] /\
       B.active <$> B.objs t' !! q = Some (B.active p) /\
       B.expected_sequence <$> B.objs t' !! q = Some (B.expected_sequence p) /\
       B.timer <$> B.objs t' !! q = Some (Some (B.next_id t)) /\
       B.timers t' !! B.next_id t = Some q /\
       B.logical_clock t' = clock + 1 /\
       B.sessions t' = if B.active p then B.sessions t
                       else delete (Struct.session_id h) (B.sessions t)).
Proof.
  split.
  - intros s r o data h Ho Hst Hu Hm Hv Hsid Hc Hclk Hmax. cbv zeta. unfold exec.
    rewrite (A_handle_message_second_hello s r o data h Ho Hst Hu Hm Hv Hsid Hc).
    pose proof (unpack_range _ _ Hu) as (_ & _ & (_ & _ & Rsid & _)). rewrite Hsid in Rsid.
    destruct (A_goodbye_and_terminate_facts
                (A.print_line (A.HelloInState (A.state o)) s) r o Ho Rsid Hclk Hmax)
      as (m & Hmsg & Hsent & Hobj & Hses & _).
    unfold exec in Hsent, Hobj, Hses. exists m. rewrite Hobj, Hses.
    repeat split; try assumption. apply lookup_delete_eq.
  - intros t message addr h q p Hu Hm Hv Hc Hs Ho Ha Rsid Hclk Hmax. cbv zeta.
    b_merged t1 Ho1.
    pose proof (unpack_range _ _ Hu) as (_ & _ & (_ & Rseq & _ & _)).
    destruct (pack_in_range HELLO (Struct.sequence_number h) (B.session_id p)
                (Z.max (B.logical_clock t) (Struct.logical_clock h) + 1 + 1)) as [hd Hhd];
      [unfold Struct.in_range, HELLO; lia|].
    pose proof (B_process_message_hello t1 q p message h hd Ho1 Hu Hm Hv Hc Hhd) as Hpm.
    pose proof (B_rearmed_lookup t1 q p Ho1) as Ho'.
    destruct (B_rearmed_fields t1 q p) as (Fclk & Fsent & Fses & Fout & _ & Ftm).
    rewrite (B_step_existing t _ message addr h q p _ Hu Hs Ho Ha Hpm Ho').
    cbn [B.active B.with_timer].
    match goal with |- context [if _ then ?x else _] => set (t2 := x) end.
    destruct (B_reaped_fields (B.active p) (Struct.session_id h) t2)
      as (Ro & Rs & Rp & Rc & Rt & Rses).
    cbv zeta in Ro, Rs, Rp, Rc, Rt, Rses. exists hd. split; [now apply encode_header|].
    rewrite Ro, Rs, Rc, Rt, Rses. subst t2.
    b_fields Fclk Fsent Fses Fout Ho'. rewrite Ha.
    repeat split; try reflexivity. exact Ftm.
Qed.

Lemma second_hello_witness :
  A.sessions (exec (A.handle_message 0 (datagram MAGIC 1 HELLO 1 7 0 [])) A_established)
    !! 7 = None /\
  B.sessions (B.step (B.Datagram (datagram MAGIC 1 HELLO 1 7 0 []) peer1) B_established)
    = B.sessions B_established.
Proof.
  destruct second_hello as [HA HB]. split.
  - unshelve epose proof
      (HA A_established 0%nat (A.Session peer1 7 1 A.RECEIVE (Some 1%nat) 20)
          (datagram MAGIC 1 HELLO 1 7 0 []) (Struct.Header MAGIC 1 HELLO 1 7 0)
          _ _ _ _ _ _ _ _ _) as H; [concrete .. |].
    destruct H as (m & _ & _ & _ & H). exact H.
  - unshelve epose proof
      (HB B_established (datagram MAGIC 1 HELLO 1 7 0 []) peer1
          (Struct.Header MAGIC 1 HELLO 1 7 0) 0%nat (B.Session peer1 7 2 true (Some 4%nat))
          _ _ _ _ _ _ _ _ _ _) as H; [concrete .. |].
    destruct H as (m & _ & _ & _ & _ & _ & _ & _ & H). exact H.
Defined.
